(** * RepRap G-code protocol engine of OctoPrint: a shallow embedding

    The development follows
    [src/octoprint/comm/protocol/reprap/__init__.py] (the protocol engine
    [ReprapGcodeProtocol]) and
    [src/octoprint/comm/protocol/reprap/util/__init__.py] (its helpers
    [SendToken], [LineHistory], [PositionRecord], [TemperatureRecord] and
    [normalize_command_handler_result]).

    Python integers are unbounded and are modelled by [Z]; [bytes] values are
    lists of [byte]; [str] values are [string]; [set] values of tags are
    [gset string]; [dict] values are [gmap].  [None] is the [None] of
    [option].  Locks ([_mutex], [_line_mutex], ...) delimit critical sections
    of code that is modelled here as one sequential function per method, so a
    critical section is one state transformer. *)

From Stdlib Require Import ZArith List String Ascii Bool Lia.
From Stdlib Require Import DecimalString DecimalZ DecimalPos.
From Stdlib Require Import Strings.Byte.
From stdpp Require Import base option gmap sets list strings.

Open Scope Z_scope.

(** ** Send token ([util/__init__.py], class [SendToken]) *)

Module CountedEvent.

(** Modelled from the spec: [CountedEvent] of [octoprint.util], the base
    class of [SendToken], is not among the source files.  The spec gives the
    counter as an integer that is at least 0 with an optional upper bound
    ([set()] is [counter = min(counter+1, max)], [clear()] is
    [counter = max(0, counter-1)], the counter stays in [[0, max]]), so
    [_internal_set] stores the requested value clamped into that range. *)
Definition clamp (maximum : option Z) (value : Z) : Z :=
  Z.max 0 (match maximum with
           | Some m => Z.min value m
           | None => value
           end).

End CountedEvent.

Module SendToken.

Record t : Type := mk {
  _counter : Z;
  _max : option Z;
  _ignored : Z
}.

(** [self._internal_set(value)] of the base class, on the token's fields. *)
Definition _internal_set (value : Z) (s : t) : t :=
  {| _counter := CountedEvent.clamp (_max s) value;
     _max := _max s;
     _ignored := _ignored s |}.

(** [SendToken(value=0, maximum=None)]: the base class stores the start
    value through [_internal_set], then [_ignored = 0]. *)
Definition init (value : Z) (maximum : option Z) : t :=
  _internal_set value {| _counter := 0; _max := maximum; _ignored := 0 |}.

(** [def set(self, ignore=False)] *)
Definition set (ignore : bool) (s : t) : t :=
  let s1 :=
    if ignore
    then {| _counter := _counter s; _max := _max s;
            _ignored := _ignored s + 1 |}
    else s in
  _internal_set (_counter s1 + 1) s1.

(** [def clear(self, completely=False)]: in the [else] branch the last
    [_internal_set] is outside the [if self._ignored > 0] block and runs on
    both paths. *)
Definition clear (completely : bool) (s : t) : t :=
  if completely then
    let s1 := _internal_set 0 s in
    {| _counter := _counter s1; _max := _max s1; _ignored := 0 |}
  else
    let s1 :=
      if 0 <? _ignored s then
        let s2 := {| _counter := _counter s; _max := _max s;
                     _ignored := _ignored s - 1 |} in
        _internal_set (_counter s2 - 1) s2
      else s in
    _internal_set (_counter s1 - 1) s1.

(** Modelled from the spec: [blocked()] is inherited from the absent base
    class; the spec's table gives it as [counter == 0]. *)
Definition blocked (s : t) : bool := _counter s =? 0.

(** The range the counter is kept in by every operation. *)
Definition in_range (s : t) : Prop :=
  0 <= _counter s /\
  match _max s with Some m => _counter s <= m | None => True end.

End SendToken.

(** ** Temperature record ([util/__init__.py], class [TemperatureRecord]) *)

Module TemperatureRecord.

Section WithReading.

(** The type of a temperature reading (a Python [float] in the engine);
    the record only stores and hands back readings. *)
Context {T : Type}.

(** An (actual, target) pair; either component may be [None]. *)
Definition entry : Type := (option T * option T)%type.

Record t : Type := mk {
  _tools : gmap Z entry;
  _bed : entry;
  _chamber : entry
}.

(** [TemperatureRecord()] *)
Definition init : t :=
  {| _tools := ∅; _bed := (None, None); _chamber := (None, None) |}.

(** [_to_new_tuple(cls, current, actual, target)]; a [current] that is
    [None], not a tuple or not of length 2 is given as [None] here. *)
Definition _to_new_tuple (current : option entry)
    (actual target : option T) : entry :=
  let current :=
    match current with
    | Some c => c
    | None => (None, None)
    end in
  match actual, target with
  | None, None => current
  | _, _ =>
    let '(old_actual, old_target) := current in
    match actual with
    | None => (old_actual, target)
    | Some _ =>
      match target with
      | None => (actual, old_target)
      | Some _ => (actual, target)
      end
    end
  end.

(** [self._tools.get(tool, (None, None))] *)
Definition tool_entry (r : t) (tool : Z) : entry :=
  default (None, None) (_tools r !! tool).

(** [def set_tool(self, tool, actual=None, target=None)] *)
Definition set_tool (tool : Z) (actual target : option T) (r : t) : t :=
  let current := tool_entry r tool in
  {| _tools := <[tool := _to_new_tuple (Some current) actual target]>
                 (_tools r);
     _bed := _bed r;
     _chamber := _chamber r |}.

(** [def set_bed(self, actual=None, target=None)] *)
Definition set_bed (actual target : option T) (r : t) : t :=
  let current := _bed r in
  {| _tools := _tools r;
     _bed := _to_new_tuple (Some current) actual target;
     _chamber := _chamber r |}.

(** [def set_chamber(self, actual=None, target=None)] *)
Definition set_chamber (actual target : option T) (r : t) : t :=
  let current := _chamber r in
  {| _tools := _tools r;
     _bed := _bed r;
     _chamber := _to_new_tuple (Some current) actual target |}.

(** The [tools], [bed] and [chamber] properties. *)
Definition tools (r : t) : gmap Z entry := _tools r.
Definition bed (r : t) : entry := _bed r.
Definition chamber (r : t) : entry := _chamber r.

End WithReading.

Arguments t : clear implicits.
Arguments entry : clear implicits.

End TemperatureRecord.

(** ** Byte strings and decimal numerals *)

Module Py.

(** [bytes] *)
Definition bytes : Type := list byte.

(** [str(n)] for an integer [n]: the decimal numeral, with a leading minus
    sign for negative numbers. *)
Definition str_int (n : Z) : string := NilZero.string_of_int (Z.to_int n).

(** [s.encode("ascii")], used on decimal numerals only. *)
Definition encode_ascii (s : string) : bytes := list_byte_of_string s.

(** [to_bytes] and [to_unicode] of [octoprint.util] are not among the
    source files.  A [str] is represented by its encoded form, so the two
    conversions are the two directions between [string] and [list byte]. *)
Definition to_bytes (s : string) : bytes := list_byte_of_string s.
Definition to_unicode (b : bytes) : string := string_of_list_byte b.

(** The integer value of one element of a [bytearray]. *)
Definition byte_value (c : byte) : Z := Z.of_N (Byte.to_N c).

(** [b"N"], [b" "], [b"*"] and [b"\n"]. *)
Definition b_N : bytes := ["N"%byte].
Definition b_space : bytes := [" "%byte].
Definition b_star : bytes := ["*"%byte].
Definition b_newline : bytes := [x0a].

End Py.

(** ** Line history ([util/__init__.py], class [LineHistory]) *)

Module LineHistory.

Record t : Type := mk {
  max : nat;
  _lines : list (string * option Z);
  _line_number_lookup : gmap Z string
}.

(** [LineHistory(max=...)] *)
Definition init (max : nat) : t :=
  {| max := max; _lines := []; _line_number_lookup := ∅ |}.

(** The [while len(self._lines) > self.max] loop of [_cleanup]:
    [pop(0)] and, for a numbered entry, [del] of its lookup entry (a
    missing key is tolerated by the [except KeyError]). *)
Fixpoint _cleanup_loop (max : nat) (lines : list (string * option Z))
    (lookup : gmap Z string) : list (string * option Z) * gmap Z string :=
  match lines with
  | [] => ([], lookup)
  | (_, line_number) :: rest =>
    if (max <? length lines)%nat then
      _cleanup_loop max rest
        (match line_number with
         | Some n => delete n lookup
         | None => lookup
         end)
    else (lines, lookup)
  end.

(** [def _cleanup(self)] *)
Definition _cleanup (h : t) : t :=
  if (length (_lines h) <=? max h)%nat then h
  else
    let '(lines, lookup) :=
      _cleanup_loop (max h) (_lines h) (_line_number_lookup h) in
    {| max := max h; _lines := lines; _line_number_lookup := lookup |}.

(** [def append(self, line, line_number=None)] *)
Definition append (line : string) (line_number : option Z) (h : t) : t :=
  let lines := _lines h ++ [(line, line_number)] in
  let lookup :=
    match line_number with
    | Some n => <[n := line]> (_line_number_lookup h)
    | None => _line_number_lookup h
    end in
  _cleanup {| max := max h; _lines := lines; _line_number_lookup := lookup |}.

(** [def clear(self)] *)
Definition clear (h : t) : t :=
  {| max := max h; _lines := []; _line_number_lookup := ∅ |}.

(** [__len__], [__getitem__] ([None] stands for the [KeyError]),
    [__contains__] and the [lines] property. *)
Definition len (h : t) : nat := length (_lines h).
Definition getitem (line_number : Z) (h : t) : option string :=
  _line_number_lookup h !! line_number.
Definition contains (line_number : Z) (h : t) : bool :=
  bool_decide (is_Some (_line_number_lookup h !! line_number)).
Definition lines (h : t) : list string := map fst (_lines h).

End LineHistory.

(** ** Commands ([octoprint.comm.protocol.reprap.commands]) *)

Module Commands.

(** The value of a named G-code parameter as the tokenizer's tests show
    them: an integer ([x=0] for [X0]) or [True] for a bare letter ([c=True]
    for [C]).  Float parameters play no role in what follows. *)
Inductive ParamValue : Type :=
| PInt (z : Z)
| PTrue.

(** The three classes of commands: [GcodeCommand] with its [code] and
    named parameters, [AtCommand] with its [atcommand] name and
    [parameters], and the plain [Command] for any other line. *)
Inductive Kind : Type :=
| GcodeCommand (code : string) (params : gmap string ParamValue)
| AtCommand (atcommand : string) (parameters : string)
| PlainCommand.

(** A command: what it is, its [line], its [type] (the deduplication key of
    the queues) and its [tags]. *)
Record Command : Type := mkCommand {
  kind : Kind;
  line : string;
  type : option string;
  tags : gset string
}.

(** [isinstance(command, GcodeCommand)] and [isinstance(command, AtCommand)] *)
Definition is_gcode (c : Command) : bool :=
  match kind c with GcodeCommand _ _ => true | _ => false end.
Definition is_atcommand (c : Command) : bool :=
  match kind c with AtCommand _ _ => true | _ => false end.

(** [command.code] of a G-code command. *)
Definition code (c : Command) : option string :=
  match kind c with GcodeCommand code _ => Some code | _ => None end.

(** [command.n] and the like: the named parameter, [None] when the line
    has none of that letter. *)
Definition param (name : string) (c : Command) : option ParamValue :=
  match kind c with GcodeCommand _ params => params !! name | _ => None end.

(** [command.bytes]: the line as it goes on the wire. *)
Definition bytes (c : Command) : Py.bytes := Py.to_bytes (line c).

(** [copy.copy(c)] followed by [c.tags = tags]. *)
Definition set_tags (tags : gset string) (c : Command) : Command :=
  {| kind := kind c; line := line c; type := type c; tags := tags |}.

(** The two operations on commands that live in the absent [commands]
    package and that the engine is generic in: [to_command(line, type=...,
    tags=...)], which tokenizes a line into a command, and the comparison
    [a != b] of two commands. *)
Record Ops : Type := mkOps {
  to_command : string -> option string -> gset string -> Command;
  command_ne : Command -> Command -> bool
}.

(** What the doctests of [normalize_command_handler_result] show of
    [to_command]: the command it builds carries the tags it is given. *)
Definition keeps_tags (ops : Ops) : Prop :=
  forall l ty tg, tags (to_command ops l ty tg) = tg.

End Commands.

(** ** Normalizing handler results
       ([util/__init__.py], [normalize_command_handler_result]) *)

Module Normalize.

Import Commands.

(** One entry of a handler result: [None], a string, a [Command], a tuple
    of length 1, 2 or 3 (whose first component may be [None]), a tuple of
    another length, or a value of any other type. *)
Inductive Entry : Type :=
| ENone
| EStr (s : string)
| ECommand (c : Command)
| ETuple1 (command_line : option string)
| ETuple2 (command_line : option string) (command_type : option string)
| ETuple3 (command_line : option string) (command_type : option string)
          (command_tags : gset string)
| ETupleOther
| EOther.

(** A handler result: a [list] of entries, or a single entry (among them
    [None]). *)
Inductive Results : Type :=
| Single (e : Entry)
| Many (l : list Entry).

(** The inner [def expand_tags(tags, tags_to_add)]: [tags_to_add] is added
    when it is a non-empty set; [None] stands for a [tags_to_add] that is
    [None]. *)
Definition expand_tags (tags : gset string)
    (tags_to_add : option (gset string)) : gset string :=
  match tags_to_add with
  | Some extra =>
    if bool_decide (extra = ∅) then tags else tags ∪ extra
  | None => tags
  end.

(** [a != b] on two optional strings. *)
Definition opt_str_ne (a b : option string) : bool :=
  negb (bool_decide (a = b)).

(** The body of the [for handler_result in handler_results] loop: the
    commands one entry appends to [result] (none or one). *)
Definition normalize_entry (ops : Ops) (original : Command)
    (tags_to_add : option (gset string)) (handler_result : Entry)
    : list Command :=
  match handler_result with
  | ENone => []
  | EStr s =>
    if negb (String.eqb s (line original)) then
      [to_command ops s (type original)
         (expand_tags (tags original) tags_to_add)]
    else [original]
  | ECommand c =>
    if command_ne ops c original then
      [set_tags (expand_tags (tags original) tags_to_add) c]
    else [original]
  | ETuple1 command_line =>
    match command_line with
    | None => []
    | Some l =>
      let command_type := type original in
      let command_tags := tags original in
      let command_tags :=
        if negb (String.eqb l (line original))
           || opt_str_ne command_type (type original)
        then expand_tags command_tags tags_to_add else command_tags in
      [to_command ops l command_type command_tags]
    end
  | ETuple2 command_line command_type =>
    match command_line with
    | None => []
    | Some l =>
      let command_tags := tags original in
      let command_tags :=
        if negb (String.eqb l (line original))
           || opt_str_ne command_type (type original)
        then expand_tags command_tags tags_to_add else command_tags in
      [to_command ops l command_type command_tags]
    end
  | ETuple3 command_line command_type command_tags =>
    match command_line with
    | None => []
    | Some l =>
      let command_tags :=
        if negb (String.eqb l (line original))
           || opt_str_ne command_type (type original)
        then expand_tags command_tags tags_to_add else command_tags in
      [to_command ops l command_type command_tags]
    end
  | ETupleOther => []
  | EOther => []
  end.

(** [def normalize_command_handler_result(command, handler_results,
    tags_to_add=None)] *)
Definition normalize_command_handler_result (ops : Ops) (command : Command)
    (handler_results : Results) (tags_to_add : option (gset string))
    : list Command :=
  let original := command in
  match handler_results with
  | Single ENone => [original]
  | Single e => normalize_entry ops original tags_to_add e
  | Many l => flat_map (normalize_entry ops original tags_to_add) l
  end.

(** The entries of a handler result. *)
Definition entries (handler_results : Results) : list Entry :=
match handler_results with
| Single e => [e]
| Many l => l
end.

(** An entry that puts another command in the place of [original]: a string
    that is not its line, a [Command] that differs from it, or a tuple of
    length 1 or 2 whose line or type is not the original's. *)
Definition rewrites (ops : Ops) (original : Command) (e : Entry) : bool :=
match e with
| EStr s => negb (String.eqb s (line original))
| ECommand c => command_ne ops c original
| ETuple1 (Some l) => negb (String.eqb l (line original))
| ETuple2 (Some l) command_type =>
  negb (String.eqb l (line original))
  || opt_str_ne command_type (type original)
| _ => false
end.

(** The tags a caller asks to add; none when it passes [None]. *)
Definition tags_of (tags_to_add : option (gset string)) : gset string :=
default ∅ tags_to_add.

End Normalize.

(** ** The protocol engine ([__init__.py], class [ReprapGcodeProtocol]) *)

Module Protocol.

Import Commands.

(** *** Collaborators that are outside the source files *)

(** Modelled from the spec: [ProtocolState] of [octoprint.comm.protocol] is
    not among the source files; the spec lists its values, gives the
    operational states as the ones that are not disconnected, and lists
    the processing states. *)
Inductive ProtocolState : Type :=
| DISCONNECTED | DISCONNECTED_WITH_ERROR | CONNECTING | CONNECTED
| STARTING | PROCESSING | PAUSING | PAUSED | RESUMING | CANCELLING
| FINISHING | ERROR.

#[global] Instance ProtocolState_eq_dec : EqDecision ProtocolState.
Proof. solve_decision. Defined.

Definition OPERATIONAL_STATES : list ProtocolState :=
  [CONNECTING; CONNECTED; STARTING; PROCESSING; PAUSING; PAUSED; RESUMING;
   CANCELLING; FINISHING; ERROR].

Definition PROCESSING_STATES : list ProtocolState :=
  [STARTING; PROCESSING; PAUSING; CANCELLING; RESUMING; FINISHING].

(** [state in (a, b, ...)] *)
Definition state_in (s : ProtocolState) (l : list ProtocolState) : bool :=
  bool_decide (s ∈ l).

(** The configuration keys of the flavor that the modelled methods read. *)
Record Flavor : Type := mkFlavor {
  unknown_requires_ack : bool;
  unknown_with_checksum : bool;
  send_checksum : string;
  checksum_requiring_commands : list string;
  block_while_dwelling : bool;
  trigger_ok_after_resend : string;
  emergency_commands : list string;
  pausing_commands : list string;
  blocked_commands : list string;
  (** the command [command_emergency_stop()] returns *)
  command_emergency_stop : Command
}.

(** The classes of jobs the engine tells apart with [isinstance], and a job
    with the attribute of it that is read here, [exclusive]. *)
Inductive JobClass : Type :=
| LocalGcodeFilePrintjob | LocalGcodeStreamjob | SDFilePrintjob | OtherJob.

Record Job : Type := mkJob {
  job_class : JobClass;
  exclusive : bool
}.

(** What sits in the send queue in the place of the command: a command or
    a [SendQueueMarker], named by the number of its callback. *)
Inductive QueueItem : Type :=
| ItemCommand (c : Command)
| ItemMarker (marker : nat).

(** The tuple [(command, linenumber, on_sent, processed)] put into the send
    queue; a callback is named by its number. *)
Record SendEntry : Type := mkSendEntry {
  entry_command : QueueItem;
  entry_linenumber : option Z;
  entry_on_sent : option nat;
  entry_processed : bool
}.

Module SendQueue.

(** Modelled from the spec: [SendQueue] of [util.queues] is not among the
    source files.  The spec gives the contract used here: a FIFO whose
    [put] fails with [TypeAlreadyInQueue] when an item with the same
    non-null [item_type] is still pending, every item having a target
    (["send"] or ["resend"]), and a [resend_active] flag. *)
Record t : Type := mk {
  pending : list (SendEntry * option string * string);
  resend_active : bool
}.

Definition init : t := {| pending := []; resend_active := false |}.

Definition type_pending (item_type : string) (q : t) : bool :=
  existsb (fun '(_, ty, _) => bool_decide (ty = Some item_type))
          (pending q).

(** [put(item, item_type=..., target=...)]; [None] stands for the
    [TypeAlreadyInQueue] exception. *)
Definition put (item : SendEntry) (item_type : option string)
    (target : string) (q : t) : option t :=
  match item_type with
  | Some ty =>
    if type_pending ty q then None
    else Some {| pending := pending q ++ [(item, item_type, target)];
                 resend_active := resend_active q |}
  | None =>
    Some {| pending := pending q ++ [(item, item_type, target)];
            resend_active := resend_active q |}
  end.

Definition set_resend_active (b : bool) (q : t) : t :=
  {| pending := pending q; resend_active := b |}.

End SendQueue.

(** Calls that leave the modelled part of the engine.  They are recorded,
    in order, in the [trace] of the state, and the record is all the model
    has of them: [_continue_sending] (lines 2389-2427), [pause_processing]
    (960-1023), [cancel_processing] (853-914) and [resume_processing] work
    on the job and on the command and job queues, which are not part of
    the state below, switch the protocol state and send further commands
    through [_send_command].  What the state is after such a call is
    therefore not described here; the statements below speak of the
    state up to the call, of the call itself, and of what the caller
    assigns after it. *)
Inductive Effect : Type :=
| CallContinueSending
| CallSendCommand (c : Command)
| CallDisconnect (error : bool)
| CallPauseProcessing (tags : gset string)
| CallCancelProcessing (error : bool) (tags : gset string)
| CallResumeProcessing (tags : gset string)
| CallAtcommandHook (name : string) (atcommand parameters : string)
| CallOnSent (callback : nat)
| CallMarkerRun (marker : nat)
| CallSleep (duration : Z)
| SwitchState (old new : ProtocolState).

(** *** The state of the engine *)

(** The keys of [self._internal_flags] that the modelled methods use.
    Instants and durations of the monotonic clock are numbers of clock
    ticks. *)
Record Flags : Type := mkFlags {
  heating_start : option Z;
  heating_lost : Z;
  heating : bool;
  current_tool : Z;
  former_tool : option Z;
  resend_requested : option Z;
  resend_linenumber : option Z;
  resend_count : option Z;
  long_running_command : bool;
  ignore_ok : Z;
  timeout_consecutive : Z;
  ok_timeout : option Z;
  dwelling_until : option Z;
  firmware_identified : bool;
  firmware_capabilities : gmap string bool;
  firmware_capability_support : gmap string bool;
  busy_detected : bool
}.

(** [self.max_consecutive_timeouts], a dict with the keys ["idle"],
    ["printing"] and ["long"]. *)
Record MaxConsecutiveTimeouts : Type := mkMaxConsecutiveTimeouts {
  max_idle : Z;
  max_printing : Z;
  max_long : Z
}.

Record t : Type := mk {
  state : ProtocolState;
  flavor : Flavor;
  timeouts : gmap string Z;
  max_consecutive_timeouts : MaxConsecutiveTimeouts;
  _internal_flags : Flags;
  _send_queue : SendQueue.t;
  _clear_to_send : SendToken.t;
  _current_linenumber : Z;
  _last_lines : LineHistory.t;
  _last_communication_error : option string;
  _resend_ok_timer : bool;
  _send_queue_active : bool;
  _job : option Job;
  error : option string;
  (** [self._transport.message_integrity] *)
  message_integrity : bool;
  (** every [self._transport.write(data)], oldest first *)
  written : list Py.bytes;
  trace : list Effect
}.

(** *** Assignments

    [set_x v s] is the state after [self.x = v]; [flag_x v fl] is the flags
    dictionary after [self._internal_flags["x"] = v]. *)

Definition flag_heating_start (v : option Z) (fl : Flags) : Flags :=
{| heating_start := v; heating_lost := heating_lost fl;
   heating := heating fl; current_tool := current_tool fl;
   former_tool := former_tool fl; resend_requested := resend_requested fl;
   resend_linenumber := resend_linenumber fl;
   resend_count := resend_count fl;
   long_running_command := long_running_command fl;
   ignore_ok := ignore_ok fl; timeout_consecutive := timeout_consecutive fl;
   ok_timeout := ok_timeout fl; dwelling_until := dwelling_until fl;
   firmware_identified := firmware_identified fl;
   firmware_capabilities := firmware_capabilities fl;
   firmware_capability_support := firmware_capability_support fl;
   busy_detected := busy_detected fl |}.

Definition flag_heating_lost (v : Z) (fl : Flags) : Flags :=
{| heating_start := heating_start fl; heating_lost := v;
   heating := heating fl; current_tool := current_tool fl;
   former_tool := former_tool fl; resend_requested := resend_requested fl;
   resend_linenumber := resend_linenumber fl;
   resend_count := resend_count fl;
   long_running_command := long_running_command fl;
   ignore_ok := ignore_ok fl; timeout_consecutive := timeout_consecutive fl;
   ok_timeout := ok_timeout fl; dwelling_until := dwelling_until fl;
   firmware_identified := firmware_identified fl;
   firmware_capabilities := firmware_capabilities fl;
   firmware_capability_support := firmware_capability_support fl;
   busy_detected := busy_detected fl |}.

Definition flag_heating (v : bool) (fl : Flags) : Flags :=
{| heating_start := heating_start fl; heating_lost := heating_lost fl;
   heating := v; current_tool := current_tool fl;
   former_tool := former_tool fl; resend_requested := resend_requested fl;
   resend_linenumber := resend_linenumber fl;
   resend_count := resend_count fl;
   long_running_command := long_running_command fl;
   ignore_ok := ignore_ok fl; timeout_consecutive := timeout_consecutive fl;
   ok_timeout := ok_timeout fl; dwelling_until := dwelling_until fl;
   firmware_identified := firmware_identified fl;
   firmware_capabilities := firmware_capabilities fl;
   firmware_capability_support := firmware_capability_support fl;
   busy_detected := busy_detected fl |}.

Definition flag_current_tool (v : Z) (fl : Flags) : Flags :=
{| heating_start := heating_start fl; heating_lost := heating_lost fl;
   heating := heating fl; current_tool := v; former_tool := former_tool fl;
   resend_requested := resend_requested fl;
   resend_linenumber := resend_linenumber fl;
   resend_count := resend_count fl;
   long_running_command := long_running_command fl;
   ignore_ok := ignore_ok fl; timeout_consecutive := timeout_consecutive fl;
   ok_timeout := ok_timeout fl; dwelling_until := dwelling_until fl;
   firmware_identified := firmware_identified fl;
   firmware_capabilities := firmware_capabilities fl;
   firmware_capability_support := firmware_capability_support fl;
   busy_detected := busy_detected fl |}.

Definition flag_former_tool (v : option Z) (fl : Flags) : Flags :=
{| heating_start := heating_start fl; heating_lost := heating_lost fl;
   heating := heating fl; current_tool := current_tool fl; former_tool := v;
   resend_requested := resend_requested fl;
   resend_linenumber := resend_linenumber fl;
   resend_count := resend_count fl;
   long_running_command := long_running_command fl;
   ignore_ok := ignore_ok fl; timeout_consecutive := timeout_consecutive fl;
   ok_timeout := ok_timeout fl; dwelling_until := dwelling_until fl;
   firmware_identified := firmware_identified fl;
   firmware_capabilities := firmware_capabilities fl;
   firmware_capability_support := firmware_capability_support fl;
   busy_detected := busy_detected fl |}.

Definition flag_resend_requested (v : option Z) (fl : Flags) : Flags :=
{| heating_start := heating_start fl; heating_lost := heating_lost fl;
   heating := heating fl; current_tool := current_tool fl;
   former_tool := former_tool fl; resend_requested := v;
   resend_linenumber := resend_linenumber fl;
   resend_count := resend_count fl;
   long_running_command := long_running_command fl;
   ignore_ok := ignore_ok fl; timeout_consecutive := timeout_consecutive fl;
   ok_timeout := ok_timeout fl; dwelling_until := dwelling_until fl;
   firmware_identified := firmware_identified fl;
   firmware_capabilities := firmware_capabilities fl;
   firmware_capability_support := firmware_capability_support fl;
   busy_detected := busy_detected fl |}.

Definition flag_resend_linenumber (v : option Z) (fl : Flags) : Flags :=
{| heating_start := heating_start fl; heating_lost := heating_lost fl;
   heating := heating fl; current_tool := current_tool fl;
   former_tool := former_tool fl; resend_requested := resend_requested fl;
   resend_linenumber := v; resend_count := resend_count fl;
   long_running_command := long_running_command fl;
   ignore_ok := ignore_ok fl; timeout_consecutive := timeout_consecutive fl;
   ok_timeout := ok_timeout fl; dwelling_until := dwelling_until fl;
   firmware_identified := firmware_identified fl;
   firmware_capabilities := firmware_capabilities fl;
   firmware_capability_support := firmware_capability_support fl;
   busy_detected := busy_detected fl |}.

Definition flag_resend_count (v : option Z) (fl : Flags) : Flags :=
{| heating_start := heating_start fl; heating_lost := heating_lost fl;
   heating := heating fl; current_tool := current_tool fl;
   former_tool := former_tool fl; resend_requested := resend_requested fl;
   resend_linenumber := resend_linenumber fl; resend_count := v;
   long_running_command := long_running_command fl;
   ignore_ok := ignore_ok fl; timeout_consecutive := timeout_consecutive fl;
   ok_timeout := ok_timeout fl; dwelling_until := dwelling_until fl;
   firmware_identified := firmware_identified fl;
   firmware_capabilities := firmware_capabilities fl;
   firmware_capability_support := firmware_capability_support fl;
   busy_detected := busy_detected fl |}.

Definition flag_long_running_command (v : bool) (fl : Flags) : Flags :=
{| heating_start := heating_start fl; heating_lost := heating_lost fl;
   heating := heating fl; current_tool := current_tool fl;
   former_tool := former_tool fl; resend_requested := resend_requested fl;
   resend_linenumber := resend_linenumber fl;
   resend_count := resend_count fl; long_running_command := v;
   ignore_ok := ignore_ok fl; timeout_consecutive := timeout_consecutive fl;
   ok_timeout := ok_timeout fl; dwelling_until := dwelling_until fl;
   firmware_identified := firmware_identified fl;
   firmware_capabilities := firmware_capabilities fl;
   firmware_capability_support := firmware_capability_support fl;
   busy_detected := busy_detected fl |}.

Definition flag_ignore_ok (v : Z) (fl : Flags) : Flags :=
{| heating_start := heating_start fl; heating_lost := heating_lost fl;
   heating := heating fl; current_tool := current_tool fl;
   former_tool := former_tool fl; resend_requested := resend_requested fl;
   resend_linenumber := resend_linenumber fl;
   resend_count := resend_count fl;
   long_running_command := long_running_command fl; ignore_ok := v;
   timeout_consecutive := timeout_consecutive fl;
   ok_timeout := ok_timeout fl; dwelling_until := dwelling_until fl;
   firmware_identified := firmware_identified fl;
   firmware_capabilities := firmware_capabilities fl;
   firmware_capability_support := firmware_capability_support fl;
   busy_detected := busy_detected fl |}.

Definition flag_timeout_consecutive (v : Z) (fl : Flags) : Flags :=
{| heating_start := heating_start fl; heating_lost := heating_lost fl;
   heating := heating fl; current_tool := current_tool fl;
   former_tool := former_tool fl; resend_requested := resend_requested fl;
   resend_linenumber := resend_linenumber fl;
   resend_count := resend_count fl;
   long_running_command := long_running_command fl;
   ignore_ok := ignore_ok fl; timeout_consecutive := v;
   ok_timeout := ok_timeout fl; dwelling_until := dwelling_until fl;
   firmware_identified := firmware_identified fl;
   firmware_capabilities := firmware_capabilities fl;
   firmware_capability_support := firmware_capability_support fl;
   busy_detected := busy_detected fl |}.

Definition flag_ok_timeout (v : option Z) (fl : Flags) : Flags :=
{| heating_start := heating_start fl; heating_lost := heating_lost fl;
   heating := heating fl; current_tool := current_tool fl;
   former_tool := former_tool fl; resend_requested := resend_requested fl;
   resend_linenumber := resend_linenumber fl;
   resend_count := resend_count fl;
   long_running_command := long_running_command fl;
   ignore_ok := ignore_ok fl; timeout_consecutive := timeout_consecutive fl;
   ok_timeout := v; dwelling_until := dwelling_until fl;
   firmware_identified := firmware_identified fl;
   firmware_capabilities := firmware_capabilities fl;
   firmware_capability_support := firmware_capability_support fl;
   busy_detected := busy_detected fl |}.

Definition flag_dwelling_until (v : option Z) (fl : Flags) : Flags :=
{| heating_start := heating_start fl; heating_lost := heating_lost fl;
   heating := heating fl; current_tool := current_tool fl;
   former_tool := former_tool fl; resend_requested := resend_requested fl;
   resend_linenumber := resend_linenumber fl;
   resend_count := resend_count fl;
   long_running_command := long_running_command fl;
   ignore_ok := ignore_ok fl; timeout_consecutive := timeout_consecutive fl;
   ok_timeout := ok_timeout fl; dwelling_until := v;
   firmware_identified := firmware_identified fl;
   firmware_capabilities := firmware_capabilities fl;
   firmware_capability_support := firmware_capability_support fl;
   busy_detected := busy_detected fl |}.

Definition flag_firmware_capabilities (v : gmap string bool) (fl : Flags) : Flags :=
{| heating_start := heating_start fl; heating_lost := heating_lost fl;
   heating := heating fl; current_tool := current_tool fl;
   former_tool := former_tool fl; resend_requested := resend_requested fl;
   resend_linenumber := resend_linenumber fl;
   resend_count := resend_count fl;
   long_running_command := long_running_command fl;
   ignore_ok := ignore_ok fl; timeout_consecutive := timeout_consecutive fl;
   ok_timeout := ok_timeout fl; dwelling_until := dwelling_until fl;
   firmware_identified := firmware_identified fl; firmware_capabilities := v;
   firmware_capability_support := firmware_capability_support fl;
   busy_detected := busy_detected fl |}.

Definition flag_firmware_capability_support (v : gmap string bool) (fl : Flags) : Flags :=
{| heating_start := heating_start fl; heating_lost := heating_lost fl;
   heating := heating fl; current_tool := current_tool fl;
   former_tool := former_tool fl; resend_requested := resend_requested fl;
   resend_linenumber := resend_linenumber fl;
   resend_count := resend_count fl;
   long_running_command := long_running_command fl;
   ignore_ok := ignore_ok fl; timeout_consecutive := timeout_consecutive fl;
   ok_timeout := ok_timeout fl; dwelling_until := dwelling_until fl;
   firmware_identified := firmware_identified fl;
   firmware_capabilities := firmware_capabilities fl;
   firmware_capability_support := v; busy_detected := busy_detected fl |}.

Definition set_state (v : ProtocolState) (s : t) : t :=
{| state := v; flavor := flavor s; timeouts := timeouts s;
   max_consecutive_timeouts := max_consecutive_timeouts s;
   _internal_flags := _internal_flags s; _send_queue := _send_queue s;
   _clear_to_send := _clear_to_send s;
   _current_linenumber := _current_linenumber s;
   _last_lines := _last_lines s;
   _last_communication_error := _last_communication_error s;
   _resend_ok_timer := _resend_ok_timer s;
   _send_queue_active := _send_queue_active s; _job := _job s;
   error := error s; message_integrity := message_integrity s;
   written := written s; trace := trace s |}.

Definition set_internal_flags (v : Flags) (s : t) : t :=
{| state := state s; flavor := flavor s; timeouts := timeouts s;
   max_consecutive_timeouts := max_consecutive_timeouts s;
   _internal_flags := v; _send_queue := _send_queue s;
   _clear_to_send := _clear_to_send s;
   _current_linenumber := _current_linenumber s;
   _last_lines := _last_lines s;
   _last_communication_error := _last_communication_error s;
   _resend_ok_timer := _resend_ok_timer s;
   _send_queue_active := _send_queue_active s; _job := _job s;
   error := error s; message_integrity := message_integrity s;
   written := written s; trace := trace s |}.

Definition set_send_queue (v : SendQueue.t) (s : t) : t :=
{| state := state s; flavor := flavor s; timeouts := timeouts s;
   max_consecutive_timeouts := max_consecutive_timeouts s;
   _internal_flags := _internal_flags s; _send_queue := v;
   _clear_to_send := _clear_to_send s;
   _current_linenumber := _current_linenumber s;
   _last_lines := _last_lines s;
   _last_communication_error := _last_communication_error s;
   _resend_ok_timer := _resend_ok_timer s;
   _send_queue_active := _send_queue_active s; _job := _job s;
   error := error s; message_integrity := message_integrity s;
   written := written s; trace := trace s |}.

Definition set_clear_to_send (v : SendToken.t) (s : t) : t :=
{| state := state s; flavor := flavor s; timeouts := timeouts s;
   max_consecutive_timeouts := max_consecutive_timeouts s;
   _internal_flags := _internal_flags s; _send_queue := _send_queue s;
   _clear_to_send := v; _current_linenumber := _current_linenumber s;
   _last_lines := _last_lines s;
   _last_communication_error := _last_communication_error s;
   _resend_ok_timer := _resend_ok_timer s;
   _send_queue_active := _send_queue_active s; _job := _job s;
   error := error s; message_integrity := message_integrity s;
   written := written s; trace := trace s |}.

Definition set_current_linenumber (v : Z) (s : t) : t :=
{| state := state s; flavor := flavor s; timeouts := timeouts s;
   max_consecutive_timeouts := max_consecutive_timeouts s;
   _internal_flags := _internal_flags s; _send_queue := _send_queue s;
   _clear_to_send := _clear_to_send s; _current_linenumber := v;
   _last_lines := _last_lines s;
   _last_communication_error := _last_communication_error s;
   _resend_ok_timer := _resend_ok_timer s;
   _send_queue_active := _send_queue_active s; _job := _job s;
   error := error s; message_integrity := message_integrity s;
   written := written s; trace := trace s |}.

Definition set_last_lines (v : LineHistory.t) (s : t) : t :=
{| state := state s; flavor := flavor s; timeouts := timeouts s;
   max_consecutive_timeouts := max_consecutive_timeouts s;
   _internal_flags := _internal_flags s; _send_queue := _send_queue s;
   _clear_to_send := _clear_to_send s;
   _current_linenumber := _current_linenumber s; _last_lines := v;
   _last_communication_error := _last_communication_error s;
   _resend_ok_timer := _resend_ok_timer s;
   _send_queue_active := _send_queue_active s; _job := _job s;
   error := error s; message_integrity := message_integrity s;
   written := written s; trace := trace s |}.

Definition set_last_communication_error (v : option string) (s : t) : t :=
{| state := state s; flavor := flavor s; timeouts := timeouts s;
   max_consecutive_timeouts := max_consecutive_timeouts s;
   _internal_flags := _internal_flags s; _send_queue := _send_queue s;
   _clear_to_send := _clear_to_send s;
   _current_linenumber := _current_linenumber s;
   _last_lines := _last_lines s; _last_communication_error := v;
   _resend_ok_timer := _resend_ok_timer s;
   _send_queue_active := _send_queue_active s; _job := _job s;
   error := error s; message_integrity := message_integrity s;
   written := written s; trace := trace s |}.

Definition set_resend_ok_timer (v : bool) (s : t) : t :=
{| state := state s; flavor := flavor s; timeouts := timeouts s;
   max_consecutive_timeouts := max_consecutive_timeouts s;
   _internal_flags := _internal_flags s; _send_queue := _send_queue s;
   _clear_to_send := _clear_to_send s;
   _current_linenumber := _current_linenumber s;
   _last_lines := _last_lines s;
   _last_communication_error := _last_communication_error s;
   _resend_ok_timer := v; _send_queue_active := _send_queue_active s;
   _job := _job s; error := error s;
   message_integrity := message_integrity s; written := written s;
   trace := trace s |}.

Definition set_send_queue_active (v : bool) (s : t) : t :=
{| state := state s; flavor := flavor s; timeouts := timeouts s;
   max_consecutive_timeouts := max_consecutive_timeouts s;
   _internal_flags := _internal_flags s; _send_queue := _send_queue s;
   _clear_to_send := _clear_to_send s;
   _current_linenumber := _current_linenumber s;
   _last_lines := _last_lines s;
   _last_communication_error := _last_communication_error s;
   _resend_ok_timer := _resend_ok_timer s; _send_queue_active := v;
   _job := _job s; error := error s;
   message_integrity := message_integrity s; written := written s;
   trace := trace s |}.

Definition set_job (v : option Job) (s : t) : t :=
{| state := state s; flavor := flavor s; timeouts := timeouts s;
   max_consecutive_timeouts := max_consecutive_timeouts s;
   _internal_flags := _internal_flags s; _send_queue := _send_queue s;
   _clear_to_send := _clear_to_send s;
   _current_linenumber := _current_linenumber s;
   _last_lines := _last_lines s;
   _last_communication_error := _last_communication_error s;
   _resend_ok_timer := _resend_ok_timer s;
   _send_queue_active := _send_queue_active s; _job := v; error := error s;
   message_integrity := message_integrity s; written := written s;
   trace := trace s |}.

Definition set_error (v : option string) (s : t) : t :=
{| state := state s; flavor := flavor s; timeouts := timeouts s;
   max_consecutive_timeouts := max_consecutive_timeouts s;
   _internal_flags := _internal_flags s; _send_queue := _send_queue s;
   _clear_to_send := _clear_to_send s;
   _current_linenumber := _current_linenumber s;
   _last_lines := _last_lines s;
   _last_communication_error := _last_communication_error s;
   _resend_ok_timer := _resend_ok_timer s;
   _send_queue_active := _send_queue_active s; _job := _job s; error := v;
   message_integrity := message_integrity s; written := written s;
   trace := trace s |}.

Definition set_written (v : list Py.bytes) (s : t) : t :=
{| state := state s; flavor := flavor s; timeouts := timeouts s;
   max_consecutive_timeouts := max_consecutive_timeouts s;
   _internal_flags := _internal_flags s; _send_queue := _send_queue s;
   _clear_to_send := _clear_to_send s;
   _current_linenumber := _current_linenumber s;
   _last_lines := _last_lines s;
   _last_communication_error := _last_communication_error s;
   _resend_ok_timer := _resend_ok_timer s;
   _send_queue_active := _send_queue_active s; _job := _job s;
   error := error s; message_integrity := message_integrity s; written := v;
   trace := trace s |}.

Definition set_trace (v : list Effect) (s : t) : t :=
{| state := state s; flavor := flavor s; timeouts := timeouts s;
   max_consecutive_timeouts := max_consecutive_timeouts s;
   _internal_flags := _internal_flags s; _send_queue := _send_queue s;
   _clear_to_send := _clear_to_send s;
   _current_linenumber := _current_linenumber s;
   _last_lines := _last_lines s;
   _last_communication_error := _last_communication_error s;
   _resend_ok_timer := _resend_ok_timer s;
   _send_queue_active := _send_queue_active s; _job := _job s;
   error := error s; message_integrity := message_integrity s;
   written := written s; trace := v |}.

(** [self._internal_flags["x"] = v] on the state. *)
Definition set_flag (f : Flags -> Flags) (s : t) : t :=
  set_internal_flags (f (_internal_flags s)) s.

(** A recorded call, and a [self._transport.write(data)]. *)
Definition call (e : Effect) (s : t) : t := set_trace (trace s ++ [e]) s.
Definition transport_write (data : Py.bytes) (s : t) : t :=
  set_written (written s ++ [data]) s.

(** *** Hook containers *)

(** A hook is named by the plugin that registered it. *)
Definition hooks : Type := list string.

(** The Python values hooks are kept in: a [dict] from phase to hooks, or
    a [tuple] of such dicts. *)
Inductive HookContainer : Type :=
| PyDict (d : gmap string hooks)
| PyTuple (items : list (gmap string hooks)).

(** How a method call ends: it returns, or an exception of the named class
    leaves it. *)
Inductive Outcome (A : Type) : Type :=
| Returns (a : A)
| Raises (exception : string).
Arguments Returns {A} a.
Arguments Raises {A} exception.

(** [container[key]] for a string [key]: a [dict] gives the value or a
    [KeyError]; a [tuple] takes integers and slices only and raises
    [TypeError]. *)
Definition getitem_str (container : HookContainer) (key : string)
    : Outcome hooks :=
  match container with
  | PyDict d =>
    match d !! key with
    | Some v => Returns v
    | None => Raises "KeyError"
    end
  | PyTuple _ => Raises "TypeError"
  end.

(** The hooks the plugin manager hands out: [get_hooks(name)]. *)
Definition PluginManager : Type := string -> hooks.

(** [self._atcommand_hooks] as [__init__] assigns it; the assignment reads
    [self._atcommand_hooks = ({...},)], a parenthesised dict display
    followed by a comma. *)
Definition _atcommand_hooks (get_hooks : PluginManager) : HookContainer :=
  PyTuple
    [ <["queuing"%string :=
          get_hooks "octoprint.comm.protocol.atcommand.queuing"%string]>
        (<["sending"%string :=
             get_hooks "octoprint.comm.protocol.atcommand.sending"%string]>
           ∅) ].

(** [self._gcode_hooks] as [__init__] assigns it: a dict. *)
Definition _gcode_hooks (get_hooks : PluginManager) : HookContainer :=
  PyDict
    (<["queuing"%string :=
         get_hooks "octoprint.comm.protocol.gcode.queuing"%string]>
       (<["queued"%string :=
            get_hooks "octoprint.comm.protocol.gcode.queued"%string]>
          (<["sending"%string :=
               get_hooks "octoprint.comm.protocol.gcode.sending"%string]>
             (<["sent"%string :=
                  get_hooks "octoprint.comm.protocol.gcode.sent"%string]>
                (<["receiving"%string :=
                     get_hooks "octoprint.comm.protocol.gcode.receiving"%string]>
                   ∅))))).

(** *** The environment of a method call

    The reading of the monotonic clock, the operations of the absent
    [commands] package, and what plugins and callers bring in: the hooks
    the plugin manager hands out and what a G-code hook returns for a
    command ([None] when it raises), the [on_sent] callbacks, the callbacks
    of send queue markers, the G-code handlers of the engine other than
    [_gcode_M110_sending], and the verdict of [_send_command] (whether the
    command was enqueued).  An [on_sent] callback and a G-code handler may
    end in an exception: [on_sent_raises] and [gcode_handler_raises] say
    so, and the state the callback or the handler gives is then the state
    at the raise.  Every statement below holds for all of them. *)
Record Env : Type := mkEnv {
  monotonic : Z;
  ops : Ops;
  get_hooks : PluginManager;
  gcode_hook : string -> string -> Command -> option Normalize.Results;
  other_gcode_handlers :
    list (string * (Command -> t -> Normalize.Results * t));
  send_command_accepts : Command -> bool;
  on_sent_callback : nat -> t -> t;
  marker_run : nat -> t -> t;
  on_sent_raises : nat -> t -> bool;
  gcode_handler_raises : string -> Command -> t -> bool
}.

(** The truth value of a number that may be [None]. *)
Definition truthy (v : option Z) : bool :=
  match v with
  | Some z => negb (z =? 0)
  | None => false
  end.

(** *** State predicates *)

(** [def _is_operational(self)] *)
Definition _is_operational (s : t) : bool :=
  negb (state_in (state s) [DISCONNECTED; DISCONNECTED_WITH_ERROR]).

(** [def _is_busy(self)] *)
Definition _is_busy (s : t) : bool :=
  state_in (state s) [PROCESSING; PAUSED].

(** [def _is_streaming(self)] *)
Definition _is_streaming (s : t) : bool :=
  _is_busy s &&
  match _job s with
  | Some job =>
    match job_class job with
    | LocalGcodeStreamjob => true
    | _ => false
    end
  | None => false
  end.

(** *** Helpers *)

(** [def _get_timeout(self, timeout_type)] *)
Definition _get_timeout (env : Env) (timeout_type : string) (s : t) : Z :=
  match timeouts s !! timeout_type with
  | Some d => monotonic env + d
  | None => monotonic env
  end.

(** The new value of [ok_timeout] that both [_on_comm_timeout] and
    [_on_comm_ok] compute. *)
Definition communication_timeout (env : Env) (s : t) : Z :=
  _get_timeout env
    (if busy_detected (_internal_flags s)
     then "communication_busy"%string else "communication"%string) s.

(** [def _finish_heatup(self)] *)
Definition _finish_heatup (env : Env) (s : t) : t :=
  if heating (_internal_flags s) then
    let s1 :=
      match heating_start (_internal_flags s) with
      | Some start =>
        if negb (start =? 0) then
          set_flag (flag_heating_start None)
            (set_flag (flag_heating_lost
                         (heating_lost (_internal_flags s)
                          + (monotonic env - start))) s)
        else s
      | None => s
      end in
    set_flag (flag_heating false) s1
  else s.

(** Modelled from the spec: [disconnect] belongs to the absent base class
    [Protocol].  The spec has the fatal path end in a disconnect with
    error; the call is recorded and the state becomes the disconnected
    state that matches [error]. *)
Definition disconnect (error : bool) (s : t) : t :=
  call (CallDisconnect error)
    (set_state (if error then DISCONNECTED_WITH_ERROR else DISCONNECTED) s).

(** [self._continue_sending()]: the call is recorded.  The body (lines
    2389-2427) draws on the command queue, the job queue and the job, which
    are outside the model, and hands what it finds to [_send_command]; the
    state it leaves is not described (see [Effect]). *)
Definition _continue_sending (s : t) : t := call CallContinueSending s.

(** [self._send_command(command)]: the call is recorded, the result is the
    environment's verdict. *)
Definition _send_command (env : Env) (command : Command) (s : t) : bool * t :=
  (send_command_accepts env command, call (CallSendCommand command) s).

(** [self.state = new]: the assignment goes through the property setter of
    the base class; the switch is recorded. *)
Definition switch_state (new : ProtocolState) (s : t) : t :=
  call (SwitchState (state s) new) (set_state new s).

(** [def _enqueue_for_sending(self, command, linenumber=None, on_sent=None,
    processed=False, resend=False)] *)
Definition _enqueue_for_sending (command : QueueItem)
    (linenumber : option Z) (on_sent : option nat) (processed resend : bool)
    (s : t) : bool * t :=
  let target := if resend then "resend"%string else "send"%string in
  let command_type :=
    match command with
    | ItemCommand c => type c
    | ItemMarker _ => None
    end in
  match SendQueue.put
          {| entry_command := command; entry_linenumber := linenumber;
             entry_on_sent := on_sent; entry_processed := processed |}
          command_type target (_send_queue s) with
  | Some q => (true, set_send_queue q s)
  | None => (false, s)
  end.

(** [def _send_next_from_resend(self, again=False)] *)
Definition _send_next_from_resend (env : Env) (again : bool) (s : t)
    : bool * t :=
  let s := set_last_communication_error None s in
  let s :=
    if again then
      let s1 :=
        match resend_linenumber (_internal_flags s) with
        | None =>
          set_flag (flag_resend_linenumber (Some (_current_linenumber s))) s
        | Some _ => s
        end in
      set_flag (flag_resend_linenumber
                  (option_map (fun n => n - 1)
                     (resend_linenumber (_internal_flags s1)))) s1
    else s in
  let linenumber := resend_linenumber (_internal_flags s) in
  match linenumber ≫= (fun n => LineHistory.getitem n (_last_lines s)) with
  | None => (false, s)
  | Some command =>
    let '(result, s) :=
      _enqueue_for_sending
        (ItemCommand (to_command (ops env) command None ∅))
        linenumber None true true s in
    let next := option_map (fun n => n + 1) linenumber in
    let s := set_flag (flag_resend_linenumber next) s in
    let s :=
      if bool_decide (next = Some (_current_linenumber s)) then
        set_send_queue (SendQueue.set_resend_active false (_send_queue s))
          (set_flag (flag_resend_count (Some 0))
             (set_flag (flag_resend_linenumber None)
                (set_flag (flag_resend_requested None) s)))
      else s in
    (result, s)
  end.

(** [def _send_same_from_resend(self)] *)
Definition _send_same_from_resend (env : Env) (s : t) : bool * t :=
  _send_next_from_resend env true s.

(** *** Receive handlers *)

(** The ceiling [consecutive_max] that [_on_comm_timeout] picks first. *)
Definition consecutive_max (s : t) : Z :=
  if long_running_command (_internal_flags s) then
    max_long (max_consecutive_timeouts s)
  else if state_in (state s) [PROCESSING; PAUSING; CANCELLING] then
    max_printing (max_consecutive_timeouts s)
  else
    max_idle (max_consecutive_timeouts s).

(** [GcodeCommand("M105", type="temperature")] *)
Definition M105_temperature : Command :=
  {| kind := GcodeCommand "M105" ∅; line := "M105";
     type := Some "temperature"%string; tags := ∅ |}.

(** [self._clear_to_send.set()] *)
Definition clear_to_send_set (s : t) : t :=
  set_clear_to_send (SendToken.set false (_clear_to_send s)) s.

(** [def _on_comm_timeout(self, line, lower_line)] *)
Definition _on_comm_timeout (env : Env) (line lower_line : string) (s : t)
    : bool * t :=
  let consecutive_max := consecutive_max s in
  let s :=
    set_flag (flag_timeout_consecutive
                (timeout_consecutive (_internal_flags s) + 1)) s in
  let s :=
    if (0 <? consecutive_max)
       && (consecutive_max <? timeout_consecutive (_internal_flags s))
    then
      disconnect true
        (set_error (Some "Too many consecutive timeouts"%string) s)
    else if bool_decide (resend_requested (_internal_flags s) <> None) then
      let '(sent, s) := _send_same_from_resend env s in
      if sent then clear_to_send_set s else s
    else if heating (_internal_flags s) then
      _finish_heatup env s
    else if long_running_command (_internal_flags s) then
      s
    else if state_in (state s) [PROCESSING; PAUSED] then
      let '(sent, s) := _send_command env M105_temperature s in
      if sent then clear_to_send_set s else s
    else if SendToken.blocked (_clear_to_send s) then
      clear_to_send_set s
    else s in
  let s := set_flag (flag_ok_timeout (Some (communication_timeout env s))) s in
  (negb (bool_decide (state s = PROCESSING)) && String.eqb line "", s).

(** [def _on_comm_ok(self, wait=False)] *)
Definition _on_comm_ok (env : Env) (wait : bool) (s : t) : t :=
  if 0 <? ignore_ok (_internal_flags s) then
    let s := set_flag (flag_ignore_ok (ignore_ok (_internal_flags s) - 1)) s in
    if ignore_ok (_internal_flags s) <? 0
    then set_flag (flag_ignore_ok 0) s
    else s
  else if bool_decide (state s = CONNECTING) then
    switch_state CONNECTED s
  else
    let s := if _resend_ok_timer s then set_resend_ok_timer false s else s in
    let s :=
      set_flag (flag_ok_timeout (Some (communication_timeout env s))) s in
    let s := clear_to_send_set s in
    let s := set_flag (flag_long_running_command false) s in
    let s :=
      if truthy (former_tool (_internal_flags s)) then
        set_flag (flag_former_tool None)
          (set_flag (flag_current_tool
                       (default 0 (former_tool (_internal_flags s)))) s)
      else s in
    let s := _finish_heatup env s in
    if negb (state_in (state s) OPERATIONAL_STATES) then s
    else if bool_decide (resend_requested (_internal_flags s) <> None) then
      snd (_send_next_from_resend env false s)
    else _continue_sending s.

(** [def _on_comm_ignore_ok(self)] *)
Definition _on_comm_ignore_ok (s : t) : t :=
  set_flag (flag_ignore_ok (ignore_ok (_internal_flags s) + 1)) s.

(** [def _on_comm_resend(self, linenumber)].  The handler's result ([False]
    or [None] on every path) and the rate-limited logging are left out.
    [resend_count] is a number whenever [resend_requested] is one, which is
    the only case in which the two are compared.  The [finally] clause runs
    on every path.  [self.cancel_processing(error=True)] is a recorded
    call: what it does to the state, the job and the queues is not
    described (see [Effect]); the three flags and [resend_active] are
    assigned after it returns. *)
Definition _on_comm_resend (env : Env) (linenumber : option Z) (s : t) : t :=
let finally (s : t) : t :=
  if String.eqb (trigger_ok_after_resend (flavor s)) "always" then
    _on_comm_ok env false s
  else if String.eqb (trigger_ok_after_resend (flavor s)) "detect" then
    set_resend_ok_timer true s
  else s in
match linenumber with
| None => finally s
| Some linenumber =>
  if bool_decide (resend_requested (_internal_flags s) = None)
     && (linenumber =? _current_linenumber s)
  then finally s
  else
    let last_communication_error := _last_communication_error s in
    let s := set_last_communication_error None s in
    if bool_decide (last_communication_error = Some "linenumber"%string)
       && bool_decide (resend_requested (_internal_flags s) = Some linenumber)
       && match resend_count (_internal_flags s) with
          | Some count => count <? _current_linenumber s - linenumber - 1
          | None => false
          end
    then
      finally
        (set_flag (flag_resend_count
                     (option_map (fun c => c + 1)
                        (resend_count (_internal_flags s)))) s)
    else
      let missing := negb (LineHistory.contains linenumber (_last_lines s)) in
      if missing && negb (_is_busy s) then finally s
      else
        let s :=
          if missing then call (CallCancelProcessing true ∅) s else s in
        let s := set_flag (flag_resend_requested (Some linenumber)) s in
        let s := set_flag (flag_resend_linenumber (Some linenumber)) s in
        let s := set_flag (flag_resend_count (Some 0)) s in
        let s :=
          set_send_queue
            (SendQueue.set_resend_active true (_send_queue s)) s in
        finally s
end.

(** *** Sending over the transport *)

(** [_checksum_enabled] (a property) *)
Definition _checksum_enabled (s : t) : bool :=
  if negb (message_integrity s) then
    negb (String.eqb (send_checksum (flavor s)) "never")
    && (bool_decide (state s = PROCESSING)
        || String.eqb (send_checksum (flavor s)) "always"
        || negb (firmware_identified (_internal_flags s)))
  else false.

(** [def _needs_checksum(self, command)] *)
Definition _needs_checksum (command : Command) (s : t) : bool :=
  if negb (message_integrity s) then
    let command_requiring_checksum :=
      match code command with
      | Some c =>
        bool_decide (c ∈ checksum_requiring_commands (flavor s))
      | None => false
      end in
    let command_allowing_checksum :=
      is_gcode command || unknown_with_checksum (flavor s) in
    command_requiring_checksum
    || (command_allowing_checksum && _checksum_enabled s)
  else false.

(** [def _do_send_without_checksum(self, data)] *)
Definition _do_send_without_checksum (data : Py.bytes) (s : t) : t :=
  transport_write (data ++ Py.b_newline) s.

(** The [for c in bytearray(command_to_send): checksum ^= c] loop, from
    [checksum = 0]. *)
Definition checksum_loop (command_to_send : Py.bytes) : Z :=
  fold_left (fun checksum c => Z.lxor checksum (Py.byte_value c))
    command_to_send 0.

(** The bytes [_do_send_with_checksum] hands to
    [_do_send_without_checksum]. *)
Definition numbered_line (line : Py.bytes) (line_number : Z) : Py.bytes :=
  let command_to_send :=
    Py.b_N ++ Py.encode_ascii (Py.str_int line_number)
      ++ Py.b_space ++ line in
  let checksum := checksum_loop command_to_send in
  command_to_send ++ Py.b_star ++ Py.encode_ascii (Py.str_int checksum).

(** [def _do_send_with_checksum(self, line, line_number)] *)
Definition _do_send_with_checksum (line : Py.bytes) (line_number : Z)
    (s : t) : t :=
  _do_send_without_checksum (numbered_line line line_number) s.

(** [def _add_to_last_lines(self, command, line_number=None)] *)
Definition _add_to_last_lines (command : string) (line_number : option Z)
    (s : t) : t :=
  set_last_lines (LineHistory.append command line_number (_last_lines s)) s.

(** [def _do_increment_and_send_with_checksum(self, line)], the whole of
    it inside [with self._line_mutex]. *)
Definition _do_increment_and_send_with_checksum (line : Py.bytes) (s : t)
    : t :=
  let line_number := _current_linenumber s in
  let s := _add_to_last_lines (Py.to_unicode line) (Some line_number) s in
  let s := set_current_linenumber (_current_linenumber s + 1) s in
  _do_send_with_checksum line line_number s.

(** [def _do_send(self, command)] *)
Definition _do_send (command : Command) (s : t) : t :=
  if _needs_checksum command s
  then _do_increment_and_send_with_checksum (Commands.bytes command) s
  else _do_send_without_checksum (Commands.bytes command) s.

(** *** G-code handlers *)

(** The truth value of a parameter, and [int(...)] of it.  On the values
    modelled [int] always succeeds, so the [except] branch of
    [_gcode_M110_sending], which would leave [new_line_number = None], is
    not taken. *)
Definition param_truthy (v : ParamValue) : bool :=
  match v with
  | PInt z => negb (z =? 0)
  | PTrue => true
  end.
Definition param_int (v : ParamValue) : Z :=
  match v with
  | PInt z => z
  | PTrue => 1
  end.

(** [def _gcode_M110_sending(self, command)]; a handler's return value
    [None] (keep the command) is left implicit. *)
Definition _gcode_M110_sending (command : Command) (s : t) : t :=
  let new_line_number :=
    match param "n" command with
    | Some v => if param_truthy v then param_int v else 0
    | None => 0
    end in
  let s := set_current_linenumber new_line_number s in
  let s := set_last_lines (LineHistory.clear (_last_lines s)) s in
  set_flag (flag_resend_linenumber None) s.

(** *** \@-command handlers *)

(** [def _atcommand_pause_queuing(self, command)].  The guard
    [if tags is None: tags = set()] is for a value that [tags] never has
    here. *)
Definition _atcommand_pause_queuing (command : Command) (s : t) : t :=
  let tags := tags command in
  if bool_decide ("script:afterPrintPaused"%string ∈ tags) then s
  else call (CallPauseProcessing {["trigger:atcommand_pause"%string]}) s.

(** [def _atcommand_cancel_queuing(self, command)] *)
Definition _atcommand_cancel_queuing (command : Command) (s : t) : t :=
  let tags := tags command in
  if bool_decide ("script:afterPrintCancelled"%string ∈ tags) then s
  else
    call (CallCancelProcessing false {["trigger:atcommand_cancel"%string]}) s.

(** [_atcommand_abort_queuing = _atcommand_cancel_queuing] *)
Definition _atcommand_abort_queuing : Command -> t -> t :=
  _atcommand_cancel_queuing.

(** [def _atcommand_resume_queuing(self, command)] *)
Definition _atcommand_resume_queuing (command : Command) (s : t) : t :=
  let tags := tags command in
  if bool_decide ("script:beforePrintResumed"%string ∈ tags) then s
  else call (CallResumeProcessing {["trigger:atcommand_resume"%string]}) s.

(** [self._handlers_atcommand]: the attributes of the class whose name
    starts with [_atcommand_], by name. *)
Definition _handlers_atcommand : list (string * (Command -> t -> t)) :=
  [ ("_atcommand_pause_queuing"%string, _atcommand_pause_queuing);
    ("_atcommand_cancel_queuing"%string, _atcommand_cancel_queuing);
    ("_atcommand_abort_queuing"%string, _atcommand_abort_queuing);
    ("_atcommand_resume_queuing"%string, _atcommand_resume_queuing) ].

(** [name in self._handlers_atcommand] and [getattr(self, name)] *)
Fixpoint handler_named {A : Type} (name : string) (l : list (string * A))
    : option A :=
  match l with
  | [] => None
  | (n, h) :: rest =>
    if String.eqb n name then Some h else handler_named name rest
  end.

(** [def _process_atcommand_phase(self, phase, command)], for the value
    [container] of [self._atcommand_hooks].  An exception of a hook or of
    the built-in handler is caught and logged where it is called; the
    subscript [self._atcommand_hooks[phase]] is evaluated outside of any
    [try]. *)
Definition process_atcommand_phase_in (container : HookContainer)
    (phase : string) (command : Command) (s : t) : Outcome t :=
if _is_streaming s
   || negb (bool_decide (phase ∈ ["queuing"%string; "sending"%string]))
then Returns s
else
  match getitem_str container phase with
  | Raises exception => Raises exception
  | Returns registered =>
    match kind command with
    | AtCommand atcommand parameters =>
      let s :=
        fold_left
          (fun s name => call (CallAtcommandHook name atcommand parameters) s)
          registered s in
      let atcommand_handler :=
        ("_atcommand_" ++ atcommand ++ "_" ++ phase)%string in
      match handler_named atcommand_handler _handlers_atcommand with
      | Some handler => Returns (handler command s)
      | None => Returns s
      end
    | _ => Raises "AttributeError"
    end
  end.

(** The method on the engine's own [self._atcommand_hooks]. *)
Definition _process_atcommand_phase (get_hooks : PluginManager)
    (phase : string) (command : Command) (s : t) : Outcome t :=
process_atcommand_phase_in (_atcommand_hooks get_hooks) phase command s.

(** *** The phase pipeline *)

(** [self._internal_flags["trigger_events"]], a value computed on each
    read: [not (self.state in ProtocolState.PROCESSING_STATES and self._job
    and self._job.exclusive)]. *)
Definition trigger_events (s : t) : bool :=
negb (state_in (state s) PROCESSING_STATES
      && match _job s with
         | Some job => exclusive job
         | None => false
         end).

(** [CAPABILITY_EMERGENCY_PARSER] *)
Definition CAPABILITY_EMERGENCY_PARSER : string := "EMERGENCY_PARSER".

(** [def _emergency_force_send(self, command, message, ...)]: [None] when
    the capability is missing, else the 1-tuple [(None,)] after the send. *)
Definition _emergency_force_send (command : Command) (s : t)
    : Normalize.Results * t :=
if negb (default false
           (firmware_capability_support (_internal_flags s)
              !! CAPABILITY_EMERGENCY_PARSER))
   || negb (default false
              (firmware_capabilities (_internal_flags s)
                 !! CAPABILITY_EMERGENCY_PARSER))
then (Normalize.Single Normalize.ENone, s)
else
  let s := _do_send command s in
  let s := set_clear_to_send (SendToken.clear false (_clear_to_send s)) s in
  (Normalize.Single (Normalize.ETuple1 None), s).

(** [def _command_phase_queuing(self, command)].
    [self.pause_processing(tags=command.tags)] is a recorded call: what it
    does to the state, the job and the queues is not described (see
    [Effect]); the test for a blocked command comes after it and reads the
    flavor only. *)
Definition _command_phase_queuing (command : Command) (s : t)
    : Normalize.Results * t :=
match code command with
| Some c =>
  if bool_decide (c ∈ emergency_commands (flavor s))
     && negb (bool_decide
                (Some c = code (command_emergency_stop (flavor s))))
  then _emergency_force_send command s
  else
    let s :=
      if state_in (state s) PROCESSING_STATES
         && bool_decide (c ∈ pausing_commands (flavor s))
      then call (CallPauseProcessing (tags command)) s
      else s in
    if bool_decide (c ∈ blocked_commands (flavor s))
    then (Normalize.Single (Normalize.ETuple1 None), s)
    else (Normalize.Single Normalize.ENone, s)
| None => (Normalize.Single Normalize.ENone, s)
end.

(** [def _command_phase_sending(self, command, gcode=None)]: the pipeline
    calls it with the command alone, so [gcode] is [None] and the body does
    nothing. *)
Definition _command_phase_sending (command : Command) (s : t)
    : Normalize.Results * t :=
(Normalize.Single Normalize.ENone, s).

(** [self._handlers_command_phase]: the attributes of the class whose name
    starts with [_command_phase_]. *)
Definition _handlers_command_phase
    : list (string * (Command -> t -> Normalize.Results * t)) :=
[ ("_command_phase_queuing"%string, _command_phase_queuing);
  ("_command_phase_sending"%string, _command_phase_sending) ].

(** [self._handlers_gcode]: the attributes of the class whose name starts
    with [_gcode_]; [_gcode_M110_sending], which returns [None], and the
    ones the environment stands for. *)
Definition _handlers_gcode (env : Env)
    : list (string * (Command -> t -> Normalize.Results * t)) :=
("_gcode_M110_sending"%string,
 fun command s =>
   (Normalize.Single Normalize.ENone, _gcode_M110_sending command s))
:: other_gcode_handlers env.

(** The hooks registered for the phases of G-code processing. *)
Definition gcode_hooks_for (env : Env) (phase : string) : hooks :=
match getitem_str (_gcode_hooks (get_hooks env)) phase with
| Returns registered => registered
| Raises _ => []
end.

(** One turn of the loop over the hooks: the hook [name] is called for
    every command of [results].  A hook that raises is logged and leaves
    nothing for its command; a result of more than one entry outside of
    the queuing phase is logged and the command is kept as it is. *)
Definition apply_hook (env : Env) (phase name : string)
    (results : list Command) : list Command :=
flat_map
  (fun command =>
     match gcode_hook env name phase command with
     | None => []
     | Some hook_results =>
       let normalized :=
         Normalize.normalize_command_handler_result (ops env) command
           hook_results
           (Some ({["source:rewrite"%string]}
                  ∪ {[("phase:" ++ phase)%string]}
                  ∪ {[("plugin:" ++ name)%string]})) in
       if negb (String.eqb phase "queuing")
          && (1 <? length normalized)%nat
       then [command]
       else normalized
     end)
  results.

(** The loop over the hooks; [None] is the [return []] taken as soon as a
    hook leaves no command. *)
Fixpoint apply_hooks (env : Env) (phase : string) (names : hooks)
    (results : list Command) : option (list Command) :=
match names with
| [] => Some results
| name :: rest =>
  match apply_hook env phase name results with
  | [] => None
  | new_results => apply_hooks env phase rest new_results
  end
end.

(** The loop over the results that runs the handler [_gcode_<code>_<phase>]
    of each G-code command that has one: the new results, whether a handler
    ran ([modified]), and the state after the handlers. *)
Fixpoint gcode_handlers_loop (env : Env) (phase : string)
    (results : list Command) (s : t) : list Command * bool * t :=
match results with
| [] => ([], false, s)
| command :: rest =>
  let '(mine, modified, s) :=
    match code command with
    | Some c =>
      match handler_named ("_gcode_" ++ c ++ "_" ++ phase)%string
              (_handlers_gcode env) with
      | Some handler =>
        let '(handler_results, s) := handler command s in
        (Normalize.normalize_command_handler_result (ops env) command
           handler_results None, true, s)
      | None => ([command], false, s)
      end
    | None => ([command], false, s)
    end in
  let '(others, modified_later, s) :=
    gcode_handlers_loop env phase rest s in
  (mine ++ others, modified || modified_later, s)
end.

(** The loop over the results that runs the handler
    [_command_phase_<phase>]. *)
Fixpoint command_phase_loop (env : Env)
    (handler : Command -> t -> Normalize.Results * t)
    (results : list Command) (s : t) : list Command * t :=
match results with
| [] => ([], s)
| command :: rest =>
  let '(handler_results, s) := handler command s in
  let mine :=
    Normalize.normalize_command_handler_result (ops env) command
      handler_results None in
  let '(others, s) := command_phase_loop env handler rest s in
  (mine ++ others, s)
end.

(** [def _process_command_phase(self, phase, command, **kwargs)], called
    with a command and no keyword arguments, for which the leading
    [to_command] gives the command back. *)
Definition _process_command_phase (env : Env) (phase : string)
    (command : Command) (s : t) : list Command * t :=
let results := [command] in
if negb (trigger_events s)
   || negb (bool_decide
              (phase ∈ ["queuing"; "queued"; "sending"; "sent"]%string))
then (results, s)
else
  match apply_hooks env phase (gcode_hooks_for env phase) results with
  | None => ([], s)
  | Some results =>
    let '(new_results, modified, s) :=
      gcode_handlers_loop env phase results s in
    match (if modified then new_results else results) with
    | [] => ([], s)
    | results =>
      match handler_named ("_command_phase_" ++ phase)%string
              _handlers_command_phase with
      | Some handler => command_phase_loop env handler results s
      | None => (results, s)
      end
    end
  end.

(** *** Exceptions of handlers

    In [_process_command_phase] a hook is called inside a [try]; the
    handler [_gcode_<code>_<phase>] is not, so its exception leaves the
    method.  [_gcode_M110_sending] has none to raise. *)
Definition handler_raises (env : Env) (name : string) (command : Command)
    (s : t) : bool :=
if String.eqb name "_gcode_M110_sending" then false
else gcode_handler_raises env name command s.

(** The loop over the results that runs the G-code handlers, up to the
    first handler that raises: [Some] of the state at the raise, [None]
    when every handler returns. *)
Fixpoint gcode_handlers_raise (env : Env) (phase : string)
    (results : list Command) (s : t) : option t :=
match results with
| [] => None
| command :: rest =>
  match code command with
  | Some c =>
    let name := ("_gcode_" ++ c ++ "_" ++ phase)%string in
    match handler_named name (_handlers_gcode env) with
    | Some handler =>
      let '(_, s') := handler command s in
      if handler_raises env name command s then Some s'
      else gcode_handlers_raise env phase rest s'
    | None => gcode_handlers_raise env phase rest s
    end
  | None => gcode_handlers_raise env phase rest s
  end
end.

(** Whether [_process_command_phase(phase, command)] is left by an
    exception of a G-code handler, and in which state. *)
Definition process_command_phase_raises (env : Env) (phase : string)
    (command : Command) (s : t) : option t :=
if negb (trigger_events s)
   || negb (bool_decide
              (phase ∈ ["queuing"; "queued"; "sending"; "sent"]%string))
then None
else
  match apply_hooks env phase (gcode_hooks_for env phase) [command] with
  | None => None
  | Some results => gcode_handlers_raise env phase results s
  end.

(** *** The send loop *)

(** The ASCII characters [str.strip()] removes: U+0009 to U+000D and U+001C
    to U+0020. *)
Definition is_space (c : ascii) : bool :=
  let n := nat_of_ascii c in
  ((9 <=? n) && (n <=? 13) || (28 <=? n) && (n <=? 32))%nat.

(** The other characters [str.strip()] removes, in the encoded form a
    line has here (UTF-8): U+0085 and U+00A0 in two bytes; U+1680, U+2000
    to U+200A, U+2028, U+2029, U+202F, U+205F and U+3000 in three. *)
Definition is_space2 (a b : nat) : bool :=
  ((a =? 194) && ((b =? 133) || (b =? 160)))%nat.
Definition is_space3 (a b c : nat) : bool :=
  ((a =? 225) && (b =? 154) && (c =? 128)
   || (a =? 226) && (b =? 128)
      && ((128 <=? c) && (c <=? 138) || (c =? 168) || (c =? 169)
          || (c =? 175))
   || (a =? 226) && (b =? 129) && (c =? 159)
   || (a =? 227) && (b =? 128) && (c =? 128))%nat.

(** Whether an encoded line is made of whitespace only. *)
Fixpoint all_space (line : list ascii) : bool :=
match line with
| [] => true
| a :: rest =>
  if is_space a then all_space rest
  else
    match rest with
    | [] => false
    | b :: rest2 =>
      if is_space2 (nat_of_ascii a) (nat_of_ascii b) then all_space rest2
      else
        match rest2 with
        | [] => false
        | c :: rest3 =>
          if is_space3 (nat_of_ascii a) (nat_of_ascii b) (nat_of_ascii c)
          then all_space rest3
          else false
        end
    end
end.

(** [command.line.strip() == ""] *)
Definition strip_is_empty (line : string) : bool :=
  all_space (list_ascii_of_string line).

(** How the first part of the loop body ends for the fetched entry: with a
    [continue] (nothing went to the transport), with the failed
    [assert len(results) == 1], or past the write of [command]. *)
Inductive Sending : Type :=
| Skipped (s : t)
| AssertionFailed (s : t)
| Written (command : Command) (s : t).

(** The loop body of [_send_loop] from the dwell check down to the write,
    for the entry [(command, linenumber, on_sent, processed)].  The
    callback of a marker and the handlers of the sending phase are taken
    to return: an exception of theirs ends the turn before the write. *)
Definition send_entry (env : Env) (entry : SendEntry) (s : t) : Sending :=
  let now := monotonic env in
  let s :=
    match dwelling_until (_internal_flags s) with
    | Some until =>
      if block_while_dwelling (flavor s) && negb (until =? 0)
         && (now <? until)
      then
        set_flag (flag_dwelling_until None) (call (CallSleep (until - now)) s)
      else s
    | None => s
    end in
  match entry_command entry with
  | ItemMarker marker =>
    Skipped (_continue_sending
               (marker_run env marker (call (CallMarkerRun marker) s)))
  | ItemCommand command =>
    match entry_linenumber entry with
    | Some linenumber =>
      Written command
        (_do_send_with_checksum (Py.to_bytes (line command)) linenumber s)
    | None =>
      let processed :=
        if negb (entry_processed entry) then
          let '(results, s) := _process_command_phase env "sending" command s in
          match results with
          | [] => Skipped (_continue_sending s)
          | [command] => Written command s
          | _ :: _ :: _ => AssertionFailed s
          end
        else Written command s in
      match processed with
      | Written command s =>
        if strip_is_empty (line command) then
          Skipped (_continue_sending s)
        else if is_atcommand command then
          let '(_, s) := _process_command_phase env "sending" command s in
          Skipped (_continue_sending s)
        else
          Written command (_do_send command s)
      | other => other
      end
    end
  end.

(** After the write of [command]: the [on_sent] callback of the entry and
    the [sent] phase, whose results are not used; the state when both
    return. *)
Definition run_sent (env : Env) (on_sent : option nat) (command : Command)
    (s : t) : t :=
let s :=
  match on_sent with
  | Some callback =>
    on_sent_callback env callback (call (CallOnSent callback) s)
  | None => s
  end in
snd (_process_command_phase env "sent" command s).

(** Whether the [on_sent] callback or a handler of the [sent] phase raises,
    and in which state: neither call is inside a [try] of its own, so the
    exception leaves the loop body for the [except Exception] around
    it. *)
Definition run_sent_raised (env : Env) (on_sent : option nat)
    (command : Command) (s : t) : option t :=
match on_sent with
| Some callback =>
  let s0 := call (CallOnSent callback) s in
  let s1 := on_sent_callback env callback s0 in
  if on_sent_raises env callback s0 then Some s1
  else process_command_phase_raises env "sent" command s1
| None => process_command_phase_raises env "sent" command s
end.

(** The rest of the loop body, after the write of [command]: [run_sent],
    then the use of a clear. *)
Definition after_sent (env : Env) (on_sent : option nat) (command : Command)
    (s : t) : t :=
let s := run_sent env on_sent command s in
let use_up_clear := unknown_requires_ack (flavor s) in
let use_up_clear := if is_gcode command then true else use_up_clear in
if use_up_clear then
  set_clear_to_send (SendToken.clear false (_clear_to_send s)) s
else
  _continue_sending s.

(** One turn of the [while self._send_queue_active] loop of [_send_loop]
    for the entry [self._send_queue.get()] returned; the [break] of an
    inactive send queue, like every [continue] and a failed assertion,
    leaves the turn without a write.  An exception after the write is
    caught and logged by the [except Exception] of the loop: the turn ends
    where it was raised, before the use of a clear. *)
Definition _send_loop_turn (env : Env) (entry : SendEntry) (s : t) : t :=
  if negb (_send_queue_active s) then s
  else
    match send_entry env entry s with
    | Skipped s => s
    | AssertionFailed s => s
    | Written command s =>
      match run_sent_raised env (entry_on_sent entry) command s with
      | Some s => s
      | None => after_sent env (entry_on_sent entry) command s
      end
    end.

(** *** A fresh engine *)

(** The values [__init__] gives the modelled attributes, for the flavor it
    looked up; the defaults of [timeouts] are 30, 10 and 2 seconds, in ticks
    of a millisecond.  The state a fresh engine of the base class starts in
    is [DISCONNECTED]. *)
Definition init (flavor : Flavor) : t :=
{| state := DISCONNECTED;
   flavor := flavor;
   timeouts :=
     <["connection"%string := 30000]>
       (<["communication"%string := 10000]>
          (<["communication_busy"%string := 2000]> ∅));
   max_consecutive_timeouts :=
     {| max_idle := 2; max_printing := 5; max_long := 5 |};
   _internal_flags :=
     {| heating_start := None; heating_lost := 0; heating := false;
        current_tool := 0; former_tool := Some 0;
        resend_requested := None; resend_linenumber := None;
        resend_count := None; long_running_command := false;
        ignore_ok := 0; timeout_consecutive := 0; ok_timeout := None;
        dwelling_until := None; firmware_identified := false;
        firmware_capabilities := ∅; firmware_capability_support := ∅;
        busy_detected := false |};
   _send_queue := SendQueue.init;
   _clear_to_send := SendToken.init 0 (Some 10);
   _current_linenumber := 1;
   _last_lines := LineHistory.init 50;
   _last_communication_error := None;
   _resend_ok_timer := false;
   _send_queue_active := false;
   _job := None;
   error := None;
   message_integrity := false;
   written := [];
   trace := [] |}.

(** *** The wire format in the words of the spec *)

(** The XOR over every byte of a byte string. *)
Fixpoint xor_of_bytes (data : Py.bytes) : Z :=
match data with
| [] => 0
| c :: rest => Z.lxor (Py.byte_value c) (xor_of_bytes rest)
end.

(** The number a decimal numeral denotes, if it is one. *)
Definition decimal_value (numeral : string) : option Z :=
option_map Z.of_int (NilZero.int_of_string numeral).

(** *** The calls of one method

    What [trace] has gained between the state [s] a method started in and
    the state [s'] it ended in. *)
Definition calls_since (s s' : t) : list Effect :=
drop (length (trace s)) (trace s').

(** What the helpers of [_on_comm_timeout] leave as it is: the trace, the
    error, the protocol state, the count of consecutive timeouts and the
    ceilings. *)
Definition keeps_timeout_account (s s' : t) : Prop :=
trace s' = trace s
/\ error s' = error s
/\ state s' = state s
/\ timeout_consecutive (_internal_flags s')
   = timeout_consecutive (_internal_flags s)
/\ max_consecutive_timeouts s' = max_consecutive_timeouts s.

(** [n] timeouts in a row, each reported by [_on_comm_timeout] for an empty
    line. *)
Fixpoint timeouts_in_a_row (env : Env) (n : nat) (s : t) : t :=
match n with
| O => s
| S n => timeouts_in_a_row env n (snd (_on_comm_timeout env "" "" s))
end.

(** *** Invariant of line numbering *)

(** Every numbered line of the history was sent under a number below
    [_current_linenumber]. *)
Definition history_below (s : t) : Prop :=
forall l n,
  (l, Some n) ∈ LineHistory._lines (_last_lines s) ->
  n < _current_linenumber s.

End Protocol.

(** ** Sample values

    A flavor, a set of command operations and an environment to run the
    engine on concrete inputs. *)

Module Samples.

Import Commands Protocol.

#[global] Instance ParamValue_eq_dec : EqDecision ParamValue.
Proof. solve_decision. Defined.

#[global] Instance Kind_eq_dec : EqDecision Kind.
Proof. solve_decision. Defined.

#[global] Instance Command_eq_dec : EqDecision Command.
Proof. solve_decision. Defined.

(** A flavor that numbers lines while a job is processed and expects no
    acknowledgement for lines that are not G-code. *)
Definition sample_flavor : Flavor :=
{| unknown_requires_ack := false;
   unknown_with_checksum := false;
   send_checksum := "printing";
   checksum_requiring_commands := ["M110"%string];
   block_while_dwelling := true;
   trigger_ok_after_resend := "never";
   emergency_commands := ["M112"; "M108"; "M410"]%string;
   pausing_commands := ["M0"; "M1"; "M25"]%string;
   blocked_commands := ["M0"; "M1"]%string;
   command_emergency_stop :=
     {| kind := GcodeCommand "M112" ∅; line := "M112"; type := None;
        tags := ∅ |} |}.

(** Command operations with a tokenizer that takes every line for a plain
    command, and structural comparison. *)
Definition sample_ops : Ops :=
{| to_command := fun l ty tg =>
     {| kind := PlainCommand; line := l; type := ty; tags := tg |};
   command_ne := fun a b => negb (bool_decide (a = b)) |}.

(** An environment without plugins and without further handlers: no hooks
    are registered, callbacks do nothing and return, [_send_command]
    enqueues. *)
Definition sample_env : Env :=
{| monotonic := 0;
   ops := sample_ops;
   get_hooks := fun _ => [];
   gcode_hook := fun _ _ _ => Some (Normalize.Single Normalize.ENone);
   other_gcode_handlers := [];
   send_command_accepts := fun _ => true;
   on_sent_callback := fun _ s => s;
   marker_run := fun _ s => s;
   on_sent_raises := fun _ _ => false;
   gcode_handler_raises := fun _ _ _ => false |}.

(** [GcodeCommand("G1", x=...)] and [GcodeCommand("M110", n=...)] *)
Definition G1 (x : Z) : Command :=
{| kind := GcodeCommand "G1" {["x"%string := PInt x]};
   line := "G1 X" ++ Py.str_int x;
   type := None;
   tags := ∅ |}.
Definition M110 (n : Z) : Command :=
{| kind := GcodeCommand "M110" {["n"%string := PInt n]};
   line := "M110 N" ++ Py.str_int n;
   type := None;
   tags := ∅ |}.

(** [AtCommand] for the line [@<name>], without parameters. *)
Definition at_command (name : string) (tags : gset string) : Command :=
{| kind := AtCommand name "";
   line := "@" ++ name;
   type := None;
   tags := tags |}.

(** An engine that is connected (its send loop is active) and processes a
    job from a local file: three moves have gone out under the line
    numbers 1, 2 and 3. *)
Definition printing : t :=
_do_send (G1 2)
  (_do_send (G1 1)
     (_do_send (G1 0)
        (set_state PROCESSING
           (set_job
              (Some {| job_class := LocalGcodeFilePrintjob;
                       exclusive := false |})
              (set_send_queue_active true (init sample_flavor)))))).


(** The firmware then asks for line 2 again. *)
Definition resend_requested_2 : t :=
_on_comm_resend sample_env (Some 2) printing.

End Samples.

(** ** Sequences of calls on the helpers *)

Module Runs.

(** A call on a send token: [set(ignore=...)] or [clear(completely=...)]. *)
Inductive TokenCall : Type :=
| CallSet (ignore : bool)
| CallClear (completely : bool).

Definition token_call (c : TokenCall) (s : SendToken.t) : SendToken.t :=
match c with
| CallSet ignore => SendToken.set ignore s
| CallClear completely => SendToken.clear completely s
end.

(** The calls of a list, one after the other. *)
Definition token_calls (calls : list TokenCall) (s : SendToken.t)
    : SendToken.t :=
fold_left (fun s c => token_call c s) calls s.

(** [append(line, line_number)] for every entry of a list, in order. *)
Definition append_all (entries : list (string * option Z))
    (h : LineHistory.t) : LineHistory.t :=
fold_left (fun h '(line, line_number) => LineHistory.append line line_number h)
  entries h.

(** The lines of a list under consecutive numbers from [first] on. *)
Definition numbered_from (first : Z) (lines : list string)
    : list (string * option Z) :=
imap (fun i line => (line, Some (first + Z.of_nat i))) lines.

(** Every number of the lookup table belongs to an entry of the history
    that holds the line the table gives. *)
Definition lookup_sound (h : LineHistory.t) : Prop :=
forall n line,
  LineHistory._line_number_lookup h !! n = Some line ->
  (line, Some n) ∈ LineHistory._lines h.

(** Every numbered entry of the history is found under its number. *)
Definition lookup_complete (h : LineHistory.t) : Prop :=
forall n line,
  (line, Some n) ∈ LineHistory._lines h ->
  LineHistory._line_number_lookup h !! n = Some line.

(** No two entries of the history carry the same number. *)
Definition numbers_distinct (h : LineHistory.t) : Prop :=
NoDup (omap snd (LineHistory._lines h)).

End Runs.

(** ** Temperature record: the dictionaries
       ([util/__init__.py], [TemperatureRecord.copy_from], [as_dict] and
       [as_script_dict]) *)

Module TemperatureDicts.

Import TemperatureRecord.

Section WithReading.

Context {T : Type}.

(** [def copy_from(self, other)]: [other.tools] is a fresh [dict] with the
    entries of [other._tools]. *)
Definition copy_from (other : t T) (self : t T) : t T :=
{| _tools := tools other; _bed := bed other; _chamber := chamber other |}.

(** [f"tool{tool}"] *)
Definition tool_key (tool : Z) : string := "tool" ++ Py.str_int tool.

(** [def as_dict(self)]: an entry [{"actual": a, "target": b}] is given as
    the pair; the [tool<n>] keys are assigned first, then ["bed"], then
    ["chamber"]. *)
Definition as_dict (r : t T) : gmap string (entry T) :=
let result :=
  map_fold (fun tool data result => <[tool_key tool := data]> result)
    ∅ (tools r) in
let result := <["bed"%string := bed r]> result in
<["chamber"%string := chamber r]> result.

(** [def as_script_dict(self)]: the keys of [as_dict], then every tool under
    its number itself, then ["b"] and ["c"].  A key is a string or a tool
    number. *)
Definition as_script_dict (r : t T) : gmap (string + Z) (entry T) :=
let result : gmap (string + Z) (entry T) := kmap inl (as_dict r) in
let result :=
  map_fold (fun tool data result => <[inr tool := data]> result)
    result (tools r) in
let result := <[inl "b"%string := bed r]> result in
<[inl "c"%string := chamber r]> result.

End WithReading.

End TemperatureDicts.

(** ** Position record ([util/__init__.py], class [PositionRecord]) *)

Module PositionRecord.

Section WithValues.

(** The type of a coordinate, and whether [int(...)] accepts a string: the
    record is generic in both. *)
Context {V : Type} (int_accepts : string -> bool).

(** [_standard_attrs = {"x", "y", "z", "e", "f", "t"}] *)
Definition _standard_attrs : gset string :=
{["x"; "y"; "z"; "e"; "f"; "t"]}%string.

(** [def valid_e(cls, attr)]: [attr] starts with ["e"] and [int(attr[1:])]
    does not raise. *)
Definition valid_e (attr : string) : bool :=
match attr with
| String c rest => Ascii.eqb c "e" && int_accepts rest
| EmptyString => false
end.

(** A record is its instance attributes; the value of an attribute may be
    [None].  The class has no attribute whose name starts with ["e"], so
    the names [dir(...)] gives that pass [valid_e] are instance
    attributes. *)
Definition t : Type := gmap string (option V).

(** [{key for key in dir(r) if self.valid_e(key)}] *)
Definition e_attrs (r : t) : gset string :=
filter (fun key => valid_e key = true) (dom r).

(** [def __init__(self, *args, **kwargs)]: [kwargs.get(attr)] is the value
    given, or [None]. *)
Definition init (kwargs : gmap string (option V)) : t :=
let attrs := _standard_attrs ∪ e_attrs kwargs in
set_to_map (fun attr => (attr, mjoin (kwargs !! attr))) attrs.

(** [def copy_from(self, other)]; [None] stands for the [AttributeError] of
    a [getattr(other, attr)] for a standard attribute [other] has not. *)
Definition copy_from (other : t) (self : t) : option t :=
let attrs := _standard_attrs ∪ e_attrs other in
if decide (_standard_attrs ⊆ dom other) then
  let self : t :=
    filter (fun kv => kv.1 ∈ attrs) other ∪ self in
  let gone := e_attrs self ∖ attrs in
  Some (filter (fun kv => kv.1 ∉ gone) self)
else None.

(** [def as_dict(self)]; [None] stands for the [AttributeError] of a
    standard attribute that is missing. *)
Definition as_dict (r : t) : option (gmap string (option V)) :=
let attrs := _standard_attrs ∪ e_attrs r in
if decide (_standard_attrs ⊆ dom r) then
  Some (filter (fun kv => kv.1 ∈ attrs) r)
else None.

End WithValues.

End PositionRecord.

(** ** Sequences of calls on the engine *)

Module EngineRuns.

Import Commands Protocol.

(** [_do_increment_and_send_with_checksum(line)] for every line of a list,
    in order. *)
Definition send_all (lines : list Py.bytes) (s : t) : t :=
fold_left (fun s line => _do_increment_and_send_with_checksum line s)
  lines s.

(** What [send_all] hands to the transport for lines numbered from [first]
    on. *)
Definition frames_from (first : Z) (lines : list Py.bytes)
    : list Py.bytes :=
imap (fun i line =>
        numbered_line line (first + Z.of_nat i) ++ Py.b_newline)
  lines.

(** [_send_next_from_resend()] [n] times in a row, as [n] acknowledged
    lines make [_on_comm_ok] call it. *)
Fixpoint serve_resends (env : Env) (n : nat) (s : t) : t :=
match n with
| O => s
| S n => serve_resends env n (snd (_send_next_from_resend env false s))
end.

(** The item [_send_next_from_resend] puts into the send queue for the
    line [text] of number [linenumber], with the type and the target it
    is put under. *)
Definition resend_item (env : Env) (text : string) (linenumber : Z)
    : SendEntry * option string * string :=
let command := to_command (ops env) text None ∅ in
({| entry_command := ItemCommand command;
    entry_linenumber := Some linenumber;
    entry_on_sent := None;
    entry_processed := true |},
 type command, "resend"%string).

(** [n] calls of [_on_comm_ignore_ok()], and [n] calls of [_on_comm_ok()]. *)
Definition ignore_oks (n : nat) (s : t) : t :=
Nat.iter n _on_comm_ignore_ok s.
Definition oks (env : Env) (n : nat) (s : t) : t :=
Nat.iter n (_on_comm_ok env false) s.

End EngineRuns.

(** ** The emergency stop ([__init__.py], [_gcode_M112_queuing]) *)

Module EmergencyStop.

Import Commands Protocol.

(** [GCODE_TO_EVENT]; an event is named by the attribute of [Events] the
    table gives. *)
Definition GCODE_TO_EVENT : gmap string string :=
list_to_map
  [ ("M226", "WAITING"); ("M0", "WAITING"); ("M1", "WAITING");
    ("G4", "DWELL"); ("M245", "COOLING"); ("M240", "CONVEYOR");
    ("M40", "EJECT"); ("M300", "ALERT"); ("G28", "HOME");
    ("M112", "E_STOP"); ("M80", "POWER_ON"); ("M81", "POWER_OFF") ]%string.

(** The keys of [self._printer_profile] the handler reads:
    [["extruder"]["count"]], [["extruder"]["sharedNozzle"]] and
    [["heatedBed"]]. *)
Record PrinterProfile : Type := mkPrinterProfile {
  extruder_count : Z;
  extruder_sharedNozzle : bool;
  heatedBed : bool
}.

(** The two command literals of the flavor the handler asks for, which the
    flavor record above does not hold: [command_set_extruder_temp(s,
    tool=...)] and [command_set_bed_temp(s)]. *)
Record HeaterCommands : Type := mkHeaterCommands {
  command_set_extruder_temp : Z -> option Z -> Command;
  command_set_bed_temp : Z -> Command
}.

(** [range(n)] *)
Definition range (n : Z) : list Z := map Z.of_nat (seq 0 (Z.to_nat n)).

(** [def _gcode_M112_queuing(self, command)]: the result, the events
    handed to [self._event_bus.fire], and the state. *)
Definition _gcode_M112_queuing (profile : PrinterProfile)
    (heaters : HeaterCommands) (command : Command) (s : t)
    : Normalize.Results * list string * t :=
let emergency_stop := Commands.bytes (command_emergency_stop (flavor s)) in
let s := _do_send_without_checksum emergency_stop s in
let s := _do_increment_and_send_with_checksum emergency_stop s in
let extruder_count := extruder_count profile in
let shared_nozzle := extruder_sharedNozzle profile in
let s :=
  if (1 <? extruder_count) && negb shared_nozzle then
    fold_left
      (fun s tool =>
         _do_increment_and_send_with_checksum
           (Commands.bytes
              (command_set_extruder_temp heaters 0 (Some tool))) s)
      (range extruder_count) s
  else
    _do_increment_and_send_with_checksum
      (Commands.bytes (command_set_extruder_temp heaters 0 None)) s in
let s :=
  if heatedBed profile then
    _do_increment_and_send_with_checksum
      (Commands.bytes (command_set_bed_temp heaters 0)) s
  else s in
let fired :=
  match GCODE_TO_EVENT !! "M112"%string with
  | Some event => [event]
  | None => []
  end in
(Normalize.Single (Normalize.ETuple1 None), fired, s).

(** The lines that switch the heaters off, in the order the handler sends
    them. *)
Definition heater_lines (profile : PrinterProfile)
    (heaters : HeaterCommands) : list Py.bytes :=
(if (1 <? extruder_count profile) && negb (extruder_sharedNozzle profile)
 then map (fun tool =>
             Commands.bytes
               (command_set_extruder_temp heaters 0 (Some tool)))
        (range (extruder_count profile))
 else [Commands.bytes (command_set_extruder_temp heaters 0 None)])
++ (if heatedBed profile
    then [Commands.bytes (command_set_bed_temp heaters 0)] else []).

End EmergencyStop.

(** ** The handlers as steps of the engine *)

Module Handlers.

Import Commands Protocol.

(** The handlers modelled above that change the line counter, the history
    or the send token, or run between such changes. *)
Inductive Event : Type :=
| OnOk (wait : bool)
| OnIgnoreOk
| OnTimeout (line lower_line : string)
| OnResend (linenumber : option Z)
| SendsNextFromResend (again : bool)
| Sends (command : Command)
| SendsM110 (command : Command)
| Queues (command : Command)
| QueuesM112 (profile : EmergencyStop.PrinterProfile)
    (heaters : EmergencyStop.HeaterCommands) (command : Command).

(** The state after the handler of an event. *)
Definition handle (env : Env) (e : Event) (s : t) : t :=
match e with
| OnOk wait => _on_comm_ok env wait s
| OnIgnoreOk => _on_comm_ignore_ok s
| OnTimeout line lower_line => snd (_on_comm_timeout env line lower_line s)
| OnResend linenumber => _on_comm_resend env linenumber s
| SendsNextFromResend again => snd (_send_next_from_resend env again s)
| Sends command => _do_send command s
| SendsM110 command => _gcode_M110_sending command s
| Queues command => snd (_command_phase_queuing command s)
| QueuesM112 profile heaters command =>
  snd (EmergencyStop._gcode_M112_queuing profile heaters command s)
end.

(** The handlers of a list of events, one after the other. *)
Definition handle_all (env : Env) (events : list Event) (s : t) : t :=
fold_left (fun s e => handle env e s) events s.

(** What the engine keeps: every numbered line of the history was sent
    under a number below the current one; the lookup table and the
    numbered entries of the history agree, and no two entries carry the
    same number; the history is within its capacity; the send token is
    within its bounds. *)
Definition engine_invariant (s : t) : Prop :=
history_below s
/\ Runs.lookup_sound (_last_lines s)
/\ Runs.lookup_complete (_last_lines s)
/\ Runs.numbers_distinct (_last_lines s)
/\ (LineHistory.len (_last_lines s) <= LineHistory.max (_last_lines s))%nat
/\ SendToken.in_range (_clear_to_send s)
/\ 0 <= SendToken._ignored (_clear_to_send s)
/\ match SendToken._max (_clear_to_send s) with
   | Some m => 0 <= m
   | None => True
   end.

End Handlers.

(** * Properties *)

(** ** Send token *)

Module SendTokenFacts.

Import SendToken.

Lemma clamp_in_range (maximum : option Z) (c : Z) :
  0 <= c ->
  match maximum with Some m => c <= m | None => True end ->
  forall k, 0 <= k ->
    CountedEvent.clamp maximum (c - k) = Z.max 0 (c - k).
Proof.
  intros Hc Hm k Hk. unfold CountedEvent.clamp.
  destruct maximum as [m|]; [|reflexivity].
  rewrite Z.min_l by lia. reflexivity.
Qed.

(** Every operation keeps the counter in its range, provided the bound,
    if there is one, is not negative. *)
Lemma _internal_set_in_range (v : Z) (s : t) :
  match _max s with Some m => 0 <= m | None => True end ->
  in_range (_internal_set v s).
Proof.
  intros Hm. unfold in_range, _internal_set, CountedEvent.clamp; simpl.
  destruct (_max s) as [m|]; lia.
Qed.

Lemma clear_in_range (completely : bool) (s : t) :
  match _max s with Some m => 0 <= m | None => True end ->
  in_range (clear completely s).
Proof.
  intros Hm. unfold clear.
  destruct completely.
  - unfold in_range, _internal_set, CountedEvent.clamp; simpl.
    destruct (_max s) as [m|]; lia.
  - apply _internal_set_in_range.
    destruct (0 <? _ignored s); simpl; exact Hm.
Qed.

(** C2, as the spec's table states it, fails on a token that has an ignore
    to spend: [clear()] on counter 5 with one ignore leaves the counter at
    3, not at 4. *)
Lemma clear_with_ignore_decrements_twice :
  let s := {| _counter := 5; _max := Some 10; _ignored := 1 |} in
  in_range s /\ 0 < _ignored s /\
  clear false s = {| _counter := 3; _max := Some 10; _ignored := 0 |} /\
  _counter (clear false s) <> Z.max 0 (_counter s - 1).
Proof.
  simpl. unfold in_range. simpl. repeat split; try lia.
  vm_compute. discriminate.
Qed.

(** C2 (amended): on a token whose counter is in its range, [clear()]
    with an ignore to spend takes one off [_ignored] and two off the
    counter, one for the ignored token and one for the clear itself, with
    0 as the floor; with no ignore it leaves [_ignored] alone and sets the
    counter to [max(0, counter - 1)]. *)
Theorem clear_spends_ignore_and_slot (s : t) (Hrange : in_range s) :
  (0 < _ignored s ->
     _ignored (clear false s) = _ignored s - 1 /\
     _counter (clear false s) = Z.max 0 (_counter s - 2)) /\
  (_ignored s = 0 ->
     _ignored (clear false s) = 0 /\
     _counter (clear false s) = Z.max 0 (_counter s - 1)).
Proof.
  destruct Hrange as [Hc Hm]. split; intros Hi; unfold clear.
  - rewrite (proj2 (Z.ltb_lt 0 (_ignored s)) Hi).
    simpl. split; [reflexivity|].
    rewrite (clamp_in_range (_max s) (_counter s)) by (assumption || lia).
    unfold CountedEvent.clamp.
    destruct (_max s) as [m|]; lia.
  - rewrite Hi. simpl. split; [exact Hi|].
    apply clamp_in_range; assumption || lia.
Qed.

Lemma clear_spends_ignore_and_slot_witness :
  let s := {| _counter := 5; _max := Some 10; _ignored := 1 |} in
  in_range s /\
  _ignored (clear false s) = 0 /\ _counter (clear false s) = 3.
Proof.
  intros s.
  assert (Hr : in_range s) by (unfold in_range; simpl; lia).
  split; [exact Hr|].
  exact (proj1 (clear_spends_ignore_and_slot s Hr) ltac:(simpl; lia)).
Defined.

End SendTokenFacts.

(** ** Temperature record *)

Module TemperatureRecordFacts.

Import TemperatureRecord.

Section WithReading.

Context {T : Type}.
Implicit Types (r : t T) (v : option T) (current : entry T).

Lemma _to_new_tuple_keeps_target current v :
  snd (_to_new_tuple (Some current) v None) = snd current.
Proof. destruct current, v; reflexivity. Qed.

Lemma _to_new_tuple_keeps_actual current v :
  fst (_to_new_tuple (Some current) None v) = fst current.
Proof. destruct current, v; reflexivity. Qed.

Lemma tool_entry_set_tool r tool actual target :
  tool_entry (set_tool tool actual target r) tool
  = _to_new_tuple (Some (tool_entry r tool)) actual target.
Proof.
  unfold tool_entry at 1, set_tool; simpl.
  rewrite lookup_insert_eq. reflexivity.
Qed.

(** C9: on every tool slot, on the bed and on the chamber, a setter
    called with [target=None] leaves the stored target as it was, and
    called with [actual=None] leaves the stored actual as it was. *)
Theorem partial_update_keeps_other_component r (tool : Z) v :
  snd (tool_entry (set_tool tool v None r) tool) = snd (tool_entry r tool)
  /\ fst (tool_entry (set_tool tool None v r) tool)
     = fst (tool_entry r tool)
  /\ snd (bed (set_bed v None r)) = snd (bed r)
  /\ fst (bed (set_bed None v r)) = fst (bed r)
  /\ snd (chamber (set_chamber v None r)) = snd (chamber r)
  /\ fst (chamber (set_chamber None v r)) = fst (chamber r).
Proof.
  rewrite !tool_entry_set_tool.
  unfold bed, chamber, set_bed, set_chamber; simpl.
  repeat split;
    first [apply _to_new_tuple_keeps_target
          | apply _to_new_tuple_keeps_actual].
Qed.

(** The component that is given is the one stored. *)
Lemma set_tool_stores r (tool : Z) (a b : T) :
  fst (tool_entry (set_tool tool (Some a) None r) tool) = Some a
  /\ snd (tool_entry (set_tool tool None (Some b) r) tool) = Some b.
Proof.
  rewrite !tool_entry_set_tool.
  destruct (tool_entry r tool); split; reflexivity.
Qed.

(** The other tool slots are not touched. *)
Lemma set_tool_other r (tool other : Z) actual target :
  tool <> other ->
  tool_entry (set_tool tool actual target r) other = tool_entry r other.
Proof.
  intros Hne. unfold tool_entry, set_tool; simpl.
  rewrite lookup_insert_ne by assumption. reflexivity.
Qed.

End WithReading.

End TemperatureRecordFacts.

(** ** Line history *)

Module LineHistoryFacts.

Import LineHistory.

Implicit Types (h : t) (lines : list (string * option Z))
  (lookup : gmap Z string).

(** The loop of [_cleanup] drops the oldest entries until [max] are left. *)
Lemma _cleanup_loop_lines (max : nat) lines lookup :
  fst (_cleanup_loop max lines lookup) = drop (length lines - max) lines.
Proof.
  revert lookup. induction lines as [|[l o] rest IH]; intros lookup.
  - reflexivity.
  - cbn [_cleanup_loop].
    destruct (max <? length ((l, o) :: rest))%nat eqn:E.
    + apply Nat.ltb_lt in E. simpl in E. rewrite IH.
      replace (length ((l, o) :: rest) - max)%nat
        with (S (length rest - max)) by (simpl; lia).
      reflexivity.
    + apply Nat.ltb_ge in E.
      replace (length ((l, o) :: rest) - max)%nat with 0%nat by lia.
      reflexivity.
Qed.

(** A number that none of the dropped entries carries stays in the lookup
    table. *)
Lemma _cleanup_loop_lookup (max : nat) lines lookup (n : Z) (v : string) :
  lookup !! n = Some v ->
  (forall l, (l, Some n) ∉ take (length lines - max) lines) ->
  snd (_cleanup_loop max lines lookup) !! n = Some v.
Proof.
  revert lookup. induction lines as [|[l o] rest IH]; intros lookup Hv Hf.
  - exact Hv.
  - cbn [_cleanup_loop].
    destruct (max <? length ((l, o) :: rest))%nat eqn:E.
    + apply Nat.ltb_lt in E. simpl in E.
      replace (length ((l, o) :: rest) - max)%nat
        with (S (length rest - max)) in Hf by (simpl; lia).
      simpl in Hf. apply IH.
      * destruct o as [k|]; [|exact Hv].
        rewrite lookup_delete_ne; [exact Hv|].
        intros ->. apply (Hf l). left.
      * intros l' Hin. apply (Hf l'). right. exact Hin.
    + exact Hv.
Qed.

Lemma _cleanup_lines h :
  _lines (_cleanup h) = drop (length (_lines h) - max h) (_lines h).
Proof.
  unfold _cleanup.
  destruct (length (_lines h) <=? max h)%nat eqn:E.
  - apply Nat.leb_le in E.
    replace (length (_lines h) - max h)%nat with 0%nat by lia. reflexivity.
  - pose proof (_cleanup_loop_lines (max h) (_lines h)
                  (_line_number_lookup h)) as H.
    destruct (_cleanup_loop (max h) (_lines h) (_line_number_lookup h)).
    exact H.
Qed.

Lemma _cleanup_lookup h (n : Z) (v : string) :
  _line_number_lookup h !! n = Some v ->
  (forall l,
     (l, Some n) ∉ take (length (_lines h) - max h) (_lines h)) ->
  _line_number_lookup (_cleanup h) !! n = Some v.
Proof.
  intros Hv Hf. unfold _cleanup.
  destruct (length (_lines h) <=? max h)%nat; [exact Hv|].
  pose proof (_cleanup_loop_lookup (max h) (_lines h)
                (_line_number_lookup h) n v Hv Hf) as H.
  destruct (_cleanup_loop (max h) (_lines h) (_line_number_lookup h)).
  exact H.
Qed.

Lemma _cleanup_max h : max (_cleanup h) = max h.
Proof.
  unfold _cleanup.
  destruct (length (_lines h) <=? max h)%nat; [reflexivity|].
  destruct (_cleanup_loop (max h) (_lines h) (_line_number_lookup h)).
  reflexivity.
Qed.

(** [append] keeps the newest entries, the appended one last. *)
Lemma append_lines h (line : string) (line_number : option Z) :
  _lines (append line line_number h)
  = drop (S (length (_lines h)) - max h)
         (_lines h ++ [(line, line_number)]).
Proof.
  unfold append. rewrite _cleanup_lines. simpl.
  rewrite length_app. simpl.
  replace (length (_lines h) + 1)%nat with (S (length (_lines h))) by lia.
  reflexivity.
Qed.

Lemma append_max h (line : string) (line_number : option Z) :
  max (append line line_number h) = max h.
Proof. unfold append. rewrite _cleanup_max. reflexivity. Qed.

(** The history never holds more than [max] lines after an [append]. *)
Lemma append_length h (line : string) (line_number : option Z) :
  (length (_lines (append line line_number h)) <= max h)%nat.
Proof.
  rewrite append_lines, length_drop, length_app. simpl. lia.
Qed.

Lemma append_last h (line : string) (line_number : option Z) :
  (0 < max h)%nat ->
  last (_lines (append line line_number h)) = Some (line, line_number).
Proof.
  intros Hmax. rewrite append_lines.
  rewrite drop_app_le by lia.
  apply last_snoc.
Qed.

Lemma append_elem h (line : string) (line_number : option Z) x :
  x ∈ _lines (append line line_number h) ->
  x ∈ _lines h \/ x = (line, line_number).
Proof.
  rewrite append_lines. intros Hin.
  apply (subseteq_drop _ _ x) in Hin.
  apply elem_of_app in Hin as [Hin|Hin]; [left; exact Hin|].
  right. apply list_elem_of_singleton in Hin. exact Hin.
Qed.

(** A line appended under a number that no entry of the history carries
    can be looked up under that number. *)
Lemma append_getitem h (line : string) (n : Z) :
  (0 < max h)%nat ->
  (forall l, (l, Some n) ∉ _lines h) ->
  getitem n (append line (Some n) h) = Some line.
Proof.
  intros Hmax Hfresh. unfold getitem, append.
  apply _cleanup_lookup; simpl.
  - apply lookup_insert_eq.
  - intros l Hin. apply (Hfresh l).
    rewrite length_app in Hin. simpl in Hin.
    rewrite take_app_le in Hin by lia.
    apply (subseteq_take _ _ _ Hin).
Qed.

Lemma clear_lines h : _lines (clear h) = [].
Proof. reflexivity. Qed.

Lemma clear_contains h (n : Z) : contains n (clear h) = false.
Proof.
  unfold contains, clear; simpl. rewrite lookup_empty.
  apply bool_decide_eq_false. intros [x Hx]. discriminate.
Qed.

End LineHistoryFacts.


(** ** Numbered lines and the line history *)

Module WireFacts.

Import Commands Protocol.

(** [str(n)] is a decimal numeral of [n]. *)
Lemma decimal_value_str_int (n : Z) :
  decimal_value (Py.str_int n) = Some n.
Proof.
unfold decimal_value, Py.str_int.
rewrite NilZero.isi.
- simpl. rewrite DecimalZ.of_to. reflexivity.
- destruct n; simpl; try discriminate.
  intros H. injection H as H. exact (DecimalPos.Unsigned.to_uint_nonnil _ H).
- destruct n; simpl; try discriminate.
  intros H. injection H as H. exact (DecimalPos.Unsigned.to_uint_nonnil _ H).
Qed.

Lemma byte_value_range (c : byte) : 0 <= Py.byte_value c < 256.
Proof.
unfold Py.byte_value. pose proof (Byte.to_N_bounded c). lia.
Qed.

Lemma lxor_byte_range (a b : Z) :
  0 <= a < 256 -> 0 <= b < 256 -> 0 <= Z.lxor a b < 256.
Proof.
intros Ha Hb.
assert (Hnn : 0 <= Z.lxor a b) by (apply Z.lxor_nonneg; lia).
split; [exact Hnn|].
destruct (Z.eq_dec (Z.lxor a b) 0) as [->|Hnz]; [lia|].
change 256 with (2 ^ 8). apply Z.log2_lt_pow2; [lia|].
pose proof (Z.log2_lxor a b ltac:(lia) ltac:(lia)) as Hlog.
assert (Hla : Z.log2 a < 8).
{ destruct (Z.eq_dec a 0) as [->|]; [simpl; lia|].
  apply Z.log2_lt_pow2; lia. }
assert (Hlb : Z.log2 b < 8).
{ destruct (Z.eq_dec b 0) as [->|]; [simpl; lia|].
  apply Z.log2_lt_pow2; lia. }
lia.
Qed.

(** The checksum fits a byte. *)
Lemma xor_of_bytes_range (data : Py.bytes) : 0 <= xor_of_bytes data < 256.
Proof.
induction data as [|c rest IH]; simpl; [lia|].
apply lxor_byte_range; [apply byte_value_range|exact IH].
Qed.

Lemma checksum_loop_from (data : Py.bytes) (start : Z) :
  fold_left (fun checksum c => Z.lxor checksum (Py.byte_value c)) data start
  = Z.lxor start (xor_of_bytes data).
Proof.
revert start. induction data as [|c rest IH]; intros start; simpl.
- rewrite Z.lxor_0_r. reflexivity.
- rewrite IH, Z.lxor_assoc. reflexivity.
Qed.

(** The loop of [_do_send_with_checksum] computes the XOR over every
    byte. *)
Lemma checksum_loop_xor (data : Py.bytes) :
  checksum_loop data = xor_of_bytes data.
Proof.
unfold checksum_loop. rewrite checksum_loop_from. apply Z.lxor_0_l.
Qed.

(** C5: for every payload and line number, what [_do_send_with_checksum]
    writes to the transport is [N<linenumber> <payload>*<xor>] followed by
    a newline, where [<linenumber>] and [<xor>] are decimal numerals and
    [<xor>] denotes the XOR over every byte of [N<linenumber> <payload>],
    a number that fits a byte. *)
Theorem numbered_line_format (payload : Py.bytes) (linenumber : Z) (s : t) :
  let body :=
    Py.b_N ++ Py.encode_ascii (Py.str_int linenumber)
      ++ Py.b_space ++ payload in
  written (_do_send_with_checksum payload linenumber s)
  = written s
    ++ [body ++ Py.b_star
          ++ Py.encode_ascii (Py.str_int (xor_of_bytes body))
          ++ Py.b_newline]
  /\ decimal_value (Py.str_int linenumber) = Some linenumber
  /\ decimal_value (Py.str_int (xor_of_bytes body))
     = Some (xor_of_bytes body)
  /\ 0 <= xor_of_bytes body < 256.
Proof.
intros body. repeat split.
- unfold _do_send_with_checksum, _do_send_without_checksum, numbered_line.
  fold body. rewrite checksum_loop_xor. simpl.
  rewrite <- !app_assoc. reflexivity.
- apply decimal_value_str_int.
- apply decimal_value_str_int.
- apply xor_of_bytes_range.
- apply xor_of_bytes_range.
Qed.

(** The write touches nothing but the transport. *)
Lemma _do_send_with_checksum_frame (line : Py.bytes) (n : Z) (s : t) :
  set_written (written s) (_do_send_with_checksum line n s) = s.
Proof. destruct s; reflexivity. Qed.

End WireFacts.


(** ** Line numbers *)

Module LineNumberFacts.

Import Commands Protocol.

Example numbered_line_G28 :
  numbered_line (Py.to_bytes "G28") 1 = Py.to_bytes "N1 G28*18".
Proof. reflexivity. Qed.

Example printing_written :
  written Samples.printing
  = [Py.to_bytes "N1 G1 X0*97" ++ Py.b_newline;
     Py.to_bytes "N2 G1 X1*99" ++ Py.b_newline;
     Py.to_bytes "N3 G1 X2*97" ++ Py.b_newline]
  /\ _current_linenumber Samples.printing = 4
  /\ LineHistory.lines (_last_lines Samples.printing)
     = ["G1 X0"; "G1 X1"; "G1 X2"]%string.
Proof. vm_compute. repeat split. Qed.

(** C1: [_do_increment_and_send_with_checksum] appends the text of the line
    to the line history under the value [_current_linenumber] has at the
    call, where it is the newest entry and is found under that number, adds
    exactly one to [_current_linenumber], and writes the line numbered with
    the old value; the three happen in the one critical section that the
    method is. *)
Theorem increment_and_send_appends_and_increments
    (line : Py.bytes) (s : t)
    (Hmax : (0 < LineHistory.max (_last_lines s))%nat)
    (Hbelow : history_below s) :
  let n := _current_linenumber s in
  let s' := _do_increment_and_send_with_checksum line s in
  _last_lines s'
  = LineHistory.append (Py.to_unicode line) (Some n) (_last_lines s)
  /\ last (LineHistory._lines (_last_lines s'))
     = Some (Py.to_unicode line, Some n)
  /\ LineHistory.getitem n (_last_lines s') = Some (Py.to_unicode line)
  /\ _current_linenumber s' = n + 1
  /\ written s' = written s ++ [numbered_line line n ++ Py.b_newline]
  /\ history_below s'.
Proof.
intros n s'.
assert (Hl : _last_lines s'
             = LineHistory.append (Py.to_unicode line) (Some n)
                 (_last_lines s)) by reflexivity.
assert (Hn : _current_linenumber s' = n + 1) by reflexivity.
split; [exact Hl|]. rewrite Hl.
split; [apply LineHistoryFacts.append_last; exact Hmax|].
split.
{ apply LineHistoryFacts.append_getitem; [exact Hmax|].
  intros l Hin. apply Hbelow in Hin. subst n. lia. }
split; [exact Hn|].
split; [reflexivity|].
unfold history_below. rewrite Hl, Hn. intros l k Hin.
apply LineHistoryFacts.append_elem in Hin as [Hin|Heq].
- apply Hbelow in Hin. subst n. lia.
- injection Heq as _ ->. lia.
Qed.

Lemma increment_and_send_appends_and_increments_witness :
  let s := Samples.printing in
  (0 < LineHistory.max (_last_lines s))%nat /\
  history_below s /\
  LineHistory.getitem 4
    (_last_lines
       (_do_increment_and_send_with_checksum (Py.to_bytes "G28") s))
  = Some "G28"%string /\
  _current_linenumber
    (_do_increment_and_send_with_checksum (Py.to_bytes "G28") s) = 5.
Proof.
intros s.
assert (Hmax : (0 < LineHistory.max (_last_lines s))%nat)
  by (vm_compute; lia).
assert (Hbelow : history_below s).
{ intros l k Hin. vm_compute in Hin.
  change (_current_linenumber s) with 4.
  repeat (apply elem_of_cons in Hin as [Hin|Hin];
          [injection Hin as _ ->; lia|]).
  apply elem_of_nil in Hin. contradiction. }
split; [exact Hmax|]. split; [exact Hbelow|].
pose proof (increment_and_send_appends_and_increments
              (Py.to_bytes "G28") s Hmax Hbelow) as H.
split; [exact (proj1 (proj2 (proj2 H)))|].
exact (proj1 (proj2 (proj2 (proj2 H)))).
Defined.

(** [_do_send] takes that path exactly when the command needs a checksum. *)
Lemma _do_send_with_checksum_path (command : Command) (s : t) :
  _needs_checksum command s = true ->
  _do_send command s
  = _do_increment_and_send_with_checksum (Commands.bytes command) s.
Proof. intros H. unfold _do_send. rewrite H. reflexivity. Qed.

(** A fresh engine satisfies the invariant, and a reset of the line number
    by [M110] restores it. *)
Lemma init_history_below (flavor : Flavor) : history_below (init flavor).
Proof.
intros l n Hin. simpl in Hin. apply elem_of_nil in Hin. contradiction.
Qed.

End LineNumberFacts.

(** ** Normalized handler results *)

Module NormalizeFacts.

Import Commands Normalize.

Lemma expand_tags_union (tags : gset string)
    (tags_to_add : option (gset string)) :
  expand_tags tags tags_to_add = tags ∪ tags_of tags_to_add.
Proof.
destruct tags_to_add as [extra|]; simpl.
- case_bool_decide as Hempty; [|reflexivity].
  subst extra. rewrite union_empty_r_L. reflexivity.
- rewrite union_empty_r_L. reflexivity.
Qed.

(** The doctests of the docstring that show tags. *)
Example doctest_tags :
  let original :=
    {| kind := GcodeCommand "M105" ∅; line := "M105"; type := None;
       tags := {["tag1"; "tag2"]}%string |} in
  map tags
    (normalize_command_handler_result Samples.sample_ops original
       (Many [EStr "M110"; EStr "M117 Foobar"]) (Some {["tag3"%string]}))
  = [ {["tag1"; "tag2"; "tag3"]}; {["tag1"; "tag2"; "tag3"]} ]%string
  /\ normalize_command_handler_result Samples.sample_ops original
       (Single ENone) None = [original]
  /\ normalize_command_handler_result Samples.sample_ops original
       (Many []) None = [].
Proof. repeat split. Qed.

(** An entry that rewrites the command yields one command, with the tags of
    the original and the tags to add. *)
Lemma normalize_entry_rewrites (ops : Ops) (original : Command)
    (tags_to_add : option (gset string)) (e : Entry) :
  keeps_tags ops ->
  rewrites ops original e = true ->
  exists c,
    normalize_entry ops original tags_to_add e = [c]
    /\ tags c = tags original ∪ tags_of tags_to_add.
Proof.
intros Hops Hrw.
destruct e as [|s|c|[l|]|[l|] ty|[l|] ty tg| |]; simpl in Hrw;
  try discriminate; simpl.
- rewrite Hrw. eexists; split; [reflexivity|].
  rewrite Hops. apply expand_tags_union.
- rewrite Hrw. eexists; split; [reflexivity|].
  simpl. apply expand_tags_union.
- unfold opt_str_ne. rewrite bool_decide_eq_true_2 by reflexivity.
  simpl. rewrite orb_false_r, Hrw. eexists; split; [reflexivity|].
  rewrite Hops. apply expand_tags_union.
- rewrite Hrw. eexists; split; [reflexivity|].
  rewrite Hops. apply expand_tags_union.
Qed.

(** An entry that repeats the line of the command, as a string or in a
    tuple of length 1, yields a command with the tags of the original and
    nothing added. *)
Lemma normalize_entry_repeats (ops : Ops) (original : Command)
    (tags_to_add : option (gset string)) :
  keeps_tags ops ->
  Forall (fun c => tags c = tags original)
    (normalize_entry ops original tags_to_add (EStr (line original))
     ++ normalize_entry ops original tags_to_add
          (ETuple1 (Some (line original)))).
Proof.
intros Hops. simpl. rewrite String.eqb_refl. simpl.
unfold opt_str_ne. rewrite bool_decide_eq_true_2 by reflexivity. simpl.
repeat constructor. apply Hops.
Qed.

(** C8, as stated, fails for an entry that repeats the command: the string
    ["M105"] returned for the command [M105] gives back the command with
    the tags it had, without the tag to add. *)
Lemma repeated_line_gets_no_added_tags :
  let original :=
    {| kind := GcodeCommand "M105" ∅; line := "M105"; type := None;
       tags := {["tag1"%string]} |} in
  normalize_command_handler_result Samples.sample_ops original
    (Single (EStr "M105")) (Some {["tag3"%string]}) = [original]
  /\ tags original <> tags original ∪ {["tag3"%string]}.
Proof.
split; [reflexivity|].
simpl. intros H.
assert (Hin : "tag3"%string ∈ ({["tag1"%string]} : gset string))
  by (rewrite H; set_solver).
apply elem_of_singleton in Hin. discriminate.
Qed.

(** A 3-tuple that changes the line or the type yields one command, with
    the tags of the tuple and the tags to add. *)
Lemma normalize_entry_tuple3 (ops : Ops) (original : Command)
    (tags_to_add : option (gset string)) (l : string)
    (ty : option string) (tg : gset string) :
  keeps_tags ops ->
  l <> line original \/ ty <> type original ->
  exists c,
    normalize_entry ops original tags_to_add (ETuple3 (Some l) ty tg) = [c]
    /\ tags c = tg ∪ tags_of tags_to_add.
Proof.
intros Hops Hchanged. cbn [normalize_entry].
assert (Hcond : negb (String.eqb l (line original))
                || opt_str_ne ty (type original) = true).
{ destruct Hchanged as [Hl|Hty].
  - apply String.eqb_neq in Hl. rewrite Hl. reflexivity.
  - unfold opt_str_ne. rewrite (bool_decide_eq_false_2 _ Hty).
    apply orb_true_r. }
rewrite Hcond. eexists. split; [reflexivity|].
rewrite Hops. apply expand_tags_union.
Qed.

(** C8 (amended): the normalized result is made of what the entries of the
    handler result yield, in order (a handler result that is [None] as a
    whole gives back the command).  Every entry that rewrites the command
    (a string other than its line, a [Command] that differs from it, a
    tuple of length 1 or 2 with another line or type) yields exactly one
    command of the result, and this command carries the tags of the
    original command united with [tags_to_add], whatever the other entries
    are; a tuple of length 3 with another line or type yields one command
    with the tags of the tuple united with [tags_to_add].  When every entry
    rewrites the command, every command of the result carries the united
    tags and there is one command per entry. *)
Theorem rewriting_entries_inherit_tags (ops : Ops) (original : Command)
    (handler_results : Results) (tags_to_add : option (gset string))
    (Hops : keeps_tags ops) :
  let result :=
    normalize_command_handler_result ops original handler_results
      tags_to_add in
  let yield := normalize_entry ops original tags_to_add in
  (handler_results <> Single ENone ->
     result = flat_map yield (entries handler_results))
  /\ (handler_results = Single ENone -> result = [original])
  /\ (forall e,
        e ∈ entries handler_results ->
        rewrites ops original e = true ->
        exists c,
          yield e = [c] /\ c ∈ result
          /\ tags c = tags original ∪ tags_of tags_to_add)
  /\ (forall l ty tg,
        ETuple3 (Some l) ty tg ∈ entries handler_results ->
        l <> line original \/ ty <> type original ->
        exists c,
          yield (ETuple3 (Some l) ty tg) = [c] /\ c ∈ result
          /\ tags c = tg ∪ tags_of tags_to_add)
  /\ (Forall (fun e => rewrites ops original e = true)
        (entries handler_results) ->
      Forall (fun c => tags c = tags original ∪ tags_of tags_to_add) result
      /\ length result = length (entries handler_results)).
Proof.
intros result yield.
assert (Hflat : handler_results <> Single ENone ->
                result = flat_map yield (entries handler_results)).
{ intros Hne. subst result yield.
  destruct handler_results as [e|l]; [|reflexivity].
  cbn [entries flat_map]. rewrite app_nil_r.
  destruct e; try reflexivity. contradiction. }
assert (Hin : forall e c,
          e ∈ entries handler_results -> e <> ENone -> yield e = [c] ->
          c ∈ result).
{ intros e c He Hne Hc. rewrite Hflat.
  - apply list_elem_of_In, in_flat_map. exists e.
    split; [apply list_elem_of_In; exact He|].
    rewrite Hc. left. reflexivity.
  - intros ->. cbn [entries] in He.
    apply list_elem_of_singleton in He. contradiction. }
split_and!.
- exact Hflat.
- intros ->. reflexivity.
- intros e He Hrw.
  destruct (normalize_entry_rewrites ops original tags_to_add e Hops Hrw)
    as (c & Hc & Htags).
  exists c. split_and!; [exact Hc| |exact Htags].
  apply (Hin e c He); [|exact Hc].
  intros ->. discriminate.
- intros l ty tg He Hchanged.
  destruct (normalize_entry_tuple3 ops original tags_to_add l ty tg Hops
              Hchanged) as (c & Hc & Htags).
  exists c. split_and!; [exact Hc| |exact Htags].
  apply (Hin _ c He); [discriminate|exact Hc].
- intros Hall.
  assert (Hne : handler_results <> Single ENone).
  { intros ->. cbn [entries] in Hall. apply Forall_inv in Hall.
    discriminate. }
  rewrite (Hflat Hne). clear Hflat Hin Hne. subst yield.
  induction Hall as [|e l He _ [IHf IHl]];
    [split; [constructor|reflexivity]|].
  destruct (normalize_entry_rewrites ops original tags_to_add e Hops He)
    as (c & Hc & Htags).
  cbn [flat_map]. rewrite Hc. cbn [app length].
  split; [constructor; assumption|]. rewrite IHl. reflexivity.
Qed.

Lemma rewriting_entries_inherit_tags_witness :
  let original :=
    {| kind := GcodeCommand "M105" ∅; line := "M105"; type := None;
       tags := {["tag1"; "tag2"]}%string |} in
  let handler_results := Many [EStr "M110"; ENone; EStr "M105"] in
  let result :=
    normalize_command_handler_result Samples.sample_ops original
      handler_results (Some {["tag3"%string]}) in
  keeps_tags Samples.sample_ops
  /\ length result = 2%nat
  /\ exists c,
       c ∈ result
       /\ tags c = {["tag1"; "tag2"]}%string ∪ {["tag3"%string]}.
Proof.
intros original handler_results result.
assert (Hops : keeps_tags Samples.sample_ops) by (intros l ty tg; reflexivity).
split; [exact Hops|]. split; [reflexivity|].
destruct (proj1 (proj2 (proj2
            (rewriting_entries_inherit_tags Samples.sample_ops original
               handler_results (Some {["tag3"%string]}) Hops)))
            (EStr "M110") ltac:(apply list_elem_of_here) eq_refl)
  as (c & _ & Hin & Htags).
exists c. split; [exact Hin|exact Htags].
Defined.

End NormalizeFacts.


(** ** The engine *)

Module EngineFacts.

Import Commands Protocol.

(** *** The ok handler *)

(** C10: when [_on_comm_ok] runs with [ignore_ok] above zero, all it does
    is take one off [ignore_ok] (which stays at or above zero): the state
    it returns differs from the one it got in that flag only, so the send
    token is not set, the protocol state does not change, no resend line
    is put into the send queue, nothing is called or written, and the
    long-running-command flag, the tools and the heatup flags are as they
    were. *)
Theorem ignored_ok_only_counts_down (env : Env) (wait : bool) (s : t)
    (Hignore : 0 < ignore_ok (_internal_flags s)) :
  let s' := _on_comm_ok env wait s in
  s' = set_flag (flag_ignore_ok (ignore_ok (_internal_flags s) - 1)) s
  /\ ignore_ok (_internal_flags s')
     = Z.max 0 (ignore_ok (_internal_flags s) - 1)
  /\ _clear_to_send s' = _clear_to_send s
  /\ state s' = state s
  /\ _send_queue s' = _send_queue s
  /\ trace s' = trace s
  /\ written s' = written s
  /\ long_running_command (_internal_flags s')
     = long_running_command (_internal_flags s)
  /\ former_tool (_internal_flags s') = former_tool (_internal_flags s)
  /\ current_tool (_internal_flags s') = current_tool (_internal_flags s)
  /\ heating (_internal_flags s') = heating (_internal_flags s)
  /\ heating_start (_internal_flags s')
     = heating_start (_internal_flags s)
  /\ heating_lost (_internal_flags s') = heating_lost (_internal_flags s).
Proof.
intros s'.
assert (Heq : s' = set_flag (flag_ignore_ok
                               (ignore_ok (_internal_flags s) - 1)) s).
{ subst s'. unfold _on_comm_ok.
  rewrite (proj2 (Z.ltb_lt 0 (ignore_ok (_internal_flags s))) Hignore).
  cbn [set_flag set_internal_flags flag_ignore_ok _internal_flags ignore_ok].
  rewrite (proj2 (Z.ltb_ge (ignore_ok (_internal_flags s) - 1) 0))
    by lia.
  reflexivity. }
split; [exact Heq|]. rewrite Heq. simpl.
repeat split. lia.
Qed.

Lemma ignored_ok_only_counts_down_witness :
  let s := _on_comm_ignore_ok Samples.printing in
  0 < ignore_ok (_internal_flags s) /\
  _clear_to_send (_on_comm_ok Samples.sample_env false s) = _clear_to_send s.
Proof.
intros s.
assert (H : 0 < ignore_ok (_internal_flags s)) by (vm_compute; reflexivity).
split; [exact H|].
exact (proj1 (proj2 (proj2
         (ignored_ok_only_counts_down Samples.sample_env false s H)))).
Defined.

Example ignored_ok_restores :
  _on_comm_ok Samples.sample_env false
    (_on_comm_ignore_ok Samples.printing) = Samples.printing.
Proof. vm_compute. reflexivity. Qed.

(** *** The M110 handler *)

(** What the handler does for [M110 N<k>]: the line number becomes [k], the
    history is emptied and [resend_linenumber] is reset; the other resend
    flags and the flag of the send queue are not touched. *)
Lemma _gcode_M110_sending_does (k : Z) (s : t) :
  let s' := _gcode_M110_sending (Samples.M110 k) s in
  _current_linenumber s' = k
  /\ LineHistory._lines (_last_lines s') = []
  /\ (forall n, LineHistory.contains n (_last_lines s') = false)
  /\ resend_linenumber (_internal_flags s') = None
  /\ resend_requested (_internal_flags s')
     = resend_requested (_internal_flags s)
  /\ resend_count (_internal_flags s') = resend_count (_internal_flags s)
  /\ _send_queue s' = _send_queue s
  /\ history_below s'.
Proof.
intros s'. subst s'. unfold _gcode_M110_sending.
assert (Hn : param "n" (Samples.M110 k) = Some (PInt k))
  by (unfold param; simpl; apply lookup_singleton_eq).
rewrite Hn. simpl.
split_and!; try reflexivity.
- destruct (Z.eqb_spec k 0) as [->|]; reflexivity.
- intros l n Hin. simpl in Hin. apply elem_of_nil in Hin. contradiction.
Qed.

(** In the sending phase the pipeline hands [M110] to
    [_gcode_M110_sending] and passes the command on: here with events
    triggered and no hook registered for the phase. *)
Lemma M110_passes_sending_phase (env : Env) (k : Z) (s : t) :
  trigger_events s = true ->
  gcode_hooks_for env "sending" = [] ->
  _process_command_phase env "sending" (Samples.M110 k) s
  = ([Samples.M110 k], _gcode_M110_sending (Samples.M110 k) s).
Proof.
intros Ht Hh. unfold _process_command_phase.
rewrite Ht, Hh. reflexivity.
Qed.

(** C4 (what the code does when a resend is active): the firmware has
    asked for line 2 again; [M110 N0] then passes the sending phase.
    The line number is 0 and the history is empty afterwards, but of the
    resend bookkeeping only [resend_linenumber] is reset:
    [resend_requested] still names line 2 and the send queue still has
    [resend_active] set.  The next [ok] therefore takes the resend branch,
    finds no line to send, and neither serves a line nor continues
    sending. *)
Theorem M110_sending_leaves_resend_requested :
  let s := Samples.resend_requested_2 in
  let s' :=
    snd (_process_command_phase Samples.sample_env "sending"
           (Samples.M110 0) s) in
  let s'' := _on_comm_ok Samples.sample_env false s' in
  (resend_requested (_internal_flags s) = Some 2
   /\ resend_linenumber (_internal_flags s) = Some 2
   /\ SendQueue.resend_active (_send_queue s) = true)
  /\ s' = _gcode_M110_sending (Samples.M110 0) s
  /\ (_current_linenumber s' = 0
      /\ LineHistory._lines (_last_lines s') = []
      /\ resend_linenumber (_internal_flags s') = None)
  /\ (resend_requested (_internal_flags s') = Some 2
      /\ resend_count (_internal_flags s') = Some 0
      /\ SendQueue.resend_active (_send_queue s') = true)
  /\ (calls_since s' s'' = []
      /\ SendQueue.pending (_send_queue s'') = []
      /\ resend_requested (_internal_flags s'') = Some 2).
Proof. vm_compute. repeat split. Qed.

(** The path that ends a resend, in [_send_next_from_resend], resets all of
    the bookkeeping: after the last line of the window is enqueued,
    [resend_requested] and [resend_linenumber] are [None], [resend_count]
    is 0 and [resend_active] is off. *)
Example resend_window_ends :
  let s :=
    snd (_send_next_from_resend Samples.sample_env false
           (snd (_send_next_from_resend Samples.sample_env false
                   Samples.resend_requested_2))) in
  resend_requested (_internal_flags s) = None
  /\ resend_linenumber (_internal_flags s) = None
  /\ resend_count (_internal_flags s) = Some 0
  /\ SendQueue.resend_active (_send_queue s) = false
  /\ map (fun '(e, _, target) => (entry_linenumber e, target))
       (SendQueue.pending (_send_queue s))
     = [(Some 2, "resend"%string); (Some 3, "resend"%string)].
Proof. vm_compute. repeat split. Qed.

(** *** The timeout handler *)

Lemma calls_since_app (s s' : t) (calls : list Effect) :
  trace s' = trace s ++ calls -> calls_since s s' = calls.
Proof.
intros H. unfold calls_since. rewrite H. apply drop_app_length.
Qed.

Lemma keeps_timeout_account_refl (s : t) : keeps_timeout_account s s.
Proof. repeat split. Qed.

Lemma _finish_heatup_keeps (env : Env) (s : t) :
  keeps_timeout_account s (_finish_heatup env s).
Proof.
unfold _finish_heatup, keeps_timeout_account.
destruct (heating (_internal_flags s)); [|repeat split].
destruct (heating_start (_internal_flags s)) as [start|]; [|repeat split].
destruct (negb (start =? 0)); repeat split.
Qed.

Lemma _send_next_from_resend_keeps (env : Env) (again : bool) (s : t) :
  keeps_timeout_account s (snd (_send_next_from_resend env again s)).
Proof.
unfold _send_next_from_resend, keeps_timeout_account.
set (s1 := if again then _ else _).
assert (H1 : keeps_timeout_account s s1).
{ subst s1. destruct again; [|repeat split].
  destruct (resend_linenumber
              (_internal_flags (set_last_communication_error None s)));
    repeat split. }
destruct H1 as (Ht & He & Hs & Hc & Hm).
destruct (resend_linenumber (_internal_flags s1) ≫=
            (fun n => LineHistory.getitem n (_last_lines s1)))
  as [command|]; [|simpl; auto].
unfold _enqueue_for_sending.
destruct (SendQueue.put _ _ _ _) as [q|]; simpl;
  case_bool_decide; simpl; auto.
Qed.

(** The two ways [_on_comm_timeout] can go, by the ceiling
    [consecutive_max] it picked. *)
Lemma _on_comm_timeout_outcome
    (env : Env) (line lower_line : string) (s : t) :
  let count := timeout_consecutive (_internal_flags s) + 1 in
  let s' := snd (_on_comm_timeout env line lower_line s) in
  timeout_consecutive (_internal_flags s') = count
  /\ max_consecutive_timeouts s' = max_consecutive_timeouts s
  /\ if (0 <? consecutive_max s) && (consecutive_max s <? count)
     then trace s' = trace s ++ [CallDisconnect true]
          /\ error s' = Some "Too many consecutive timeouts"%string
     else (trace s' = trace s
           \/ trace s' = trace s ++ [CallSendCommand M105_temperature])
          /\ error s' = error s.
Proof.
intros count s'.
set (s1 := set_flag (flag_timeout_consecutive count) s).
assert (Hc1 : timeout_consecutive (_internal_flags s1) = count)
  by reflexivity.
subst s'. unfold _on_comm_timeout.
fold count. fold s1. rewrite Hc1. cbn [snd].
destruct ((0 <? consecutive_max s) && (consecutive_max s <? count));
  [repeat split|].
case_bool_decide.
{ pose proof (_send_next_from_resend_keeps env true s1)
    as (Ht & He & _ & Hc & Hm).
  unfold _send_same_from_resend.
  destruct (_send_next_from_resend env true s1) as [sent s2].
  cbn [snd] in *. destruct sent; simpl;
    rewrite ?Ht, ?He, ?Hc, ?Hm; auto. }
destruct (heating (_internal_flags s1)).
{ pose proof (_finish_heatup_keeps env s1) as (Ht & He & _ & Hc & Hm).
  simpl. rewrite ?Ht, ?He, ?Hc, ?Hm. auto. }
destruct (long_running_command (_internal_flags s1)); [simpl; auto|].
destruct (state_in (state s1) [PROCESSING; PAUSED]).
{ unfold _send_command.
  destruct (send_command_accepts env M105_temperature); simpl; auto. }
destruct (SendToken.blocked (_clear_to_send s1)); simpl; auto.
Qed.

(** C3: on every timeout the count of consecutive timeouts goes up by one,
    and the engine gives up, setting the error and disconnecting with
    [error=True], if and only if the ceiling that applies ([long] when a
    long running command is active, else [printing] when the state is
    [PROCESSING], [PAUSING] or [CANCELLING], else [idle]) is above zero
    and below the new count; with a ceiling of 0 it never disconnects,
    whatever the count. *)
Theorem timeout_disconnects_iff_over_ceiling
    (env : Env) (line lower_line : string) (s : t) :
  let ceiling :=
    if long_running_command (_internal_flags s) then
      max_long (max_consecutive_timeouts s)
    else if bool_decide (state s = PROCESSING \/ state s = PAUSING
                         \/ state s = CANCELLING) then
      max_printing (max_consecutive_timeouts s)
    else max_idle (max_consecutive_timeouts s) in
  let count := timeout_consecutive (_internal_flags s) + 1 in
  let s' := snd (_on_comm_timeout env line lower_line s) in
  timeout_consecutive (_internal_flags s') = count
  /\ (0 < ceiling < count ->
        calls_since s s' = [CallDisconnect true]
        /\ error s' = Some "Too many consecutive timeouts"%string)
  /\ (~ 0 < ceiling < count ->
        (forall e, CallDisconnect e ∉ calls_since s s')
        /\ error s' = error s)
  /\ (ceiling = 0 -> forall e, CallDisconnect e ∉ calls_since s s').
Proof.
intros ceiling count s'.
assert (Hceiling : consecutive_max s = ceiling).
{ unfold consecutive_max, ceiling, state_in.
  destruct (long_running_command (_internal_flags s)); [reflexivity|].
  destruct (state s); reflexivity. }
pose proof (_on_comm_timeout_outcome env line lower_line s)
  as (Hcount & _ & Hmain).
fold count s' in Hcount, Hmain. rewrite Hceiling in Hmain.
split; [exact Hcount|].
destruct ((0 <? ceiling) && (ceiling <? count)) eqn:E.
- apply andb_true_iff in E as [E1 E2].
  apply Z.ltb_lt in E1, E2.
  destruct Hmain as [Ht He].
  split; [intros _; split; [apply calls_since_app; exact Ht|exact He]|].
  split; intros; lia.
- assert (Hno : forall e, CallDisconnect e ∉ calls_since s s').
  { intros e Hin. destruct Hmain as [[Ht|Ht] _].
    - rewrite (calls_since_app s s' []) in Hin
        by (rewrite app_nil_r; exact Ht).
      apply elem_of_nil in Hin. exact Hin.
    - rewrite (calls_since_app s s' _ Ht) in Hin.
      apply list_elem_of_singleton in Hin. discriminate. }
  split.
  { intros [H0 Hc]. apply andb_false_iff in E as [E|E].
    - apply Z.ltb_ge in E. lia.
    - apply Z.ltb_ge in E. lia. }
  split; [intros _; split; [exact Hno|apply Hmain]|].
  intros _. exact Hno.
Qed.

Lemma timeout_disconnects_iff_over_ceiling_witness :
  let s := timeouts_in_a_row Samples.sample_env 5 Samples.printing in
  let s' := snd (_on_comm_timeout Samples.sample_env "" "" s) in
  0 < max_printing (max_consecutive_timeouts s)
      < timeout_consecutive (_internal_flags s) + 1
  /\ calls_since s s' = [CallDisconnect true]
  /\ error s' = Some "Too many consecutive timeouts"%string.
Proof.
intros s s'.
assert (H : 0 < max_printing (max_consecutive_timeouts s)
              < timeout_consecutive (_internal_flags s) + 1)
  by (vm_compute; split; reflexivity).
split; [exact H|].
exact (proj1 (proj2 (timeout_disconnects_iff_over_ceiling
                       Samples.sample_env "" "" s)) H).
Defined.

(** With every ceiling at 0, no number of timeouts in a row makes the
    engine disconnect. *)
Lemma zero_ceilings_never_disconnect (env : Env) (n : nat) (s : t) :
  max_consecutive_timeouts s
  = {| max_idle := 0; max_printing := 0; max_long := 0 |} ->
  exists calls,
    trace (timeouts_in_a_row env n s) = trace s ++ calls
    /\ forall e, CallDisconnect e ∉ calls.
Proof.
revert s. induction n as [|n IH]; intros s Hzero.
- exists []. simpl. rewrite app_nil_r. split; [reflexivity|].
  intros e Hin. apply elem_of_nil in Hin. exact Hin.
- pose proof (_on_comm_timeout_outcome env "" "" s) as (_ & Hm & Hmain).
  assert (Hc : consecutive_max s = 0).
  { unfold consecutive_max. rewrite Hzero. simpl.
    destruct (long_running_command (_internal_flags s));
      [reflexivity|].
    destruct (state_in (state s) [PROCESSING; PAUSING; CANCELLING]);
      reflexivity. }
  rewrite Hc in Hmain.
  change (0 <? 0) with false in Hmain. cbn [andb] in Hmain.
  destruct (IH (snd (_on_comm_timeout env "" "" s)))
    as (calls & Htrace & Hno); [rewrite Hm; exact Hzero|].
  destruct Hmain as [[Ht|Ht] _].
  + exists calls. split; [|exact Hno].
    cbn [timeouts_in_a_row]. rewrite Htrace, Ht. reflexivity.
  + exists ([CallSendCommand M105_temperature] ++ calls).
    split; [cbn [timeouts_in_a_row];
            rewrite Htrace, Ht, app_assoc; reflexivity|].
    intros e Hin. apply elem_of_app in Hin as [Hin|Hin].
    * apply list_elem_of_singleton in Hin. discriminate.
    * exact (Hno e Hin).
Qed.

Example five_timeouts_are_tolerated :
  calls_since Samples.printing
    (timeouts_in_a_row Samples.sample_env 5 Samples.printing)
  = [CallSendCommand M105_temperature; CallSendCommand M105_temperature;
     CallSendCommand M105_temperature; CallSendCommand M105_temperature;
     CallSendCommand M105_temperature]
  /\ calls_since Samples.printing
       (timeouts_in_a_row Samples.sample_env 6 Samples.printing)
     = [CallSendCommand M105_temperature; CallSendCommand M105_temperature;
        CallSendCommand M105_temperature; CallSendCommand M105_temperature;
        CallSendCommand M105_temperature; CallDisconnect true].
Proof. vm_compute. split; reflexivity. Qed.

(** *** The send loop *)

(** C6: in a turn of the send loop that writes a command to the transport
    and in which the [on_sent] callback and the [sent] phase return, the
    turn ends with [self._clear_to_send.clear()] exactly when the command
    is a G-code command or the flavor has [unknown_requires_ack] set, and
    then [_continue_sending] is not called; the [clear()] takes exactly one
    slot off a token that has one and no ignore pending (at a counter of 0
    there is none to take; the handlers leave no ignore pending, see
    [InvariantFacts.engine_never_ignores]).  In the other case the turn
    ends with the call of [_continue_sending] and makes no call on the
    token of its own.  When the callback or a handler of the [sent] phase
    raises, the turn ends where the exception was raised and reaches
    neither. *)
Theorem clear_used_iff_ack_expected
    (env : Env) (entry : SendEntry) (s s1 : t) (command : Command)
    (Hactive : _send_queue_active s = true)
    (Hwritten : send_entry env entry s = Written command s1) :
  let s2 := run_sent env (entry_on_sent entry) command s1 in
  let s3 := _send_loop_turn env entry s in
  let ack_expected :=
    is_gcode command || unknown_requires_ack (flavor s2) in
  let token := _clear_to_send s2 in
  (run_sent_raised env (entry_on_sent entry) command s1 = None ->
     (ack_expected = true ->
        s3 = set_clear_to_send (SendToken.clear false token) s2
        /\ calls_since s2 s3 = []
        /\ (SendToken.in_range token -> SendToken._ignored token = 0 ->
              SendToken._counter (_clear_to_send s3)
              = Z.max 0 (SendToken._counter token - 1)
              /\ SendToken._ignored (_clear_to_send s3) = 0
              /\ (0 < SendToken._counter token ->
                    SendToken._counter (_clear_to_send s3)
                    = SendToken._counter token - 1)))
     /\ (ack_expected = false ->
           s3 = _continue_sending s2
           /\ calls_since s2 s3 = [CallContinueSending]))
  /\ (forall s',
        run_sent_raised env (entry_on_sent entry) command s1 = Some s' ->
        s3 = s').
Proof.
intros s2 s3 ack_expected token.
split.
- intros Hreturns.
  assert (Hs3 : s3 = if ack_expected
                     then set_clear_to_send
                            (SendToken.clear false token) s2
                     else _continue_sending s2).
  { subst s3. unfold _send_loop_turn.
    rewrite Hactive, Hwritten. cbn [negb]. rewrite Hreturns.
    unfold after_sent. fold s2. subst ack_expected token.
    destruct (is_gcode command); reflexivity. }
  split; intros Hack; rewrite Hack in Hs3; rewrite Hs3.
  + split; [reflexivity|].
    split; [apply calls_since_app; simpl; rewrite app_nil_r; reflexivity|].
    intros [Hlow Hhigh] Hignored.
    cbn [_clear_to_send set_clear_to_send].
    unfold SendToken.clear. rewrite Hignored.
    change (0 <? 0) with false. cbn iota.
    unfold SendToken._internal_set.
    cbn [SendToken._counter SendToken._ignored].
    rewrite (SendTokenFacts.clamp_in_range (SendToken._max token)
               (SendToken._counter token) Hlow Hhigh 1) by lia.
    split_and!; [reflexivity|exact Hignored|lia].
  + split; [reflexivity|].
    apply calls_since_app. reflexivity.
- intros s' Hraised. subst s3. unfold _send_loop_turn.
  rewrite Hactive, Hwritten. cbn [negb]. rewrite Hraised. reflexivity.
Qed.

Lemma clear_used_iff_ack_expected_witness :
  let entry :=
    {| entry_command := ItemCommand (Samples.G1 3);
       entry_linenumber := None; entry_on_sent := None;
       entry_processed := false |} in
  let s := clear_to_send_set Samples.printing in
  let s1 := _do_send (Samples.G1 3) s in
  let s3 := _send_loop_turn Samples.sample_env entry s in
  _send_queue_active s = true /\
  send_entry Samples.sample_env entry s = Written (Samples.G1 3) s1 /\
  s3 = set_clear_to_send (SendToken.clear false (_clear_to_send s1)) s1 /\
  SendToken._counter (_clear_to_send s) = 1 /\
  SendToken._counter (_clear_to_send s3) = 0.
Proof.
intros entry s s1 s3.
assert (Ha : _send_queue_active s = true) by (vm_compute; reflexivity).
assert (Hw : send_entry Samples.sample_env entry s
             = Written (Samples.G1 3) s1) by (vm_compute; reflexivity).
pose proof (proj1 (clear_used_iff_ack_expected Samples.sample_env entry
                     s s1 (Samples.G1 3) Ha Hw)) as H.
cbv zeta in H.
destruct (proj1 (H ltac:(vm_compute; reflexivity)) eq_refl)
  as (Hs3 & _ & Htoken).
destruct (Htoken ltac:(vm_compute; split; discriminate)
            ltac:(vm_compute; reflexivity)) as (_ & _ & Hone).
split; [exact Ha|]. split; [exact Hw|]. split; [exact Hs3|].
split; [vm_compute; reflexivity|].
exact (Hone ltac:(vm_compute; reflexivity)).
Defined.

(** A line that is not G-code goes out without a line number under the
    sample flavor, and the turn continues sending instead of using up a
    clear. *)
Example plain_line_continues_sending :
  let hello :=
    {| kind := PlainCommand; line := "hello"; type := None; tags := ∅ |} in
  let entry :=
    {| entry_command := ItemCommand hello;
       entry_linenumber := None; entry_on_sent := None;
       entry_processed := false |} in
  let s := _send_loop_turn Samples.sample_env entry Samples.printing in
  calls_since Samples.printing s = [CallContinueSending]
  /\ _clear_to_send s = _clear_to_send Samples.printing
  /\ written s
     = written Samples.printing ++ [Py.to_bytes "hello" ++ Py.b_newline].
Proof. vm_compute. repeat split. Qed.

(** A turn of the send loop for [M110 N0]: the handler has reset the line
    number before the write, so the line goes out as line 0 and the next
    line will be line 1. *)
Example M110_turn :
  let entry :=
    {| entry_command := ItemCommand (Samples.M110 0);
       entry_linenumber := None; entry_on_sent := None;
       entry_processed := false |} in
  let s := _send_loop_turn Samples.sample_env entry Samples.printing in
  last (written s)
  = Some (numbered_line (Py.to_bytes "M110 N0") 0 ++ Py.b_newline)
  /\ _current_linenumber s = 1
  /\ LineHistory.lines (_last_lines s) = ["M110 N0"%string]
  /\ SendToken._counter (_clear_to_send s) = 0.
Proof. vm_compute. repeat split. Qed.

(** *** \@-commands *)

(** [self._atcommand_hooks[phase]] raises for every phase. *)
Lemma _atcommand_hooks_getitem (get_hooks : PluginManager) (phase : string) :
  getitem_str (_atcommand_hooks get_hooks) phase = Raises "TypeError".
Proof. reflexivity. Qed.

(** The same subscript on [self._gcode_hooks], a dict, gives the hooks. *)
Lemma _gcode_hooks_getitem (get_hooks : PluginManager) :
  getitem_str (_gcode_hooks get_hooks) "queuing"
  = Returns (get_hooks "octoprint.comm.protocol.gcode.queuing"%string).
Proof. reflexivity. Qed.

(** Outside of streaming, [_process_atcommand_phase] never gets to the
    built-in handlers in the phases it serves. *)
Lemma _process_atcommand_phase_raises (get_hooks : PluginManager)
    (phase : string) (command : Command) (s : t) :
  _is_streaming s = false ->
  phase = "queuing"%string \/ phase = "sending"%string ->
  _process_atcommand_phase get_hooks phase command s = Raises "TypeError".
Proof.
intros Hs Hphase.
unfold _process_atcommand_phase, process_atcommand_phase_in.
rewrite Hs. destruct Hphase as [-> | ->]; reflexivity.
Qed.

(** C7 (what the code does): the engine processes a job from a
    file and is not streaming; [@pause], [@cancel], [@abort] and [@resume],
    none of them tagged as coming from a script, enter the queuing phase.
    The subscript of the tuple [self._atcommand_hooks] with the phase
    raises [TypeError], the method is left before the built-in handler is
    looked up, and none of the three transitions is triggered. *)
Theorem atcommand_queuing_raises_type_error (get_hooks : PluginManager) :
  let s := Samples.printing in
  _is_streaming s = false
  /\ _process_atcommand_phase get_hooks "queuing"
       (Samples.at_command "pause" ∅) s = Raises "TypeError"
  /\ _process_atcommand_phase get_hooks "queuing"
       (Samples.at_command "cancel" ∅) s = Raises "TypeError"
  /\ _process_atcommand_phase get_hooks "queuing"
       (Samples.at_command "abort" ∅) s = Raises "TypeError"
  /\ _process_atcommand_phase get_hooks "queuing"
       (Samples.at_command "resume" ∅) s = Raises "TypeError".
Proof.
intros s.
assert (Hs : _is_streaming s = false) by (vm_compute; reflexivity).
split; [exact Hs|].
split_and!; apply _process_atcommand_phase_raises; auto.
Qed.

(** The built-in handlers do what the spec says: each triggers its
    transition unless the command carries the tag of the matching
    script. *)
Lemma _atcommand_handlers_trigger (command : Command) (s : t) :
  ("script:afterPrintPaused"%string ∉ tags command ->
     trace (_atcommand_pause_queuing command s)
     = trace s ++ [CallPauseProcessing {["trigger:atcommand_pause"%string]}])
  /\ ("script:afterPrintCancelled"%string ∉ tags command ->
        trace (_atcommand_cancel_queuing command s)
        = trace s
          ++ [CallCancelProcessing false
                {["trigger:atcommand_cancel"%string]}])
  /\ ("script:beforePrintResumed"%string ∉ tags command ->
        trace (_atcommand_resume_queuing command s)
        = trace s
          ++ [CallResumeProcessing {["trigger:atcommand_resume"%string]}]).
Proof.
unfold _atcommand_pause_queuing, _atcommand_cancel_queuing,
  _atcommand_resume_queuing.
split_and!; intros Hnot; rewrite bool_decide_eq_false_2 by exact Hnot;
  reflexivity.
Qed.

(** Had [self._atcommand_hooks] been the dict itself, as [_gcode_hooks] is,
    [@pause] without the script tag would reach its handler in the queuing
    phase and trigger [pause_processing]. *)
Lemma pause_reaches_handler_with_dict (d : gmap string hooks)
    (registered : hooks) (tags : gset string) (s : t) :
  _is_streaming s = false ->
  d !! "queuing"%string = Some registered ->
  "script:afterPrintPaused"%string ∉ tags ->
  exists s',
    process_atcommand_phase_in (PyDict d) "queuing"
      (Samples.at_command "pause" tags) s = Returns s'
    /\ last (trace s')
       = Some (CallPauseProcessing {["trigger:atcommand_pause"%string]}).
Proof.
intros Hs Hd Hnot. unfold process_atcommand_phase_in.
rewrite Hs. simpl. rewrite Hd. simpl.
eexists. split; [reflexivity|].
unfold _atcommand_pause_queuing. simpl.
rewrite bool_decide_eq_false_2 by exact Hnot.
simpl. apply last_snoc.
Qed.

End EngineFacts.

(** ** Sequences of calls on the send token *)

Module TokenRunsFacts.

Import SendToken Runs.

Lemma token_call_keeps (c : TokenCall) (s : SendToken.t) :
  match _max s with Some m => 0 <= m | None => True end ->
  0 <= _ignored s ->
  in_range (token_call c s)
  /\ 0 <= _ignored (token_call c s)
  /\ _max (token_call c s) = _max s.
Proof.
intros Hm Hi.
destruct c as [ignore|completely]; simpl.
- unfold set. destruct ignore; simpl; (split; [|split; [lia|reflexivity]]);
    apply SendTokenFacts._internal_set_in_range; simpl; exact Hm.
- split; [apply SendTokenFacts.clear_in_range; exact Hm|].
  unfold clear. destruct completely; simpl; [split; [lia|reflexivity]|].
  destruct (0 <? _ignored s) eqn:E; simpl; [|split; [lia|reflexivity]].
  apply Z.ltb_lt in E. split; [lia|reflexivity].
Qed.

(** X1: whatever calls of [set] and [clear] a token gets, in whatever
    order, its counter stays between 0 and the bound and the count of
    ignores never goes below zero. *)
Theorem token_calls_keep_range (calls : list TokenCall) (s : SendToken.t)
    (Hmax : match _max s with Some m => 0 <= m | None => True end)
    (Hrange : in_range s) (Hignored : 0 <= _ignored s) :
  in_range (token_calls calls s)
  /\ 0 <= _ignored (token_calls calls s)
  /\ _max (token_calls calls s) = _max s.
Proof.
revert s Hmax Hrange Hignored.
induction calls as [|c calls IH]; intros s Hmax Hrange Hignored.
- split; [exact Hrange|]. split; [exact Hignored|reflexivity].
- destruct (token_call_keeps c s Hmax Hignored) as (Hr & Hi & Hm).
  unfold token_calls in *. cbn [fold_left].
  destruct (IH (token_call c s)) as (Hr' & Hi' & Hm');
    [rewrite Hm; exact Hmax|exact Hr|exact Hi|].
  split; [exact Hr'|]. split; [exact Hi'|].
  rewrite Hm'. exact Hm.
Qed.

Lemma token_calls_keep_range_witness :
  let s := SendToken.init 0 (Some 10) in
  let calls :=
    [CallClear false; CallSet true; CallSet false; CallClear false;
     CallClear false; CallSet false] in
  (match _max s with Some m => 0 <= m | None => True end)
  /\ in_range s /\ 0 <= _ignored s
  /\ in_range (token_calls calls s).
Proof.
intros s calls.
assert (Hm : match _max s with Some m => 0 <= m | None => True end)
  by (cbv; congruence).
assert (Hr : in_range s) by (cbv; split; congruence).
assert (Hi : 0 <= _ignored s) by (cbv; congruence).
split; [exact Hm|]. split; [exact Hr|]. split; [exact Hi|].
exact (proj1 (token_calls_keep_range calls s Hm Hr Hi)).
Defined.

(** X2: a [set(ignore=True)] is undone by the next [clear()], which still
    uses up a slot of its own: below the bound, the two calls together
    leave the count of ignores as it was and take one off the counter,
    with 0 as the floor. *)
Theorem ignored_set_is_spent_by_clear (s : SendToken.t)
    (Hrange : in_range s) (Hignored : 0 <= _ignored s)
    (Hroom : match _max s with Some m => _counter s < m | None => True end) :
  clear false (set true s)
  = {| _counter := Z.max 0 (_counter s - 1);
       _max := _max s;
       _ignored := _ignored s |}.
Proof.
destruct s as [c m i]. destruct Hrange as [Hc Hm]. simpl in *.
unfold clear, set, _internal_set, CountedEvent.clamp. simpl.
rewrite (proj2 (Z.ltb_lt 0 (i + 1))) by lia.
simpl. f_equal; [|lia].
destruct m as [m|]; lia.
Qed.

Lemma ignored_set_is_spent_by_clear_witness :
  let s := {| _counter := 2; _max := Some 10; _ignored := 0 |} in
  in_range s /\ 0 <= _ignored s
  /\ clear false (set true s)
     = {| _counter := 1; _max := Some 10; _ignored := 0 |}.
Proof.
intros s.
assert (Hr : in_range s) by (unfold in_range; simpl; lia).
assert (Hi : 0 <= _ignored s) by (simpl; lia).
split; [exact Hr|]. split; [exact Hi|].
exact (ignored_set_is_spent_by_clear s Hr Hi ltac:(simpl; lia)).
Defined.

(** X3: with no ignore pending, [set()] followed by [clear()] gives the
    token back as it was while the counter is below the bound; at the
    bound the [set()] is lost and the pair takes one off the counter. *)
Theorem set_then_clear (s : SendToken.t)
    (Hrange : in_range s) (Hignored : _ignored s = 0) :
  (match _max s with Some m => _counter s < m | None => True end ->
     clear false (set false s) = s)
  /\ (forall m, _max s = Some m -> _counter s = m ->
        _counter (clear false (set false s)) = Z.max 0 (m - 1)).
Proof.
destruct s as [c m i]. destruct Hrange as [Hc Hm]. simpl in *. subst i.
unfold clear, set, _internal_set, CountedEvent.clamp. simpl.
split.
- intros Hroom. f_equal. destruct m as [m|]; lia.
- intros m' -> ->. lia.
Qed.

Lemma set_then_clear_witness :
  let s := {| _counter := 10; _max := Some 10; _ignored := 0 |} in
  in_range s /\ _ignored s = 0
  /\ _counter (clear false (set false s)) = 9.
Proof.
intros s.
assert (Hr : in_range s) by (unfold in_range; simpl; lia).
split; [exact Hr|]. split; [reflexivity|].
exact (proj2 (set_then_clear s Hr eq_refl) 10 eq_refl eq_refl).
Defined.

End TokenRunsFacts.


(** ** Sequences of appends to the line history *)

Module HistoryRunsFacts.

Import LineHistory Runs.

Implicit Types (h : LineHistory.t) (lines : list (string * option Z))
  (lookup : gmap Z string).

(** A number the loop of [_cleanup] leaves in the table was there before,
    and none of the dropped entries carries it. *)
Lemma _cleanup_loop_lookup_inv (max : nat) lines lookup (n : Z) (v : string) :
  snd (_cleanup_loop max lines lookup) !! n = Some v ->
  lookup !! n = Some v
  /\ forall l, (l, Some n) ∉ take (length lines - max) lines.
Proof.
revert lookup. induction lines as [|[l o] rest IH]; intros lookup Hv.
- split; [exact Hv|]. intros l' Hin. simpl in Hin.
  apply elem_of_nil in Hin. exact Hin.
- cbn [_cleanup_loop] in Hv.
  destruct (max <? length ((l, o) :: rest))%nat eqn:E.
  + apply Nat.ltb_lt in E. simpl in E.
    replace (length ((l, o) :: rest) - max)%nat
      with (S (length rest - max)) by (simpl; lia).
    apply IH in Hv as [Hv Hno].
    destruct o as [k|].
    * destruct (decide (k = n)) as [->|Hne];
        [rewrite lookup_delete_eq in Hv; discriminate|].
      rewrite lookup_delete_ne in Hv by exact Hne.
      split; [exact Hv|]. intros l' Hin. simpl in Hin.
      apply elem_of_cons in Hin as [Hin|Hin]; [congruence|].
      exact (Hno l' Hin).
    * split; [exact Hv|]. intros l' Hin. simpl in Hin.
      apply elem_of_cons in Hin as [Hin|Hin]; [discriminate|].
      exact (Hno l' Hin).
  + apply Nat.ltb_ge in E.
    replace (length ((l, o) :: rest) - max)%nat with 0%nat by lia.
    split; [exact Hv|]. intros l' Hin. simpl in Hin.
    apply elem_of_nil in Hin. exact Hin.
Qed.

Lemma _cleanup_lookup_inv h (n : Z) (v : string) :
  _line_number_lookup (_cleanup h) !! n = Some v ->
  _line_number_lookup h !! n = Some v
  /\ forall l,
       (l, Some n) ∉ take (length (_lines h) - max h) (_lines h).
Proof.
unfold _cleanup.
destruct (length (_lines h) <=? max h)%nat eqn:E.
- apply Nat.leb_le in E.
  replace (length (_lines h) - max h)%nat with 0%nat by lia.
  intros Hv. split; [exact Hv|]. intros l Hin. simpl in Hin.
  apply elem_of_nil in Hin. exact Hin.
- pose proof (_cleanup_loop_lookup_inv (max h) (_lines h)
                (_line_number_lookup h) n v) as H.
  destruct (_cleanup_loop (max h) (_lines h) (_line_number_lookup h)).
  exact H.
Qed.

Lemma _cleanup_sound h : lookup_sound h -> lookup_sound (_cleanup h).
Proof.
intros Hs n line Hv.
apply _cleanup_lookup_inv in Hv as [Hv Hno].
apply Hs in Hv.
rewrite LineHistoryFacts._cleanup_lines.
rewrite <- (take_drop (length (_lines h) - max h) (_lines h)) in Hv.
apply elem_of_app in Hv as [Hv|Hv]; [|exact Hv].
exfalso. exact (Hno line Hv).
Qed.

Lemma append_sound h (line : string) (line_number : option Z) :
  lookup_sound h -> lookup_sound (append line line_number h).
Proof.
intros Hs. unfold append. apply _cleanup_sound.
intros n l Hv. simpl in *.
destruct line_number as [k|].
- destruct (decide (k = n)) as [->|Hne].
  + rewrite lookup_insert_eq in Hv. injection Hv as ->.
    apply elem_of_app. right. apply list_elem_of_singleton. reflexivity.
  + rewrite lookup_insert_ne in Hv by exact Hne.
    apply elem_of_app. left. exact (Hs n l Hv).
- apply elem_of_app. left. exact (Hs n l Hv).
Qed.

Lemma append_all_snoc (entries : list (string * option Z))
    (line : string) (line_number : option Z) h :
  append_all (entries ++ [(line, line_number)]) h
  = append line line_number (append_all entries h).
Proof. unfold append_all. rewrite fold_left_app. reflexivity. Qed.

Lemma append_all_max (entries : list (string * option Z)) h :
  max (append_all entries h) = max h.
Proof.
induction entries as [|[l o] entries IH] using rev_ind; [reflexivity|].
rewrite append_all_snoc, LineHistoryFacts.append_max. exact IH.
Qed.

(** What a fresh history holds after a run of appends: the newest [max]
    entries. *)
Lemma append_all_lines (capacity : nat)
    (entries : list (string * option Z)) :
  _lines (append_all entries (init capacity))
  = drop (length entries - capacity) entries.
Proof.
induction entries as [|[l o] entries IH] using rev_ind; [reflexivity|].
rewrite append_all_snoc, LineHistoryFacts.append_lines, IH.
rewrite append_all_max. simpl.
rewrite length_drop, length_app. simpl.
destruct (decide (length entries < capacity)%nat) as [Hlt|Hge].
- replace (length entries - capacity)%nat with 0%nat by lia.
  replace (S (length entries - 0) - capacity)%nat with 0%nat by lia.
  replace (length entries + 1 - capacity)%nat with 0%nat by lia.
  reflexivity.
- replace (S (length entries - (length entries - capacity)) - capacity)%nat
    with 1%nat by lia.
  replace (length entries + 1 - capacity)%nat
    with ((length entries - capacity) + 1)%nat by lia.
  rewrite <- drop_drop.
  rewrite (drop_app_le entries [(l, o)] (length entries - capacity))
    by lia.
  reflexivity.
Qed.

Lemma append_all_sound (capacity : nat)
    (entries : list (string * option Z)) :
  lookup_sound (append_all entries (init capacity)).
Proof.
induction entries as [|[l o] entries IH] using rev_ind.
- intros n line Hv. simpl in Hv. rewrite lookup_empty in Hv.
  discriminate.
- rewrite append_all_snoc. apply append_sound. exact IH.
Qed.

(** X4: after any run of appends to a fresh history, numbered or not and
    with whatever numbers, the history holds the newest [max] entries and no
    more, and every number of the lookup table leads to an entry that is
    still held, with the line the table gives. *)
Theorem appends_keep_history_bounded_and_sound (capacity : nat)
    (entries : list (string * option Z)) :
  let h := append_all entries (init capacity) in
  _lines h = drop (length entries - capacity) entries
  /\ (len h <= capacity)%nat
  /\ lookup_sound h.
Proof.
intros h. subst h.
split; [apply append_all_lines|].
split.
- unfold len. rewrite append_all_lines, length_drop. lia.
- apply append_all_sound.
Qed.

Lemma elem_of_numbered_from (first : Z) (texts : list string)
    (line : string) (n : Z) :
  (line, Some n) ∈ numbered_from first texts
  <-> exists i : nat, texts !! i = Some line /\ n = first + Z.of_nat i.
Proof.
unfold numbered_from. rewrite elem_of_lookup_imap. split.
- intros (i & x & Heq & Hx). injection Heq as -> ->. eauto.
- intros (i & Hx & ->). eauto.
Qed.

(** Appending under a number that no entry carries keeps every numbered
    entry retrievable and the numbers distinct. *)
Lemma append_fresh h (line : string) (n : Z) :
  lookup_complete h -> numbers_distinct h ->
  (forall l, (l, Some n) ∉ _lines h) ->
  lookup_complete (append line (Some n) h)
  /\ numbers_distinct (append line (Some n) h).
Proof.
intros Hc Hd Hfresh.
set (L := _lines h ++ [(line, Some n)]).
set (j := (S (length (_lines h)) - max h)%nat).
assert (Hlines : _lines (append line (Some n) h) = drop j L)
  by apply LineHistoryFacts.append_lines.
assert (HdL : NoDup (omap snd (take j L) ++ omap snd (drop j L))).
{ rewrite <- omap_app, take_drop. unfold L. rewrite omap_app. simpl.
  apply NoDup_app. split; [exact Hd|]. split; [|apply NoDup_singleton].
  intros x Hx Hin. apply list_elem_of_singleton in Hin. subst x.
  apply list_elem_of_omap in Hx as ([l o] & Hin & Heq).
  simpl in Heq. subst o. exact (Hfresh l Hin). }
apply NoDup_app in HdL as (_ & Hdisj & Hdrop).
split.
- intros k l Hin. rewrite Hlines in Hin.
  unfold append. apply LineHistoryFacts._cleanup_lookup; simpl.
  + apply (subseteq_drop _ _ _) in Hin. unfold L in Hin.
    apply elem_of_app in Hin as [Hin|Hin].
    * rewrite lookup_insert_ne; [exact (Hc k l Hin)|].
      intros ->. exact (Hfresh l Hin).
    * apply list_elem_of_singleton in Hin. injection Hin as -> ->.
      apply lookup_insert_eq.
  + intros l' Hin'. rewrite length_app in Hin'. simpl in Hin'.
    replace (length (_lines h) + 1 - max h)%nat with j in Hin'
      by (unfold j; lia).
    fold L in Hin'.
    apply (Hdisj k).
    * apply list_elem_of_omap. exists (l', Some k). split; [exact Hin'|].
      reflexivity.
    * apply list_elem_of_omap. exists (l, Some k). split; [exact Hin|].
      reflexivity.
- unfold numbers_distinct. rewrite Hlines. exact Hdrop.
Qed.

Lemma numbered_from_snoc (first : Z) (texts : list string) (x : string) :
  numbered_from first (texts ++ [x])
  = numbered_from first texts
    ++ [(x, Some (first + Z.of_nat (length texts)))].
Proof.
unfold numbered_from. rewrite imap_app. simpl.
rewrite Nat.add_0_r. reflexivity.
Qed.

Lemma consecutive_appends_complete (capacity : nat) (first : Z)
    (texts : list string) :
  let h := append_all (numbered_from first texts) (init capacity) in
  lookup_complete h /\ numbers_distinct h.
Proof.
induction texts as [|x texts IH] using rev_ind.
- split; [|apply NoDup_nil_2].
  intros n line Hin. simpl in Hin. apply elem_of_nil in Hin.
  contradiction.
- destruct IH as [Hc Hd]. cbv zeta.
  rewrite numbered_from_snoc, append_all_snoc.
  apply append_fresh; [exact Hc|exact Hd|].
  intros l Hin. rewrite append_all_lines in Hin.
  apply (subseteq_drop _ _ _) in Hin.
  apply elem_of_numbered_from in Hin as (i & Hi & Heq).
  apply lookup_lt_Some in Hi. lia.
Qed.

(** X5: when lines go into a fresh history under consecutive numbers, a
    lookup by number succeeds exactly for the newest [max] of them and
    gives the line that was appended under the number; every older or
    unknown number is a miss. *)
Theorem consecutive_appends_lookup (capacity : nat) (first : Z)
    (texts : list string) (k : Z) :
  let h := append_all (numbered_from first texts) (init capacity) in
  let count := Z.of_nat (length texts) in
  getitem k h
  = if decide (first <= k
               /\ first + count - Z.of_nat capacity <= k < first + count)
    then texts !! Z.to_nat (k - first)
    else None.
Proof.
intros h count.
pose proof (append_all_sound capacity (numbered_from first texts)) as Hs.
pose proof (consecutive_appends_complete capacity first texts)
  as [Hc _].
fold h in Hs, Hc.
assert (Hlines : _lines h
                 = drop (length texts - capacity)
                     (numbered_from first texts)).
{ unfold h. rewrite append_all_lines. unfold numbered_from.
  rewrite length_imap. reflexivity. }
unfold getitem.
destruct (_line_number_lookup h !! k) as [line|] eqn:E.
- apply Hs in E. rewrite Hlines in E.
  apply list_elem_of_lookup in E as (i & Hi).
  rewrite lookup_drop in Hi.
  unfold numbered_from in Hi. rewrite list_lookup_imap in Hi.
  destruct (texts !! (length texts - capacity + i)%nat) as [x|] eqn:Hx;
    [|discriminate].
  simpl in Hi. injection Hi as Hline Hk. subst x.
  pose proof (lookup_lt_Some _ _ _ Hx) as Hlt.
  rewrite decide_True by (unfold count; lia).
  replace (Z.to_nat (k - first))
    with (length texts - capacity + i)%nat by lia.
  symmetry. exact Hx.
- case_decide as Hw; [|reflexivity].
  exfalso.
  assert (Hidx : (Z.to_nat (k - first) < length texts)%nat)
    by (unfold count in Hw; lia).
  destruct (lookup_lt_is_Some_2 texts _ Hidx) as [x Hx].
  assert (Hin : (x, Some k) ∈ _lines h).
  { rewrite Hlines. apply list_elem_of_lookup.
    exists (Z.to_nat (k - first) - (length texts - capacity))%nat.
    rewrite lookup_drop. unfold numbered_from.
    rewrite list_lookup_imap.
    replace (length texts - capacity
             + (Z.to_nat (k - first) - (length texts - capacity)))%nat
      with (Z.to_nat (k - first)) by (unfold count in Hw; lia).
    rewrite Hx. simpl. f_equal. f_equal. f_equal. lia. }
  apply Hc in Hin. congruence.
Qed.

Lemma _cleanup_loop_fits (capacity : nat) lines lookup :
  (length lines <= capacity)%nat ->
  _cleanup_loop capacity lines lookup = (lines, lookup).
Proof.
intros Hle. destruct lines as [|[l o] rest]; [reflexivity|].
cbn [_cleanup_loop].
rewrite (proj2 (Nat.ltb_ge capacity (length ((l, o) :: rest)))) by exact Hle.
reflexivity.
Qed.

(** X6: when a full history gets a line under the very number its oldest
    entry carries, the eviction of that entry takes the number out of the
    lookup table: the new line is held as the newest entry, but a lookup
    under its number misses. *)
Theorem reused_number_is_lost h (oldest line : string) (n : Z)
    (rest : list (string * option Z))
    (Hlines : _lines h = (oldest, Some n) :: rest)
    (Hfull : length (_lines h) = max h) :
  let h' := append line (Some n) h in
  _lines h' = rest ++ [(line, Some n)]
  /\ getitem n h' = None
  /\ contains n h' = false.
Proof.
intros h'.
assert (Hh' : h' = {| max := max h;
                      _lines := rest ++ [(line, Some n)];
                      _line_number_lookup :=
                        delete n (<[n := line]> (_line_number_lookup h)) |}).
{ subst h'. unfold append, _cleanup. cbn [_lines max _line_number_lookup].
  rewrite Hlines in *. simpl in Hfull.
  rewrite (proj2 (Nat.leb_gt _ _))
    by (rewrite length_app; simpl; lia).
  cbn [app _cleanup_loop].
  rewrite (proj2 (Nat.ltb_lt (max h)
                    (length ((oldest, Some n) :: rest ++ [(line, Some n)]))))
    by (simpl; rewrite length_app; simpl; lia).
  rewrite _cleanup_loop_fits by (rewrite length_app; simpl; lia).
  reflexivity. }
rewrite Hh'. unfold getitem, contains. simpl.
rewrite lookup_delete_eq.
split; [reflexivity|]. split; [reflexivity|].
apply bool_decide_eq_false. intros [x Hx]. discriminate.
Qed.

Lemma reused_number_is_lost_witness :
  let h := append "G1 X0" (Some 5) (init 1) in
  _lines h = [("G1 X0"%string, Some 5)]
  /\ length (_lines h) = max h
  /\ contains 5 (append "G1 X1" (Some 5) h) = false.
Proof.
intros h.
assert (Hl : _lines h = ("G1 X0"%string, Some 5) :: []) by reflexivity.
assert (Hf : length (_lines h) = max h) by reflexivity.
split; [exact Hl|]. split; [exact Hf|].
exact (proj2 (proj2 (reused_number_is_lost h "G1 X0" "G1 X1" 5 [] Hl Hf))).
Defined.

End HistoryRunsFacts.

(** ** Temperature record: composing updates, and the dictionaries *)

Module TemperatureDictsFacts.

Import TemperatureRecord TemperatureDicts.

Lemma str_int_inj (a b : Z) : Py.str_int a = Py.str_int b -> a = b.
Proof.
intros H. apply (f_equal Protocol.decimal_value) in H.
rewrite !WireFacts.decimal_value_str_int in H. congruence.
Qed.

Lemma tool_key_inj (a b : Z) : tool_key a = tool_key b -> a = b.
Proof.
unfold tool_key. intros H. simpl in H. injection H as H.
apply str_int_inj. exact H.
Qed.

Section WithReading.

Context {T : Type}.
Implicit Types (r : t T).

(** X7: partial updates compose: giving the actual value in one call and
    the target in another, in either order, stores what a single call with
    both values stores; for a tool slot, the bed and the chamber. *)
Theorem partial_updates_compose r (tool : Z) (a b : T) :
  set_tool tool None (Some b) (set_tool tool (Some a) None r)
  = set_tool tool (Some a) (Some b) r
  /\ set_tool tool (Some a) None (set_tool tool None (Some b) r)
     = set_tool tool (Some a) (Some b) r
  /\ set_bed None (Some b) (set_bed (Some a) None r)
     = set_bed (Some a) (Some b) r
  /\ set_bed (Some a) None (set_bed None (Some b) r)
     = set_bed (Some a) (Some b) r
  /\ set_chamber None (Some b) (set_chamber (Some a) None r)
     = set_chamber (Some a) (Some b) r
  /\ set_chamber (Some a) None (set_chamber None (Some b) r)
     = set_chamber (Some a) (Some b) r.
Proof.
split_and!.
- unfold set_tool at 1 3. f_equal.
  rewrite TemperatureRecordFacts.tool_entry_set_tool. simpl.
  rewrite insert_insert_eq. destruct (tool_entry r tool); reflexivity.
- unfold set_tool at 1 3. f_equal.
  rewrite TemperatureRecordFacts.tool_entry_set_tool. simpl.
  rewrite insert_insert_eq. destruct (tool_entry r tool); reflexivity.
- unfold set_bed. simpl. destruct (_bed r); reflexivity.
- unfold set_bed. simpl. destruct (_bed r); reflexivity.
- unfold set_chamber. simpl. destruct (_chamber r); reflexivity.
- unfold set_chamber. simpl. destruct (_chamber r); reflexivity.
Qed.

Lemma tools_fold_lookup (m : gmap Z (entry T)) :
  (forall n,
     map_fold (fun tool data result => <[tool_key tool := data]> result)
       (∅ : gmap string (entry T)) m !! tool_key n = m !! n)
  /\ (forall k, (forall n, k <> tool_key n) ->
        map_fold (fun tool data result => <[tool_key tool := data]> result)
          (∅ : gmap string (entry T)) m !! k = None).
Proof.
apply (map_fold_weak_ind
         (fun (res : gmap string (entry T)) (m : gmap Z (entry T)) =>
            (forall n, res !! tool_key n = m !! n)
            /\ (forall k, (forall n, k <> tool_key n) -> res !! k = None))).
- split; intros; rewrite !lookup_empty; reflexivity.
- intros i x m' res Hnone [Hk Ho]. split.
  + intros n. destruct (decide (i = n)) as [->|Hne].
    * rewrite !lookup_insert_eq. reflexivity.
    * rewrite !lookup_insert_ne; [apply Hk|exact Hne|].
      intros Heq. apply Hne. apply tool_key_inj. exact Heq.
  + intros k Hnot. rewrite lookup_insert_ne; [apply Ho; exact Hnot|].
    intros Heq. exact (Hnot i (eq_sym Heq)).
Qed.

(** X8: [as_dict] gives the bed under ["bed"], the chamber under
    ["chamber"], every tool slot [n] under [tool<n>], and has no other
    key; no tool can take the place of the bed or the chamber. *)
Theorem as_dict_lookup r :
  as_dict r !! "bed"%string = Some (bed r)
  /\ as_dict r !! "chamber"%string = Some (chamber r)
  /\ (forall n, as_dict r !! tool_key n = tools r !! n)
  /\ (forall k,
        k <> "bed"%string -> k <> "chamber"%string ->
        (forall n, k <> tool_key n) ->
        as_dict r !! k = None).
Proof.
destruct (tools_fold_lookup (tools r)) as [Hk Ho].
unfold as_dict. split_and!.
- rewrite lookup_insert_ne by discriminate. apply lookup_insert_eq.
- apply lookup_insert_eq.
- intros n.
  rewrite !lookup_insert_ne by (unfold tool_key; simpl; discriminate).
  apply Hk.
- intros k Hb Hc Hn.
  rewrite !lookup_insert_ne by congruence.
  apply Ho. exact Hn.
Qed.

Lemma script_fold_lookup (start : gmap (string + Z) (entry T))
    (m : gmap Z (entry T)) :
  (forall n, start !! inr n = None) ->
  (forall n,
     map_fold (fun tool data result => <[inr tool := data]> result)
       start m !! inr n = m !! n)
  /\ (forall k,
        map_fold (fun tool data result => <[inr tool := data]> result)
          start m !! inl k = start !! inl k).
Proof.
intros Hstart.
apply (map_fold_weak_ind
         (fun (res : gmap (string + Z) (entry T)) (m : gmap Z (entry T)) =>
            (forall n, res !! inr n = m !! n)
            /\ (forall k, res !! inl k = start !! inl k))).
- split; [|reflexivity]. intros n. rewrite lookup_empty. apply Hstart.
- intros i x m' res Hnone [Hk Ho]. split.
  + intros n. destruct (decide (i = n)) as [->|Hne].
    * rewrite !lookup_insert_eq. reflexivity.
    * rewrite !lookup_insert_ne by congruence. apply Hk.
  + intros k. rewrite lookup_insert_ne by discriminate. apply Ho.
Qed.

(** X9: [as_script_dict] has every entry of [as_dict] under the same key,
    and in addition every tool slot under its number, the bed under ["b"]
    and the chamber under ["c"]. *)
Theorem as_script_dict_lookup r :
  (forall k, k <> "b"%string -> k <> "c"%string ->
     as_script_dict r !! inl k = as_dict r !! k)
  /\ (forall n, as_script_dict r !! inr n = tools r !! n)
  /\ as_script_dict r !! inl "b"%string = Some (bed r)
  /\ as_script_dict r !! inl "c"%string = Some (chamber r).
Proof.
assert (Hstart : forall n,
          (kmap inl (as_dict r) : gmap (string + Z) (entry T)) !! inr n
          = None).
{ intros n. apply lookup_kmap_None; [apply _|]. intros i Heq.
  discriminate. }
destruct (script_fold_lookup (kmap inl (as_dict r)) (tools r) Hstart)
  as [Hk Ho].
unfold as_script_dict. split_and!.
- intros k Hb Hc.
  rewrite !lookup_insert_ne by congruence.
  rewrite Ho. apply (lookup_kmap inl).
- intros n. rewrite !lookup_insert_ne by discriminate. apply Hk.
- rewrite lookup_insert_ne by discriminate. apply lookup_insert_eq.
- apply lookup_insert_eq.
Qed.

End WithReading.

Lemma as_dict_lookup_witness :
  let r : t Z := set_tool 1 (Some 210) None (set_bed (Some 60) None init) in
  as_dict r !! "tool1"%string = Some (Some 210, None)
  /\ as_dict r !! "bed"%string = Some (Some 60, None)
  /\ as_dict r !! "x"%string = None.
Proof.
intros r.
pose proof (as_dict_lookup r) as (Hb & _ & Ht & Hno).
split_and!; [exact (Ht 1)|exact Hb|].
apply Hno; [discriminate|discriminate|].
intros n H. unfold tool_key in H. cbn in H. discriminate.
Defined.

Lemma as_script_dict_lookup_witness :
  let r : t Z := set_tool 1 (Some 210) None (set_bed (Some 60) None init) in
  as_script_dict r !! inl "tool1"%string = as_dict r !! "tool1"%string
  /\ as_script_dict r !! inr 1 = Some (Some 210, None)
  /\ as_script_dict r !! inl "b"%string = Some (Some 60, None).
Proof.
intros r.
pose proof (as_script_dict_lookup r) as (Hk & Hn & Hb & _).
split_and!; [|exact (Hn 1)|exact Hb].
apply Hk; discriminate.
Defined.

End TemperatureDictsFacts.

(** ** Position record *)

Module PositionRecordFacts.

Import PositionRecord.

Section WithValues.

Context {V : Type} (int_accepts : string -> bool).

#[local] Abbreviation valid_e := (PositionRecord.valid_e int_accepts).
#[local] Abbreviation e_attrs := (@PositionRecord.e_attrs V int_accepts).
#[local] Abbreviation init := (@PositionRecord.init V int_accepts).
#[local] Abbreviation copy_from :=
  (@PositionRecord.copy_from V int_accepts).
#[local] Abbreviation as_dict := (@PositionRecord.as_dict V int_accepts).

Implicit Types (r self other : gmap string (option V)) (k : string).

Lemma elem_of_e_attrs r k :
  k ∈ e_attrs r <-> valid_e k = true /\ is_Some (r !! k).
Proof.
unfold PositionRecord.e_attrs, PositionRecord.t.
rewrite elem_of_filter, elem_of_dom.
reflexivity.
Qed.

Lemma init_lookup (kwargs : gmap string (option V)) k :
  init kwargs !! k
  = if decide (k ∈ _standard_attrs ∪ e_attrs kwargs)
    then Some (mjoin (kwargs !! k))
    else None.
Proof.
unfold PositionRecord.init, PositionRecord.t.
case_decide as Hin.
- apply lookup_set_to_map; [intros y y' _ _ Hyy; exact Hyy|].
  exists k. split; [exact Hin|reflexivity].
- apply eq_None_not_Some. intros [x Hx].
  apply lookup_set_to_map in Hx as (y & Hy & Heq);
    [|intros y y' _ _ Hyy; exact Hyy].
  injection Heq as -> _. exact (Hin Hy).
Qed.

(** X10: a new position record has exactly the six standard attributes
    and the [e<n>] attributes among the keyword arguments, each with the
    value given or [None]; a keyword argument of any other name is
    ignored, and [as_dict] gives back all of the record. *)
Theorem init_attributes (kwargs : gmap string (option V)) :
  (forall k,
     init kwargs !! k
     = if decide (k ∈ _standard_attrs
                  \/ (valid_e k = true /\ is_Some (kwargs !! k)))
       then Some (mjoin (kwargs !! k))
       else None)
  /\ as_dict (init kwargs) = Some (init kwargs).
Proof.
split.
- intros k. rewrite init_lookup.
  destruct (decide (k ∈ _standard_attrs ∪ e_attrs kwargs)) as [Hin|Hout].
  + rewrite decide_True; [reflexivity|].
    apply elem_of_union in Hin as [Hin|Hin]; [left; exact Hin|].
    right. apply elem_of_e_attrs. exact Hin.
  + rewrite decide_False; [reflexivity|].
    intros [Hin|Hin]; apply Hout; apply elem_of_union;
      [left; exact Hin|right; apply elem_of_e_attrs; exact Hin].
- unfold PositionRecord.as_dict, PositionRecord.t.
  rewrite decide_True.
  + f_equal. apply map_filter_id. intros k x Hk. simpl.
    pose proof Hk as Hk'. rewrite init_lookup in Hk'.
    case_decide as Hin; [|discriminate].
    apply elem_of_union in Hin as [Hin|Hin];
      apply elem_of_union; [left; exact Hin|right].
    apply elem_of_e_attrs. apply elem_of_e_attrs in Hin as [Hv _].
    split; [exact Hv|]. rewrite Hk. eauto.
  + intros k Hk. apply elem_of_dom. rewrite init_lookup.
    rewrite decide_True; [eauto|]. apply elem_of_union. left. exact Hk.
Qed.

(** What [copy_from] leaves under each name. *)
Lemma copy_from_lookup other self self' k :
  copy_from other self = Some self' ->
  self' !! k
  = if decide (k ∈ _standard_attrs ∪ e_attrs other) then other !! k
    else if valid_e k then None
    else self !! k.
Proof.
unfold PositionRecord.copy_from, PositionRecord.t.
destruct (decide (_standard_attrs ⊆ dom other)) as [Hsub|];
  [|discriminate].
intros Heq. injection Heq as <-.
set (attrs := _standard_attrs ∪ e_attrs other).
set (step := filter (fun kv : string * option V => kv.1 ∈ attrs) other
             ∪ self).
assert (Hstep : step !! k
                = if decide (k ∈ attrs) then other !! k else self !! k).
{ unfold step. case_decide as Hin.
  - assert (Hsome : is_Some (other !! k)).
    { apply elem_of_union in Hin as [Hin|Hin].
      - apply elem_of_dom. apply Hsub. exact Hin.
      - apply elem_of_e_attrs in Hin. apply Hin. }
    destruct Hsome as [x Hx]. rewrite Hx.
    apply lookup_union_Some_raw. left.
    apply map_lookup_filter_Some. split; [exact Hx|exact Hin].
  - apply lookup_union_r. apply map_lookup_filter_None.
    right. intros x _ Hin'. exact (Hin Hin'). }
destruct (decide (k ∈ attrs)) as [Hin|Hout].
- rewrite <- Hstep.
  destruct (step !! k) as [x|] eqn:Hx.
  + apply map_lookup_filter_Some. split; [exact Hx|].
    simpl. intros Hgone. apply elem_of_difference in Hgone as [_ Hno].
    exact (Hno Hin).
  + apply map_lookup_filter_None. left. exact Hx.
- destruct (valid_e k) eqn:Hv.
  + apply map_lookup_filter_None.
    destruct (step !! k) as [x|] eqn:Hx; [right|left; reflexivity].
    intros y Hy Hkeep. simpl in Hkeep. apply Hkeep.
    apply elem_of_difference. split; [|exact Hout].
    apply elem_of_e_attrs. split; [exact Hv|]. rewrite Hx. eauto.
  + rewrite <- Hstep.
    destruct (step !! k) as [x|] eqn:Hx.
    * apply map_lookup_filter_Some. split; [exact Hx|].
      simpl. intros Hgone. apply elem_of_difference in Hgone as [He _].
      apply elem_of_e_attrs in He as [He _]. congruence.
    * apply map_lookup_filter_None. left. exact Hx.
Qed.

(** X11: [copy_from] succeeds exactly when the other record has all the
    standard attributes; afterwards [as_dict] of the record is [as_dict] of
    the other one (extruder attributes the other does not have are gone),
    and an attribute that is neither standard nor of the form [e<n>] is
    as it was. *)
Theorem copy_from_as_dict other self :
  (is_Some (copy_from other self) <-> _standard_attrs ⊆ dom other)
  /\ forall self',
       copy_from other self = Some self' ->
       as_dict self' = as_dict other
       /\ is_Some (as_dict self')
       /\ forall k, k ∉ _standard_attrs -> valid_e k = false ->
                    self' !! k = self !! k.
Proof.
split.
- unfold PositionRecord.copy_from, PositionRecord.t.
  destruct (decide (_standard_attrs ⊆ dom other)) as [Hsub|Hno].
  + split; [intros _; exact Hsub|intros _; eauto].
  + split; [intros [x Hx]; discriminate|intros H; contradiction].
- intros self' Hcopy.
  assert (Hsub : _standard_attrs ⊆ dom other).
  { unfold PositionRecord.copy_from, PositionRecord.t in Hcopy.
    destruct (decide (_standard_attrs ⊆ dom other)); [assumption|].
    discriminate. }
  assert (Hsub' : _standard_attrs ⊆ dom self').
  { intros k Hk. apply elem_of_dom.
    rewrite (copy_from_lookup other self self' k Hcopy).
    rewrite decide_True by (apply elem_of_union; left; exact Hk).
    apply elem_of_dom. apply Hsub. exact Hk. }
  assert (He : forall k, k ∈ e_attrs self' <-> k ∈ e_attrs other).
  { intros k. rewrite !elem_of_e_attrs.
    rewrite (copy_from_lookup other self self' k Hcopy).
    split.
    - intros [Hv Hsome]. split; [exact Hv|].
      case_decide as Hin; [exact Hsome|].
      rewrite Hv in Hsome. destruct Hsome as [x Hx]. discriminate.
    - intros [Hv Hsome]. split; [exact Hv|].
      rewrite decide_True; [exact Hsome|].
      apply elem_of_union. right. apply elem_of_e_attrs.
      split; assumption. }
  split; [|split].
  + unfold PositionRecord.as_dict, PositionRecord.t.
    rewrite !decide_True by assumption. f_equal.
    apply map_eq. intros k.
    destruct (decide (k ∈ _standard_attrs ∪ e_attrs other)) as [Hin|Hout].
    * assert (Hin' : k ∈ _standard_attrs ∪ e_attrs self').
      { apply elem_of_union in Hin as [Hin|Hin]; apply elem_of_union;
          [left; exact Hin|right; apply He; exact Hin]. }
      pose proof (copy_from_lookup other self self' k Hcopy) as Hl.
      rewrite decide_True in Hl by exact Hin.
      destruct (other !! k) as [x|] eqn:Hx.
      -- transitivity (Some x); [|symmetry];
           apply map_lookup_filter_Some; split; assumption.
      -- transitivity (@None (option V)); [|symmetry];
           apply map_lookup_filter_None; left; assumption.
    * assert (Hout' : k ∉ _standard_attrs ∪ e_attrs self').
      { intros Hin. apply Hout.
        apply elem_of_union in Hin as [Hin|Hin]; apply elem_of_union;
          [left; exact Hin|right; apply He; exact Hin]. }
      transitivity (@None (option V)); [|symmetry];
        apply map_lookup_filter_None.
      -- destruct (self' !! k) eqn:Hx; [right|left; reflexivity].
         intros y _ Hin. exact (Hout' Hin).
      -- destruct (other !! k) eqn:Hx; [right|left; reflexivity].
         intros y _ Hin. exact (Hout Hin).
  + unfold PositionRecord.as_dict, PositionRecord.t.
    rewrite decide_True by assumption.
    eauto.
  + intros k Hns Hv.
    rewrite (copy_from_lookup other self self' k Hcopy).
    rewrite decide_False; [rewrite Hv; reflexivity|].
    intros Hin. apply elem_of_union in Hin as [Hin|Hin];
      [exact (Hns Hin)|].
    apply elem_of_e_attrs in Hin as [Hv' _]. congruence.
Qed.

End WithValues.

(** An [int(...)] that accepts the non-empty strings of decimal digits. *)
Definition digits_only (s : string) : bool :=
match s with
| EmptyString => false
| _ => forallb (fun c => (48 <=? Ascii.nat_of_ascii c)%nat
                         && (Ascii.nat_of_ascii c <=? 57)%nat)
               (list_ascii_of_string s)
end.

Lemma copy_from_as_dict_witness :
  let other : gmap string (option Z) :=
    PositionRecord.init digits_only
      (<["x" := Some 1]> (<["e1" := Some 2]> ∅))%string in
  let self : gmap string (option Z) :=
    PositionRecord.init digits_only
      (<["e2" := Some 5]> (<["speed" := Some 7]> ∅))%string in
  exists self',
    PositionRecord.copy_from digits_only other self = Some self'
    /\ PositionRecord.as_dict digits_only self'
       = PositionRecord.as_dict digits_only other
    /\ self' !! "e2"%string = None
    /\ self' !! "e1"%string = Some (Some 2).
Proof.
intros other self.
assert (Hsub : _standard_attrs ⊆ dom other).
{ intros k Hk. apply elem_of_dom.
  pose proof (init_lookup (V:=Z) digits_only
                (<["x" := Some 1]> (<["e1" := Some 2]> ∅))%string k) as Hl.
  rewrite decide_True in Hl by (apply elem_of_union; left; exact Hk).
  exact (ex_intro _ _ Hl). }
destruct (proj2 (proj1 (copy_from_as_dict digits_only other self)) Hsub)
  as [self' Hcopy].
exists self'. split; [exact Hcopy|].
split;
  [exact (proj1 (proj2 (copy_from_as_dict digits_only other self)
                   self' Hcopy))|].
vm_compute in Hcopy. injection Hcopy as <-.
split; vm_compute; reflexivity.
Defined.

End PositionRecordFacts.

(** ** Runs of numbered lines *)

Module SendRunsFacts.

Import Commands Protocol Runs EngineRuns.

Lemma numbered_from_cons (first : Z) (line : string) (lines : list string) :
  numbered_from first (line :: lines)
  = (line, Some first) :: numbered_from (first + 1) lines.
Proof.
unfold numbered_from. rewrite imap_cons. f_equal.
- rewrite Z.add_0_r. reflexivity.
- apply imap_ext. intros i x _. unfold compose.
  replace (first + 1 + Z.of_nat i) with (first + Z.of_nat (S i)) by lia.
  reflexivity.
Qed.

Lemma frames_from_cons (first : Z) (line : Py.bytes)
    (lines : list Py.bytes) :
  frames_from first (line :: lines)
  = (numbered_line line first ++ Py.b_newline)
    :: frames_from (first + 1) lines.
Proof.
unfold frames_from. rewrite imap_cons. f_equal.
- rewrite Z.add_0_r. reflexivity.
- apply imap_ext. intros i x _. unfold compose.
  replace (first + 1 + Z.of_nat i) with (first + Z.of_nat (S i)) by lia.
  reflexivity.
Qed.

(** What a run of numbered sends hands to the transport, and what it
    leaves alone. *)
Lemma send_all_run (lines : list Py.bytes) (s : t) :
  let first := _current_linenumber s in
  let s' := send_all lines s in
  _current_linenumber s' = first + Z.of_nat (length lines)
  /\ written s' = written s ++ frames_from first lines
  /\ _internal_flags s' = _internal_flags s
  /\ _send_queue s' = _send_queue s
  /\ _clear_to_send s' = _clear_to_send s
  /\ state s' = state s
  /\ trace s' = trace s.
Proof.
revert s. induction lines as [|line lines IH]; intros s first s'.
- subst s' first. simpl. rewrite Z.add_0_r, app_nil_r.
  split_and!; reflexivity.
- subst s'. cbn [send_all fold_left].
  set (s1 := _do_increment_and_send_with_checksum line s).
  specialize (IH s1). cbn zeta in IH. fold (send_all lines s1).
  destruct IH as (Hn & Hw & Hf & Hq & Hc & Hs & Ht).
  assert (H1 : _current_linenumber s1 = first + 1) by reflexivity.
  rewrite H1 in Hn, Hw.
  split_and!.
  + rewrite Hn. cbn [length]. lia.
  + rewrite Hw, frames_from_cons. subst s1.
    unfold _do_increment_and_send_with_checksum, _do_send_with_checksum,
      _do_send_without_checksum, transport_write. simpl.
    rewrite <- app_assoc. reflexivity.
  + rewrite Hf. reflexivity.
  + rewrite Hq. reflexivity.
  + rewrite Hc. reflexivity.
  + rewrite Hs. reflexivity.
  + rewrite Ht. reflexivity.
Qed.

(** X12: a run of numbered sends gives the lines consecutive numbers from
    the current line number on: the transport gets the numbered frames in
    order, the line counter ends behind the last number used, the history
    is the one that appending the lines under these numbers gives, and
    nothing else of the engine changes. *)
Theorem send_all_numbers_consecutively (lines : list Py.bytes) (s : t) :
  let first := _current_linenumber s in
  let s' := send_all lines s in
  _current_linenumber s' = first + Z.of_nat (length lines)
  /\ written s' = written s ++ frames_from first lines
  /\ _last_lines s'
     = append_all (numbered_from first (map Py.to_unicode lines))
         (_last_lines s)
  /\ _internal_flags s' = _internal_flags s
  /\ _send_queue s' = _send_queue s
  /\ _clear_to_send s' = _clear_to_send s
  /\ state s' = state s
  /\ trace s' = trace s.
Proof.
intros first s'.
destruct (send_all_run lines s) as (Hn & Hw & Hf & Hq & Hc & Hs & Ht).
split_and!; try assumption.
subst first s'. clear. revert s.
induction lines as [|line lines IH]; intros s; [reflexivity|].
cbn [send_all fold_left map]. fold (send_all lines).
rewrite numbered_from_cons, IH. reflexivity.
Qed.

(** X14: which lines [_do_send] numbers.  Over a transport with message
    integrity no line gets a number or a checksum.  Without it, a command
    the flavor lists as requiring a checksum is always numbered, also when
    checksums are set to "never"; any other line is numbered only if it is
    G-code (or the flavor sends unknown commands with a checksum) and
    checksums are set to "always", or are not set to "never" and the engine
    is processing a job or has not identified the firmware.  A numbered
    line takes the current line number and advances it by one; a line that
    is not numbered goes out as it is and leaves the line counter and the
    history alone. *)
Theorem do_send_numbers_when_needed (command : Command) (s : t) :
  let s' := _do_send command s in
  let fv := flavor s in
  let required :=
    match code command with
    | Some c => bool_decide (c ∈ checksum_requiring_commands fv)
    | None => false
    end in
  let allowed := is_gcode command || unknown_with_checksum fv in
  let numbered := _needs_checksum command s in
  (message_integrity s = true -> numbered = false)
  /\ (message_integrity s = false -> required = true -> numbered = true)
  /\ (message_integrity s = false -> required = false ->
        numbered = true
        <-> allowed = true
            /\ (send_checksum fv = "always"%string
                \/ send_checksum fv <> "never"%string
                   /\ (state s = PROCESSING
                       \/ firmware_identified (_internal_flags s) = false)))
  /\ (numbered = true ->
        written s'
        = written s
          ++ [numbered_line (Commands.bytes command) (_current_linenumber s)
              ++ Py.b_newline]
        /\ _current_linenumber s' = _current_linenumber s + 1)
  /\ (numbered = false ->
        written s' = written s ++ [Commands.bytes command ++ Py.b_newline]
        /\ _current_linenumber s' = _current_linenumber s
        /\ _last_lines s' = _last_lines s).
Proof.
intros s' fv required allowed numbered.
subst s' numbered. unfold _do_send, _needs_checksum, _checksum_enabled.
fold fv. fold required. fold allowed.
split_and!.
- intros ->. reflexivity.
- intros -> ->. reflexivity.
- intros -> ->. cbn [negb orb].
  destruct allowed; cbn [andb]; [|split; [discriminate|intros [H _]; exact H]].
  destruct (String.eqb_spec (send_checksum fv) "never") as [Hnever|Hnever];
    cbn [negb andb].
  + split; [discriminate|].
    intros (_ & [Halways|[Hne _]]); [|contradiction].
    rewrite Halways in Hnever. discriminate.
  + destruct (String.eqb_spec (send_checksum fv) "always")
      as [Halways|Halways].
    * rewrite orb_true_r. cbn [orb]. split; auto.
    * rewrite orb_false_r. split.
      -- intros H. split; [reflexivity|]. right. split; [exact Hnever|].
         apply orb_true_iff in H as [H|H].
         ++ left. apply bool_decide_eq_true_1 in H. exact H.
         ++ right. apply negb_true_iff in H. exact H.
      -- intros (_ & [H|[_ [H|H]]]); [contradiction| |].
         ++ rewrite (bool_decide_eq_true_2 _ H). reflexivity.
         ++ rewrite H. apply orb_true_r.
- intros ->. split; reflexivity.
- intros ->. split_and!; reflexivity.
Qed.

Lemma do_send_numbers_when_needed_witness :
  written (_do_send (Samples.G1 3) Samples.printing)
  = written Samples.printing
    ++ [numbered_line (Commands.bytes (Samples.G1 3)) 4 ++ Py.b_newline]
  /\ _current_linenumber (_do_send (Samples.G1 3) Samples.printing) = 5.
Proof.
exact (proj1 (proj2 (proj2 (proj2
         (do_send_numbers_when_needed (Samples.G1 3) Samples.printing))))
         eq_refl).
Defined.

Lemma xor_of_bytes_app (a b : Py.bytes) :
  xor_of_bytes (a ++ b) = Z.lxor (xor_of_bytes a) (xor_of_bytes b).
Proof.
induction a as [|c a IH]; simpl.
- rewrite Z.lxor_0_l. reflexivity.
- rewrite IH, Z.lxor_assoc. reflexivity.
Qed.

Lemma lxor_cancel_l (a b b' : Z) : Z.lxor a b = Z.lxor a b' -> b = b'.
Proof.
intros H.
rewrite <- (Z.lxor_0_l b), <- (Z.lxor_0_l b'), <- (Z.lxor_nilpotent a).
rewrite !Z.lxor_assoc, H. reflexivity.
Qed.

Lemma byte_value_inj (c c' : byte) :
  Py.byte_value c = Py.byte_value c' -> c = c'.
Proof.
unfold Py.byte_value. intros H. apply N2Z.inj in H.
pose proof (Byte.of_to_N c) as Hc. rewrite H, Byte.of_to_N in Hc.
congruence.
Qed.

(** X13: the checksum [_do_send_with_checksum] computes over a line
    changes whenever exactly one byte of the line changes, so one
    corrupted byte never goes unnoticed; the order of the bytes does not
    enter it: lines that are made of the same two parts in either order
    have the same checksum. *)
Theorem checksum_detects_one_changed_byte (before after : Py.bytes)
    (c c' : byte) (Hchanged : c <> c') :
  checksum_loop (before ++ c :: after)
  <> checksum_loop (before ++ c' :: after)
  /\ checksum_loop (before ++ after) = checksum_loop (after ++ before).
Proof.
rewrite !WireFacts.checksum_loop_xor, !xor_of_bytes_app. simpl.
split.
- intros H. apply lxor_cancel_l in H.
  rewrite (Z.lxor_comm (Py.byte_value c)),
    (Z.lxor_comm (Py.byte_value c')) in H.
  apply lxor_cancel_l in H. apply byte_value_inj in H.
  exact (Hchanged H).
- apply Z.lxor_comm.
Qed.

Lemma checksum_detects_one_changed_byte_witness :
  checksum_loop (Py.to_bytes "N1 G1 X10")
  <> checksum_loop (Py.to_bytes "N1 G1 X20")
  /\ checksum_loop (Py.to_bytes "N1 G1 X" ++ Py.to_bytes "0")
     = checksum_loop (Py.to_bytes "0" ++ Py.to_bytes "N1 G1 X").
Proof.
exact (checksum_detects_one_changed_byte
         (Py.to_bytes "N1 G1 X") (Py.to_bytes "0") "1"%byte "2"%byte
         ltac:(discriminate)).
Defined.

End SendRunsFacts.

(** ** The resend window *)

Module ResendFacts.

Import Commands Protocol Runs EngineRuns.

(** One call of [_send_next_from_resend()] at a line the history holds. *)
Lemma _send_next_from_resend_step (env : Env) (s : t) (n : Z)
    (text : string) :
  (forall l, type (to_command (ops env) l None ∅) = None) ->
  resend_linenumber (_internal_flags s) = Some n ->
  LineHistory.getitem n (_last_lines s) = Some text ->
  let r := _send_next_from_resend env false s in
  let s' := snd r in
  fst r = true
  /\ SendQueue.pending (_send_queue s')
     = SendQueue.pending (_send_queue s) ++ [resend_item env text n]
  /\ written s' = written s
  /\ _current_linenumber s' = _current_linenumber s
  /\ _last_lines s' = _last_lines s
  /\ _clear_to_send s' = _clear_to_send s
  /\ trace s' = trace s
  /\ state s' = state s
  /\ if bool_decide (n + 1 = _current_linenumber s) then
       resend_requested (_internal_flags s') = None
       /\ resend_linenumber (_internal_flags s') = None
       /\ resend_count (_internal_flags s') = Some 0
       /\ SendQueue.resend_active (_send_queue s') = false
     else
       resend_requested (_internal_flags s')
       = resend_requested (_internal_flags s)
       /\ resend_linenumber (_internal_flags s') = Some (n + 1)
       /\ resend_count (_internal_flags s') = resend_count (_internal_flags s)
       /\ SendQueue.resend_active (_send_queue s')
          = SendQueue.resend_active (_send_queue s).
Proof.
intros Htype Hpos Hget r s'. subst s' r.
unfold _send_next_from_resend.
cbn [_internal_flags set_last_communication_error _last_lines].
rewrite Hpos. cbn [mbind option_bind]. rewrite Hget.
unfold _enqueue_for_sending, SendQueue.put. rewrite Htype.
unfold resend_item. rewrite Htype. cbn.
destruct (decide (n + 1 = _current_linenumber s)) as [Heq|Hne].
- rewrite (bool_decide_eq_true_2 (n + 1 = _current_linenumber s) Heq).
  rewrite (bool_decide_eq_true_2
             (Some (n + 1) = Some (_current_linenumber s)))
    by (f_equal; exact Heq).
  cbn. split_and!; reflexivity.
- rewrite (bool_decide_eq_false_2 (n + 1 = _current_linenumber s) Hne).
  rewrite (bool_decide_eq_false_2
             (Some (n + 1) = Some (_current_linenumber s)))
    by (intros H; injection H as H; auto).
  cbn. split_and!; reflexivity.
Qed.

(** X15: once a resend window is open at line [n] and the history holds
    every line from [n] up to the last one sent, that many calls of
    [_send_next_from_resend()] put exactly these lines into the send queue,
    in order, each under its old number, marked as processed and aimed at
    the resend target; the window stays open until the last of them is
    queued and is closed by it (request, position and flag of the queue
    reset, count 0).  Nothing goes to the transport, and the line counter
    and the history are as they were. *)
Theorem resend_window_is_served (env : Env) (texts : list string) (s : t)
    (n : Z)
    (Htype : forall l, type (to_command (ops env) l None ∅) = None)
    (Hposition : resend_linenumber (_internal_flags s) = Some n)
    (Hcount : n + Z.of_nat (length texts) = _current_linenumber s)
    (Hnonempty : texts <> [])
    (Hhistory : forall (i : nat) text,
        texts !! i = Some text ->
        LineHistory.getitem (n + Z.of_nat i) (_last_lines s) = Some text) :
  let s' := serve_resends env (length texts) s in
  (forall j, (j < length texts)%nat ->
     let sj := serve_resends env j s in
     resend_linenumber (_internal_flags sj) = Some (n + Z.of_nat j)
     /\ resend_requested (_internal_flags sj)
        = resend_requested (_internal_flags s)
     /\ SendQueue.resend_active (_send_queue sj)
        = SendQueue.resend_active (_send_queue s))
  /\ SendQueue.pending (_send_queue s')
     = SendQueue.pending (_send_queue s)
       ++ imap (fun i text => resend_item env text (n + Z.of_nat i)) texts
  /\ resend_requested (_internal_flags s') = None
  /\ resend_linenumber (_internal_flags s') = None
  /\ resend_count (_internal_flags s') = Some 0
  /\ SendQueue.resend_active (_send_queue s') = false
  /\ written s' = written s
  /\ _current_linenumber s' = _current_linenumber s
  /\ _last_lines s' = _last_lines s.
Proof.
revert s n Hposition Hcount Hnonempty Hhistory.
induction texts as [|text rest IH];
  intros s n Hposition Hcount Hnonempty Hhistory; [congruence|].
pose proof (_send_next_from_resend_step env s n text Htype Hposition) as Hstep.
cbn zeta in Hstep.
destruct Hstep as (_ & Hq & Hw & Hc & Hh & _ & _ & _ & Hflags).
{ rewrite <- (Z.add_0_r n). exact (Hhistory 0%nat text eq_refl). }
cbn [length serve_resends].
set (s1 := snd (_send_next_from_resend env false s)) in *.
destruct rest as [|text' rest'] eqn:Hrest.
- (* the last line of the window *)
  cbn [length] in Hcount.
  rewrite bool_decide_eq_true_2 in Hflags by lia.
  destruct Hflags as (Hr & Hl & Hn & Ha).
  cbn [serve_resends length imap].
  split_and!; try assumption.
  + intros j Hj. assert (j = 0%nat) as -> by (cbn in Hj; lia).
    cbn [serve_resends]. rewrite Z.add_0_r. auto.
  + rewrite Hq, Z.add_0_r. reflexivity.
- rewrite <- Hrest in *.
  assert (Hlen : (0 < length rest)%nat) by (rewrite Hrest; cbn; lia).
  cbn [length] in Hcount.
  rewrite bool_decide_eq_false_2 in Hflags by lia.
  destruct Hflags as (Hr & Hl & Hn & Ha).
  destruct (IH s1 (n + 1)) as (Hmid & Hq' & Hr' & Hl' & Hn' & Ha' & Hw' & Hc'
                               & Hh').
  + exact Hl.
  + rewrite Hc. lia.
  + rewrite Hrest. discriminate.
  + intros i t Hi. rewrite Hh.
    replace (n + 1 + Z.of_nat i) with (n + Z.of_nat (S i)) by lia.
    apply Hhistory. exact Hi.
  + split_and!.
    * intros j Hj. destruct j as [|j].
      -- cbn [serve_resends]. rewrite Z.add_0_r. auto.
      -- cbn [serve_resends]. fold s1.
         destruct (Hmid j) as (H1 & H2 & H3); [lia|].
         cbn zeta in H1, H2, H3.
         rewrite H1, H2, H3, Hr, Ha.
         split_and!; [f_equal; lia|reflexivity|reflexivity].
    * rewrite Hq', Hq, <- app_assoc. f_equal.
      rewrite imap_cons, Z.add_0_r. cbn [app]. f_equal.
      apply imap_ext. intros i t _. unfold compose.
      replace (n + 1 + Z.of_nat i) with (n + Z.of_nat (S i)) by lia.
      reflexivity.
    * exact Hr'.
    * exact Hl'.
    * exact Hn'.
    * exact Ha'.
    * rewrite Hw'. exact Hw.
    * rewrite Hc'. exact Hc.
    * rewrite Hh'. exact Hh.
Qed.

Lemma resend_window_is_served_witness :
  let s := Samples.resend_requested_2 in
  let s' := serve_resends Samples.sample_env 2 s in
  SendQueue.pending (_send_queue s')
  = SendQueue.pending (_send_queue s)
    ++ [resend_item Samples.sample_env "G1 X1" 2;
        resend_item Samples.sample_env "G1 X2" 3]
  /\ resend_requested (_internal_flags s') = None
  /\ written s' = written s.
Proof.
intros s s'.
assert (Hhistory : forall (i : nat) text,
           ["G1 X1"; "G1 X2"]%string !! i = Some text ->
           LineHistory.getitem (2 + Z.of_nat i) (_last_lines s)
           = Some text).
{ intros i text Hi.
  destruct i as [|[|i]]; cbn in Hi; [| |discriminate];
    injection Hi as <-; vm_compute; reflexivity. }
pose proof (resend_window_is_served Samples.sample_env
              ["G1 X1"; "G1 X2"]%string s 2
              (fun _ => eq_refl) eq_refl eq_refl
              ltac:(discriminate) Hhistory) as H.
cbn zeta in H.
destruct H as (_ & Hq & Hr & _ & _ & _ & Hw & _).
split_and!; [exact Hq|exact Hr|exact Hw].
Defined.

(** [_send_next_from_resend(again=True)] is [_send_next_from_resend()]
    from one line further back; without a position it starts from the
    current line number. *)
Lemma _send_next_from_resend_again (env : Env) (s : t) :
  let k := default (_current_linenumber s)
             (resend_linenumber (_internal_flags s)) in
  _send_next_from_resend env true s
  = _send_next_from_resend env false
      (set_flag (flag_resend_linenumber (Some (k - 1))) s).
Proof.
destruct s as [st fl tm mx flags q c cur h e tmr act job err mi w tr].
destruct flags; cbn.
unfold _send_next_from_resend. cbn.
destruct resend_linenumber0 as [k|]; reflexivity.
Qed.

(** X16: [_send_same_from_resend()], which a timeout inside a resend
    window calls, goes one line back from the position of the window (from
    the current line number when there is no position).  When the history
    holds that line, the line is queued again and the position is where it
    was, unless the line is the last one sent, in which case the window is
    closed; when the history does not hold it, nothing is queued, the
    result is [False] and the position stays one line further back. *)
Theorem send_same_from_resend_position (env : Env) (s : t)
    (Htype : forall l, type (to_command (ops env) l None ∅) = None) :
  let k := default (_current_linenumber s)
             (resend_linenumber (_internal_flags s)) in
  let r := _send_same_from_resend env s in
  let s' := snd r in
  (forall text,
     LineHistory.getitem (k - 1) (_last_lines s) = Some text ->
     fst r = true
     /\ SendQueue.pending (_send_queue s')
        = SendQueue.pending (_send_queue s)
          ++ [resend_item env text (k - 1)]
     /\ (k <> _current_linenumber s ->
           resend_linenumber (_internal_flags s') = Some k
           /\ resend_requested (_internal_flags s')
              = resend_requested (_internal_flags s))
     /\ (k = _current_linenumber s ->
           resend_linenumber (_internal_flags s') = None
           /\ resend_requested (_internal_flags s') = None
           /\ SendQueue.resend_active (_send_queue s') = false))
  /\ (LineHistory.getitem (k - 1) (_last_lines s) = None ->
        fst r = false
        /\ SendQueue.pending (_send_queue s')
           = SendQueue.pending (_send_queue s)
        /\ resend_linenumber (_internal_flags s') = Some (k - 1)
        /\ resend_requested (_internal_flags s')
           = resend_requested (_internal_flags s)).
Proof.
intros k r s'. subst s' r. unfold _send_same_from_resend.
rewrite _send_next_from_resend_again. fold k.
set (s1 := set_flag (flag_resend_linenumber (Some (k - 1))) s).
split.
- intros text Hget.
  pose proof (_send_next_from_resend_step env s1 (k - 1) text Htype
                eq_refl Hget) as Hstep.
  cbn zeta in Hstep.
  destruct Hstep as (Hr & Hq & _ & _ & _ & _ & _ & _ & Hflags).
  change (_current_linenumber s1) with (_current_linenumber s) in Hflags.
  split_and!; [exact Hr|exact Hq| |].
  + intros Hne. rewrite bool_decide_eq_false_2 in Hflags by lia.
    destruct Hflags as (Hreq & Hl & _ & _).
    split; [rewrite Hl; f_equal; lia|exact Hreq].
  + intros Heq. rewrite bool_decide_eq_true_2 in Hflags by lia.
    destruct Hflags as (Hreq & Hl & _ & Ha). auto.
- intros Hget. unfold _send_next_from_resend.
  cbn [_internal_flags set_last_communication_error _last_lines].
  change (resend_linenumber (_internal_flags s1)) with (Some (k - 1)).
  cbn [mbind option_bind].
  change (_last_lines s1) with (_last_lines s). rewrite Hget.
  split_and!; reflexivity.
Qed.

Lemma send_same_from_resend_position_witness :
  let s := Samples.resend_requested_2 in
  let r := _send_same_from_resend Samples.sample_env s in
  fst r = true
  /\ SendQueue.pending (_send_queue (snd r))
     = SendQueue.pending (_send_queue s)
       ++ [resend_item Samples.sample_env "G1 X0" 1]
  /\ resend_linenumber (_internal_flags (snd r)) = Some 2.
Proof.
intros s r.
pose proof (proj1 (send_same_from_resend_position Samples.sample_env s
                     (fun _ => eq_refl))
              "G1 X0"%string ltac:(vm_compute; reflexivity)) as H.
destruct H as (Hr & Hq & Hpos & _).
split_and!; [exact Hr|exact Hq|].
exact (proj1 (Hpos ltac:(vm_compute; discriminate))).
Defined.

#[local] Ltac resend_case s Hnot :=
  cbn [flavor set_last_communication_error set_flag set_internal_flags
       set_send_queue call set_trace];
  rewrite ?Hnot;
  destruct (String.eqb (trigger_ok_after_resend (flavor s)) "detect");
  unfold calls_since; cbn; rewrite ?drop_all, ?drop_app_length;
  split_and!; intros; try reflexivity; try discriminate;
  try (split_and!; reflexivity);
  try match goal with H : _ \/ _ |- _ => destruct H; discriminate end.

(** X17: what a resend request for line [n] does when the flavor does not
    ask for an [ok] to be triggered after every resend.  It is ignored when
    no resend is active and [n] is the number of the line not yet sent; it
    only counts as a repeat when the last error was a line number error,
    [n] is the line already requested, and fewer repeats were counted than
    lines went out after [n]; it is dropped when the history does not hold
    [n] and the engine is not busy; in every other case the window is
    opened at [n] with a count of 0, after a call of
    [cancel_processing(error=True)] when the history does not hold [n].
    Where [cancel_processing] is not called, the handler itself never
    writes, queues or touches the line counter, the history, the send
    token or the state; where it is called, only the call and the
    assignments that follow it are stated, since what the call does is not
    part of the model.  The engine keeps a count of repeats whenever a
    resend is requested, which is assumed of the state. *)
Theorem resend_request_outcome (env : Env) (n : Z) (s : t)
    (Htrigger : trigger_ok_after_resend (flavor s) <> "always"%string)
    (Hcount : resend_requested (_internal_flags s) <> None ->
              resend_count (_internal_flags s) <> None) :
  let s' := _on_comm_resend env (Some n) s in
  let fl := _internal_flags s in
  let fl' := _internal_flags s' in
  let unexpected :=
    bool_decide (resend_requested fl = None)
    && (n =? _current_linenumber s) in
  let repeated :=
    bool_decide (_last_communication_error s = Some "linenumber"%string)
    && bool_decide (resend_requested fl = Some n)
    && match resend_count fl with
       | Some count => count <? _current_linenumber s - n - 1
       | None => false
       end in
  let known := LineHistory.contains n (_last_lines s) in
  let cancels :=
    negb unexpected && negb repeated && negb known && _is_busy s in
  (cancels = false ->
     written s' = written s
     /\ SendQueue.pending (_send_queue s') = SendQueue.pending (_send_queue s)
     /\ _current_linenumber s' = _current_linenumber s
     /\ _last_lines s' = _last_lines s
     /\ _clear_to_send s' = _clear_to_send s
     /\ state s' = state s)
  /\ (unexpected = true ->
        fl' = fl /\ _send_queue s' = _send_queue s
        /\ calls_since s s' = []
        /\ _last_communication_error s' = _last_communication_error s)
  /\ (unexpected = false -> repeated = true ->
        fl' = flag_resend_count
                (option_map (fun c => c + 1) (resend_count fl)) fl
        /\ _send_queue s' = _send_queue s
        /\ calls_since s s' = [])
  /\ (unexpected = false -> repeated = false ->
        known = false -> _is_busy s = false ->
        fl' = fl /\ _send_queue s' = _send_queue s
        /\ calls_since s s' = [])
  /\ (unexpected = false -> repeated = false ->
        known = true \/ _is_busy s = true ->
        resend_requested fl' = Some n
        /\ resend_linenumber fl' = Some n
        /\ resend_count fl' = Some 0
        /\ SendQueue.resend_active (_send_queue s') = true
        /\ calls_since s s'
           = if known then [] else [CallCancelProcessing true ∅]).
Proof.
intros s' fl fl' unexpected repeated known cancels.
assert (Hnot : String.eqb (trigger_ok_after_resend (flavor s)) "always"
               = false).
{ apply String.eqb_neq. exact Htrigger. }
subst s' fl' cancels. unfold _on_comm_resend. cbv zeta.
cbn [flavor set_last_communication_error set_flag set_internal_flags
     set_send_queue call set_trace _internal_flags
     _last_communication_error _current_linenumber _last_lines].
rewrite Hnot. fold fl. fold unexpected.
destruct unexpected eqn:Hu; [resend_case s Hnot|].
cbn [_internal_flags set_last_communication_error].
fold fl. fold repeated.
destruct repeated eqn:Hr; [resend_case s Hnot|].
fold known.
change (_is_busy (set_last_communication_error None s)) with (_is_busy s).
destruct known eqn:Hk; cbn [negb andb]; [resend_case s Hnot|].
destruct (_is_busy s) eqn:Hb; cbn [negb]; resend_case s Hnot.
Qed.

Lemma resend_request_outcome_witness :
  let s := Samples.printing in
  let s' := _on_comm_resend Samples.sample_env (Some 2) s in
  (written s' = written s
   /\ SendQueue.pending (_send_queue s') = SendQueue.pending (_send_queue s)
   /\ _current_linenumber s' = _current_linenumber s
   /\ _last_lines s' = _last_lines s
   /\ _clear_to_send s' = _clear_to_send s
   /\ state s' = state s)
  /\ resend_requested (_internal_flags s') = Some 2
  /\ resend_linenumber (_internal_flags s') = Some 2
  /\ resend_count (_internal_flags s') = Some 0
  /\ SendQueue.resend_active (_send_queue s') = true
  /\ calls_since s s' = [].
Proof.
pose proof (resend_request_outcome Samples.sample_env 2 Samples.printing
              ltac:(discriminate) (fun H => False_ind _ (H eq_refl))) as H.
cbn zeta in H. destruct H as (Hframe & _ & _ & _ & Hopen).
split.
- exact (Hframe eq_refl).
- exact (Hopen eq_refl eq_refl (or_introl eq_refl)).
Defined.

(** X18: the line a resend puts into the send queue goes out as the frame
    it went out as the first time: for a line that was recorded under the
    number [n] as [to_unicode(payload)], the entry of
    [_send_next_from_resend] makes the send loop write
    [N<n> <payload>*<checksum>] again, with no new number taken and no new
    entry in the history. *)
Theorem resent_frame_is_the_frame_sent (env : Env) (payload : Py.bytes)
    (n : Z) (s : t)
    (Hline : line (to_command (ops env) (Py.to_unicode payload) None ∅)
             = Py.to_unicode payload)
    (Htype : forall l, type (to_command (ops env) l None ∅) = None)
    (Hposition : resend_linenumber (_internal_flags s) = Some n)
    (Hheld : LineHistory.getitem n (_last_lines s)
             = Some (Py.to_unicode payload)) :
  let item := resend_item env (Py.to_unicode payload) n in
  SendQueue.pending
    (_send_queue (snd (_send_next_from_resend env false s)))
  = SendQueue.pending (_send_queue s) ++ [item]
  /\ forall s3, exists command s4,
       send_entry env (fst (fst item)) s3 = Written command s4
       /\ written s4
          = written s3 ++ [numbered_line payload n ++ Py.b_newline]
       /\ _current_linenumber s4 = _current_linenumber s3
       /\ _last_lines s4 = _last_lines s3.
Proof.
intros item. split.
- pose proof (_send_next_from_resend_step env s n (Py.to_unicode payload)
                Htype Hposition Hheld) as Hstep.
  cbn zeta in Hstep. exact (proj1 (proj2 Hstep)).
- intros s3. subst item. unfold resend_item, send_entry.
  cbn [fst entry_command entry_linenumber].
  rewrite Hline. unfold Py.to_bytes, Py.to_unicode.
  rewrite list_byte_of_string_of_list_byte.
  eexists _, _. split; [reflexivity|].
  destruct (dwelling_until (_internal_flags s3)) as [until|];
    [|split_and!; reflexivity].
  destruct (block_while_dwelling (flavor s3) && negb (until =? 0)
            && (monotonic env <? until));
    split_and!; reflexivity.
Qed.

Lemma resent_frame_is_the_frame_sent_witness :
  let s := Samples.resend_requested_2 in
  let item :=
    resend_item Samples.sample_env (Py.to_unicode (Py.to_bytes "G1 X1")) 2 in
  SendQueue.pending
    (_send_queue (snd (_send_next_from_resend Samples.sample_env false s)))
  = SendQueue.pending (_send_queue s) ++ [item]
  /\ nth_error (written s) 1
     = Some (numbered_line (Py.to_bytes "G1 X1") 2 ++ Py.b_newline).
Proof.
intros s item. split.
- exact (proj1 (resent_frame_is_the_frame_sent Samples.sample_env
                  (Py.to_bytes "G1 X1") 2 s eq_refl (fun _ => eq_refl)
                  eq_refl ltac:(vm_compute; reflexivity))).
- vm_compute. reflexivity.
Defined.

End ResendFacts.

(** ** Acknowledgements *)

Module AckFacts.

Import Commands Protocol Runs EngineRuns.

(** What [_finish_heatup] leaves as it is. *)
Lemma _finish_heatup_frame (env : Env) (s : t) :
  let s' := _finish_heatup env s in
  let fl := _internal_flags s in
  let fl' := _internal_flags s' in
  set_internal_flags fl s' = s
  /\ flag_heating (heating fl)
       (flag_heating_lost (heating_lost fl)
          (flag_heating_start (heating_start fl) fl')) = fl.
Proof.
destruct s as [st fv tm mx fl q c cur h e tmr act job err mi w tr].
destruct fl. unfold _finish_heatup. cbn.
destruct heating0; [|split; reflexivity].
destruct heating_start0 as [start|]; [|split; reflexivity].
destruct (negb (start =? 0)); split; reflexivity.
Qed.

#[local] Ltac open_state s :=
  destruct s as [st fv tm mx fl q c cur h e tmr act job err mi w tr];
  destruct fl; cbn in *; subst.

(** What [_send_next_from_resend] leaves as it is. *)
Lemma _send_next_from_resend_frame (env : Env) (again : bool) (s : t) :
  let s' := snd (_send_next_from_resend env again s) in
  let fl := _internal_flags s in
  let fl' := _internal_flags s' in
  set_last_communication_error (_last_communication_error s)
    (set_send_queue (_send_queue s) (set_internal_flags fl s')) = s
  /\ flag_resend_count (resend_count fl)
       (flag_resend_linenumber (resend_linenumber fl)
          (flag_resend_requested (resend_requested fl) fl')) = fl.
Proof.
assert (Hfalse : forall s0 : t,
  let s' := snd (_send_next_from_resend env false s0) in
  let fl := _internal_flags s0 in
  let fl' := _internal_flags s' in
  set_last_communication_error (_last_communication_error s0)
    (set_send_queue (_send_queue s0) (set_internal_flags fl s')) = s0
  /\ flag_resend_count (resend_count fl)
       (flag_resend_linenumber (resend_linenumber fl)
          (flag_resend_requested (resend_requested fl) fl')) = fl).
{ intros s0. cbv zeta. unfold _send_next_from_resend.
  cbn [_internal_flags set_last_communication_error _last_lines].
  destruct (resend_linenumber (_internal_flags s0)) as [n|] eqn:Hn;
    cbn [mbind option_bind]; [|open_state s0; split; reflexivity].
  destruct (LineHistory.getitem n (_last_lines s0)) as [text|];
    [|open_state s0; split; reflexivity].
  unfold _enqueue_for_sending.
  destruct (SendQueue.put _ _ _ _) as [q'|]; cbn;
    case_bool_decide; open_state s0; split; reflexivity. }
destruct again; [|exact (Hfalse s)].
rewrite ResendFacts._send_next_from_resend_again.
set (s1 := set_flag _ s). specialize (Hfalse s1). cbv zeta in *.
destruct Hfalse as (H1 & H2).
split.
- apply (f_equal (set_internal_flags (_internal_flags s))) in H1.
  etransitivity; [|etransitivity; [exact H1|]]; [reflexivity|].
  subst s1. destruct s; reflexivity.
- apply (f_equal (flag_resend_linenumber
                    (resend_linenumber (_internal_flags s)))) in H2.
  etransitivity; [|etransitivity; [exact H2|]]; [reflexivity|].
  subst s1. destruct s as [? ? ? ? [] ? ? ? ? ? ? ? ? ? ? ? ?].
  reflexivity.
Qed.

Lemma _send_next_from_resend_rest (env : Env) (again : bool) (s : t) :
  let s' := snd (_send_next_from_resend env again s) in
  let fl := _internal_flags s in
  let fl' := _internal_flags s' in
  (state s' = state s /\ _clear_to_send s' = _clear_to_send s
   /\ _current_linenumber s' = _current_linenumber s
   /\ _last_lines s' = _last_lines s
   /\ _resend_ok_timer s' = _resend_ok_timer s
   /\ written s' = written s /\ trace s' = trace s)
  /\ (heating_start fl' = heating_start fl
      /\ heating_lost fl' = heating_lost fl
      /\ heating fl' = heating fl
      /\ current_tool fl' = current_tool fl
      /\ former_tool fl' = former_tool fl
      /\ long_running_command fl' = long_running_command fl
      /\ ignore_ok fl' = ignore_ok fl
      /\ ok_timeout fl' = ok_timeout fl).
Proof.
pose proof (_send_next_from_resend_frame env again s) as (H1 & H2).
cbv zeta. split.
- split_and!;
    [exact (f_equal state H1)|exact (f_equal _clear_to_send H1)
    |exact (f_equal _current_linenumber H1)|exact (f_equal _last_lines H1)
    |exact (f_equal _resend_ok_timer H1)|exact (f_equal written H1)
    |exact (f_equal trace H1)].
- split_and!;
    [exact (f_equal heating_start H2)|exact (f_equal heating_lost H2)
    |exact (f_equal heating H2)|exact (f_equal current_tool H2)
    |exact (f_equal former_tool H2)
    |exact (f_equal long_running_command H2)|exact (f_equal ignore_ok H2)
    |exact (f_equal ok_timeout H2)].
Qed.

Lemma _finish_heatup_rest (env : Env) (s : t) :
  let s' := _finish_heatup env s in
  let fl := _internal_flags s in
  let fl' := _internal_flags s' in
  (state s' = state s /\ _clear_to_send s' = _clear_to_send s
   /\ _send_queue s' = _send_queue s
   /\ _current_linenumber s' = _current_linenumber s
   /\ _last_lines s' = _last_lines s
   /\ _resend_ok_timer s' = _resend_ok_timer s
   /\ written s' = written s /\ trace s' = trace s)
  /\ (current_tool fl' = current_tool fl
      /\ former_tool fl' = former_tool fl
      /\ resend_requested fl' = resend_requested fl
      /\ long_running_command fl' = long_running_command fl
      /\ ignore_ok fl' = ignore_ok fl
      /\ ok_timeout fl' = ok_timeout fl)
  /\ heating fl' = false.
Proof.
pose proof (_finish_heatup_frame env s) as (H1 & H2).
cbv zeta. split_and!;
  [exact (f_equal state H1)|exact (f_equal _clear_to_send H1)
  |exact (f_equal _send_queue H1)
  |exact (f_equal _current_linenumber H1)|exact (f_equal _last_lines H1)
  |exact (f_equal _resend_ok_timer H1)|exact (f_equal written H1)
  |exact (f_equal trace H1)
  |exact (f_equal current_tool H2)|exact (f_equal former_tool H2)
  |exact (f_equal resend_requested H2)
  |exact (f_equal long_running_command H2)|exact (f_equal ignore_ok H2)
  |exact (f_equal ok_timeout H2)|].
unfold _finish_heatup.
destruct (heating (_internal_flags s)) eqn:Hh; [|exact Hh].
reflexivity.
Qed.

(** X19: an [ok] that is neither ignored nor the first one of a
    connection.  Up to its last step the handler gives the send loop
    exactly one more slot, refreshes the acknowledgement timeout, cancels
    the resend timer, and ends a long running command and a heatup; it puts
    the former tool back as the current one, unless the former tool is
    tool 0, which is left where it is; it writes nothing, makes no call,
    and leaves the line counter, the history, the send queue and the
    protocol state alone.  The state reached there is [s6].  The last step
    is nothing when the state is not operational, the queuing of the next
    line of the resend window when a resend is requested, and one call of
    [_continue_sending()] on [s6] otherwise.  In the first two cases all of
    the above holds of the state the handler leaves; of the state after
    [_continue_sending()] nothing is stated but that it is the result of
    this call on [s6]. *)
Theorem processed_ok (env : Env) (wait : bool) (s : t)
    (Hignore : ignore_ok (_internal_flags s) <= 0)
    (Hstate : state s <> CONNECTING) :
  let s' := _on_comm_ok env wait s in
  let fl := _internal_flags s in
  let continues :=
    state_in (state s) OPERATIONAL_STATES
    && bool_decide (resend_requested fl = None) in
  let slot_given (s1 : t) :=
    _clear_to_send s1 = SendToken.set false (_clear_to_send s)
    /\ _resend_ok_timer s1 = false
    /\ ok_timeout (_internal_flags s1) = Some (communication_timeout env s)
    /\ long_running_command (_internal_flags s1) = false
    /\ heating (_internal_flags s1) = false
    /\ ignore_ok (_internal_flags s1) = ignore_ok fl in
  let tool_restored (s1 : t) :=
    match former_tool fl with
    | Some tool =>
      if tool =? 0
      then current_tool (_internal_flags s1) = current_tool fl
           /\ former_tool (_internal_flags s1) = Some 0
      else current_tool (_internal_flags s1) = tool
           /\ former_tool (_internal_flags s1) = None
    | None =>
      current_tool (_internal_flags s1) = current_tool fl
      /\ former_tool (_internal_flags s1) = None
    end in
  let nothing_sent (s1 : t) :=
    written s1 = written s
    /\ _current_linenumber s1 = _current_linenumber s
    /\ _last_lines s1 = _last_lines s
    /\ state s1 = state s in
  exists s6,
    (slot_given s6 /\ tool_restored s6 /\ nothing_sent s6
     /\ _send_queue s6 = _send_queue s
     /\ resend_requested (_internal_flags s6) = resend_requested fl
     /\ trace s6 = trace s)
    /\ s' = (if negb (state_in (state s) OPERATIONAL_STATES) then s6
             else if bool_decide (resend_requested fl <> None) then
               snd (_send_next_from_resend env false s6)
             else _continue_sending s6)
    /\ calls_since s s' = (if continues then [CallContinueSending] else [])
    /\ (continues = false ->
          slot_given s' /\ tool_restored s' /\ nothing_sent s').
Proof.
intros s' fl continues slot_given tool_restored nothing_sent.
subst s'. unfold _on_comm_ok.
rewrite (proj2 (Z.ltb_ge 0 (ignore_ok (_internal_flags s)))) by exact Hignore.
rewrite bool_decide_eq_false_2 by exact Hstate.
set (s1 := if _resend_ok_timer s then set_resend_ok_timer false s else s).
assert (H1 : set_resend_ok_timer false s = s1).
{ subst s1. destruct s as [? ? ? ? ? ? ? ? ? ? [] ? ? ? ? ? ?];
    reflexivity. }
clearbody s1. subst s1. cbv zeta.
set (s4 := set_flag (flag_long_running_command false) _).
set (s5 := if truthy (former_tool (_internal_flags s4)) then _ else s4).
pose proof (_finish_heatup_rest env s5) as Hheat. cbv zeta in Hheat.
set (s6 := _finish_heatup env s5) in *.
destruct Hheat as ((Hst & Hc & Hq & Hn & Hl & Ht & Hw & Htr)
                   & (Hct & Hft & Hrr & Hlr & Hio & Hot) & Hh).
assert (Htool : match former_tool fl with
                | Some tool =>
                  if tool =? 0
                  then current_tool (_internal_flags s5) = current_tool fl
                       /\ former_tool (_internal_flags s5) = Some 0
                  else current_tool (_internal_flags s5) = tool
                       /\ former_tool (_internal_flags s5) = None
                | None =>
                  current_tool (_internal_flags s5) = current_tool fl
                  /\ former_tool (_internal_flags s5) = None
                end).
{ subst s5 s4. cbn [_internal_flags set_flag set_internal_flags
                    former_tool flag_long_running_command
                    clear_to_send_set set_clear_to_send flag_ok_timeout
                    set_resend_ok_timer].
  fold fl. unfold truthy.
  destruct (former_tool fl) as [tool|] eqn:Hf; [|split; [reflexivity|]].
  - destruct (tool =? 0) eqn:Hz; cbn [negb].
    + apply Z.eqb_eq in Hz. subst tool.
      split; [reflexivity|]. cbn. exact Hf.
    + split; reflexivity.
  - cbn. exact Hf. }
assert (H5 : _clear_to_send s5 = SendToken.set false (_clear_to_send s)
             /\ _resend_ok_timer s5 = false
             /\ ok_timeout (_internal_flags s5)
                = Some (communication_timeout env s)
             /\ long_running_command (_internal_flags s5) = false
             /\ ignore_ok (_internal_flags s5) = ignore_ok fl
             /\ resend_requested (_internal_flags s5) = resend_requested fl
             /\ written s5 = written s
             /\ _current_linenumber s5 = _current_linenumber s
             /\ _last_lines s5 = _last_lines s
             /\ state s5 = state s
             /\ _send_queue s5 = _send_queue s
             /\ trace s5 = trace s).
{ subst s5 s4.
  destruct (truthy _); split_and!; reflexivity. }
destruct H5 as (Kc & Kt & Kot & Klr & Kio & Krr & Kw & Kn & Kl & Kst & Kq
                & Ktr).
assert (Fslot : slot_given s6).
{ subst slot_given. cbv beta. rewrite Hc, Ht, Hot, Hlr, Hh, Hio.
  rewrite Kc, Kt, Kot, Klr, Kio. split_and!; reflexivity. }
assert (Ftool : tool_restored s6).
{ subst tool_restored. cbv beta. rewrite Hct, Hft. exact Htool. }
assert (Fsent : nothing_sent s6).
{ subst nothing_sent. cbv beta. rewrite Hw, Hn, Hl, Hst.
  rewrite Kw, Kn, Kl, Kst. split_and!; reflexivity. }
assert (Fstate : state s6 = state s) by (rewrite Hst; exact Kst).
assert (Frr : resend_requested (_internal_flags s6) = resend_requested fl)
  by (rewrite Hrr; exact Krr).
assert (Ftr : trace s6 = trace s) by (rewrite Htr; exact Ktr).
exists s6. split.
{ split_and!; [exact Fslot|exact Ftool|exact Fsent| |exact Frr|exact Ftr].
  rewrite Hq. exact Kq. }
rewrite Fstate, Frr. split; [reflexivity|].
subst continues.
destruct (state_in (state s) OPERATIONAL_STATES) eqn:Hop; cbn [negb andb].
- destruct (decide (resend_requested fl = None)) as [Hnone|Hsome].
  + rewrite (bool_decide_eq_false_2 (resend_requested fl <> None))
      by (intros H; exact (H Hnone)).
    rewrite (bool_decide_eq_true_2 _ Hnone).
    split; [|discriminate].
    unfold _continue_sending, call, calls_since. cbn [trace set_trace].
    rewrite Ftr. apply drop_app_length.
  + rewrite (bool_decide_eq_true_2 (resend_requested fl <> None) Hsome).
    rewrite (bool_decide_eq_false_2 _ Hsome).
    pose proof (_send_next_from_resend_rest env false s6) as Hres.
    cbv zeta in Hres.
    destruct Hres as ((Rst & Rc & Rn & Rl & Rt & Rw & Rtr)
                      & (_ & _ & Rh & Rct & Rft & Rlr & Rio & Rot)).
    split.
    * unfold calls_since. rewrite Rtr, Ftr. apply drop_all.
    * intros _. subst slot_given tool_restored nothing_sent. cbv beta in *.
      rewrite Rst, Rc, Rn, Rl, Rt, Rw, Rh, Rct, Rft, Rlr, Rio, Rot.
      split; [exact Fslot|split; [exact Ftool|exact Fsent]].
- split.
  + unfold calls_since. rewrite Ftr. apply drop_all.
  + intros _. split_and!; [exact Fslot|exact Ftool|exact Fsent].
Qed.

Lemma processed_ok_witness :
  let s := Samples.printing in
  let s' := _on_comm_ok Samples.sample_env false s in
  exists s6,
    _clear_to_send s6 = SendToken.set false (_clear_to_send s)
    /\ written s6 = written s
    /\ _send_queue s6 = _send_queue s
    /\ trace s6 = trace s
    /\ s' = _continue_sending s6
    /\ calls_since s s' = [CallContinueSending].
Proof.
pose proof (processed_ok Samples.sample_env false Samples.printing
              ltac:(vm_compute; discriminate) ltac:(discriminate)) as H.
cbv zeta in H.
destruct H as (s6 & ((Hc & _) & _ & (Hw & _) & Hq & _ & Htr) & Hs & Hcalls
               & _).
exists s6. split_and!;
  [exact Hc|exact Hw|exact Hq|exact Htr|exact Hs|exact Hcalls].
Defined.

Lemma ignore_oks_flag (n : nat) (s : t) :
  ignore_oks n s
  = set_flag (flag_ignore_ok (ignore_ok (_internal_flags s) + Z.of_nat n)) s.
Proof.
unfold ignore_oks. induction n as [|n IH].
- rewrite Z.add_0_r.
  destruct s as [? ? ? ? [] ? ? ? ? ? ? ? ? ? ? ? ?]. reflexivity.
- rewrite Nat.iter_succ, IH. unfold _on_comm_ignore_ok.
  cbn [_internal_flags set_flag set_internal_flags ignore_ok flag_ignore_ok].
  replace (ignore_ok (_internal_flags s) + Z.of_nat (S n))
    with (ignore_ok (_internal_flags s) + Z.of_nat n + 1) by lia.
  reflexivity.
Qed.

Lemma ignored_ok_counts_down (env : Env) (k : Z) (s : t) :
  0 <= k ->
  _on_comm_ok env false (set_flag (flag_ignore_ok (k + 1)) s)
  = set_flag (flag_ignore_ok k) s.
Proof.
intros Hk. unfold _on_comm_ok.
cbn [_internal_flags set_flag set_internal_flags ignore_ok flag_ignore_ok].
rewrite (proj2 (Z.ltb_lt 0 (k + 1))) by lia.
replace (k + 1 - 1) with k by lia.
rewrite (proj2 (Z.ltb_ge k 0)) by lia.
reflexivity.
Qed.

(** X20: [ok]s that the firmware announced as to be ignored cancel out:
    after [m] calls of [_on_comm_ignore_ok()], the next [n <= m] calls of
    [_on_comm_ok()] do nothing but count the flag down, so that [m] of
    them bring the engine back to the very state it was in; no slot is
    given to the send loop on the way. *)
Theorem ignored_oks_cancel_out (env : Env) (m n : nat) (s : t)
    (Hflag : 0 <= ignore_ok (_internal_flags s)) (Hle : (n <= m)%nat) :
  oks env n (ignore_oks m s)
  = set_flag (flag_ignore_ok
                (ignore_ok (_internal_flags s) + Z.of_nat m - Z.of_nat n)) s
  /\ oks env m (ignore_oks m s) = s.
Proof.
assert (Hgen : forall n, (n <= m)%nat ->
  oks env n (ignore_oks m s)
  = set_flag (flag_ignore_ok
                (ignore_ok (_internal_flags s) + Z.of_nat m - Z.of_nat n)) s).
{ clear n Hle. intros n. induction n as [|n IH]; intros Hle.
  - unfold oks. change (Nat.iter 0 ?f ?x) with x. rewrite ignore_oks_flag.
    rewrite Z.sub_0_r. reflexivity.
  - unfold oks in *. rewrite Nat.iter_succ, IH by lia.
    replace (ignore_ok (_internal_flags s) + Z.of_nat m - Z.of_nat n)
      with (ignore_ok (_internal_flags s) + Z.of_nat m - Z.of_nat (S n) + 1)
      by lia.
    apply ignored_ok_counts_down. lia. }
split; [exact (Hgen n Hle)|].
rewrite (Hgen m) by lia.
replace (ignore_ok (_internal_flags s) + Z.of_nat m - Z.of_nat m)
  with (ignore_ok (_internal_flags s)) by lia.
destruct s as [? ? ? ? [] ? ? ? ? ? ? ? ? ? ? ? ?]. reflexivity.
Qed.

Lemma ignored_oks_cancel_out_witness :
  oks Samples.sample_env 3 (ignore_oks 3 Samples.printing)
  = Samples.printing.
Proof.
exact (proj2 (ignored_oks_cancel_out Samples.sample_env 3 3 Samples.printing
                ltac:(vm_compute; discriminate) ltac:(lia))).
Defined.

(** X21: [_finish_heatup()] ends a heatup once: the time since
    [heating_start] is added to [heating_lost] when a heatup is on and its
    start was recorded (a start of 0 counts as not recorded), the heatup is
    off afterwards, and a further call, at whatever time, changes
    nothing. *)
Theorem finish_heatup_accounts_once (env env' : Env) (s : t) :
  let s' := _finish_heatup env s in
  let fl := _internal_flags s in
  let fl' := _internal_flags s' in
  heating fl' = false
  /\ heating_lost fl'
     = (if heating fl && truthy (heating_start fl)
        then heating_lost fl
             + (monotonic env - default 0 (heating_start fl))
        else heating_lost fl)
  /\ heating_start fl'
     = (if heating fl && truthy (heating_start fl)
        then None else heating_start fl)
  /\ _finish_heatup env' s' = s'
  /\ (heating fl = false -> s' = s).
Proof.
destruct s as [st fv tm mx fl q c cur h e tmr act job err mi w tr].
destruct fl. unfold _finish_heatup, truthy. cbn.
destruct heating0; cbn; [|split_and!; reflexivity].
destruct heating_start0 as [start|]; cbn;
  [|split_and!; try reflexivity; discriminate].
destruct (start =? 0); cbn; split_and!; try reflexivity; discriminate.
Qed.

Lemma finish_heatup_accounts_once_witness :
  _finish_heatup Samples.sample_env Samples.printing = Samples.printing.
Proof.
exact (proj2 (proj2 (proj2 (proj2
         (finish_heatup_accounts_once Samples.sample_env Samples.sample_env
            Samples.printing)))) eq_refl).
Defined.

End AckFacts.

(** ** The phase pipeline *)

Module PipelineFacts.

Import Commands Protocol Runs EngineRuns.

Lemma apply_hook_length (env : Env) (phase name : string)
    (results : list Command) :
  phase <> "queuing"%string ->
  (length (apply_hook env phase name results) <= length results)%nat.
Proof.
intros Hphase. unfold apply_hook.
assert (Hq : String.eqb phase "queuing" = false)
  by (apply String.eqb_neq; exact Hphase).
rewrite Hq. cbn [negb andb].
induction results as [|command rest IH]; [reflexivity|].
cbn [flat_map]. rewrite length_app. cbn [length].
destruct (gcode_hook env name phase command) as [hook_results|];
  [|cbn [length]; lia].
destruct (1 <? length _)%nat eqn:Hlen; [cbn [length]; lia|].
apply Nat.ltb_ge in Hlen. lia.
Qed.

(** X22: outside of the queuing phase the G-code hooks of plugins can
    rewrite or drop commands but cannot turn one command into several:
    what the loop over the hooks hands on is never longer than what it was
    given, and when it hands something on it is not empty. *)
Theorem hooks_multiply_only_while_queuing (env : Env) (phase : string)
    (names : hooks) (results r : list Command)
    (Hphase : phase <> "queuing"%string)
    (Hsome : apply_hooks env phase names results = Some r) :
  (length r <= length results)%nat /\ (results <> [] -> r <> []).
Proof.
revert results Hsome. induction names as [|name rest IH];
  intros results Hsome.
- cbn in Hsome. injection Hsome as <-. auto.
- cbn [apply_hooks] in Hsome.
  pose proof (apply_hook_length env phase name results Hphase) as Hlen.
  destruct (apply_hook env phase name results) as [|c new] eqn:Hnew;
    [discriminate|].
  destruct (IH _ Hsome) as (Hle & Hne).
  split; [lia|].
  intros _. apply Hne. discriminate.
Qed.

Lemma hooks_multiply_only_while_queuing_witness :
  apply_hooks Samples.sample_env "sending" ["plugin"%string]
    [Samples.G1 0] = Some [Samples.G1 0]
  /\ (1 <= 1)%nat.
Proof.
split; [reflexivity|].
exact (proj1 (hooks_multiply_only_while_queuing Samples.sample_env
                "sending" ["plugin"%string] [Samples.G1 0] [Samples.G1 0]
                ltac:(discriminate) eq_refl)).
Defined.

(** X23: a G-code command of the flavor's emergency commands, other than
    the emergency stop itself, jumps the queue exactly when the firmware
    has announced the emergency parser and the capability is in use: it is
    then written at once (numbered when the line needs a checksum), one
    slot of the send token is used up for the acknowledgement to come, and
    the command is taken out of what is queued.  Otherwise the command is
    queued as it is and nothing happens; in neither case is the job paused
    or the command blocked, whatever the flavor lists. *)
Theorem emergency_command_jumps_the_queue (env : Env) (command : Command)
    (c : string) (s : t)
    (Hcode : code command = Some c)
    (Hemergency : c ∈ emergency_commands (flavor s))
    (Hnotstop : code (command_emergency_stop (flavor s)) <> Some c) :
  let fl := _internal_flags s in
  let parser :=
    default false
      (firmware_capability_support fl !! CAPABILITY_EMERGENCY_PARSER)
    && default false
         (firmware_capabilities fl !! CAPABILITY_EMERGENCY_PARSER) in
  let r := _command_phase_queuing command s in
  let s' := snd r in
  let queued :=
    Normalize.normalize_command_handler_result (ops env) command (fst r)
      None in
  if parser then
    queued = []
    /\ written s'
       = written s
         ++ [if _needs_checksum command s
             then numbered_line (Commands.bytes command)
                    (_current_linenumber s) ++ Py.b_newline
             else Commands.bytes command ++ Py.b_newline]
    /\ _current_linenumber s'
       = _current_linenumber s
         + (if _needs_checksum command s then 1 else 0)
    /\ _clear_to_send s' = SendToken.clear false (_clear_to_send s)
    /\ calls_since s s' = []
  else queued = [command] /\ s' = s.
Proof.
intros fl parser r s' queued. subst queued s' r parser.
unfold _command_phase_queuing. rewrite Hcode.
rewrite (bool_decide_eq_true_2 _ Hemergency).
rewrite bool_decide_eq_false_2 by (intros H; apply Hnotstop; auto).
cbn [negb andb]. unfold _emergency_force_send. fold fl.
destruct (default false
            (firmware_capability_support fl !! CAPABILITY_EMERGENCY_PARSER));
  cbn [negb andb orb]; [|split; reflexivity].
destruct (default false
            (firmware_capabilities fl !! CAPABILITY_EMERGENCY_PARSER));
  cbn [negb andb orb]; [|split; reflexivity].
cbn [fst snd]. unfold _do_send, calls_since.
destruct (_needs_checksum command s); cbn; rewrite drop_all, ?Z.add_0_r;
  split_and!; reflexivity.
Qed.

Lemma emergency_command_jumps_the_queue_witness :
  let M108 :=
    {| kind := GcodeCommand "M108" ∅; line := "M108"; type := None;
       tags := ∅ |} in
  let s :=
    set_flag (flag_firmware_capabilities
                {[CAPABILITY_EMERGENCY_PARSER := true]})
      (set_flag (flag_firmware_capability_support
                   {[CAPABILITY_EMERGENCY_PARSER := true]})
         Samples.printing) in
  let r := _command_phase_queuing M108 s in
  Normalize.normalize_command_handler_result Samples.sample_ops M108 (fst r)
    None = []
  /\ written (snd r)
     = written s ++ [numbered_line (Py.to_bytes "M108") 4 ++ Py.b_newline]
  /\ _current_linenumber (snd r) = 5.
Proof.
intros M108 s r.
pose proof (emergency_command_jumps_the_queue Samples.sample_env M108
              "M108" s eq_refl
              ltac:(apply (bool_decide_unpack _); vm_compute; exact I)
              ltac:(discriminate)) as H.
cbv zeta in H.
assert (Hparser :
  default false
    (firmware_capability_support (_internal_flags s)
       !! CAPABILITY_EMERGENCY_PARSER)
  && default false
       (firmware_capabilities (_internal_flags s)
          !! CAPABILITY_EMERGENCY_PARSER) = true)
  by (vm_compute; reflexivity).
rewrite Hparser in H.
destruct H as (Hq & Hw & Hn & _).
split_and!; [exact Hq|exact Hw|exact Hn].
Defined.

(** X24: for a G-code command that does not jump the queue, the queuing
    phase calls [pause_processing(tags=command.tags)] when the engine is in
    a processing state and the command is one of the flavor's pausing
    commands, and takes the command out of what is queued exactly when it
    is one of the blocked commands (so a command that is both pauses the
    job and never reaches the printer).  When it does not pause, the
    handler leaves the engine as it is; when it does, only the call is
    stated, since what the call does is not part of the model.  A command
    that is not G-code passes unchanged. *)
Theorem blocked_command_is_dropped (env : Env) (command : Command) (s : t) :
  let r := _command_phase_queuing command s in
  let s' := snd r in
  let queued :=
    Normalize.normalize_command_handler_result (ops env) command (fst r)
      None in
  (forall c,
     code command = Some c ->
     c ∉ emergency_commands (flavor s)
     \/ code (command_emergency_stop (flavor s)) = Some c ->
     let pauses :=
       state_in (state s) PROCESSING_STATES
       && bool_decide (c ∈ pausing_commands (flavor s)) in
     queued
     = (if bool_decide (c ∈ blocked_commands (flavor s))
        then [] else [command])
     /\ calls_since s s'
        = (if pauses then [CallPauseProcessing (tags command)] else [])
     /\ (pauses = false -> s' = s))
  /\ (code command = None -> queued = [command] /\ s' = s).
Proof.
intros r s' queued. subst queued s' r. unfold _command_phase_queuing.
split.
- intros c Hcode Hplain. rewrite Hcode.
  assert (Hguard :
    bool_decide (c ∈ emergency_commands (flavor s))
    && negb (bool_decide
               (Some c = code (command_emergency_stop (flavor s))))
    = false).
  { destruct Hplain as [Hno|Hstop].
    - rewrite (bool_decide_eq_false_2 _ Hno). reflexivity.
    - rewrite (bool_decide_eq_true_2
                 (Some c = code (command_emergency_stop (flavor s))))
        by (symmetry; exact Hstop).
      apply andb_false_r. }
  rewrite Hguard. unfold calls_since.
  destruct (state_in (state s) PROCESSING_STATES
            && bool_decide (c ∈ pausing_commands (flavor s)));
    cbn [flavor call set_trace];
    destruct (bool_decide (c ∈ blocked_commands (flavor s)));
    cbn; rewrite ?drop_all, ?drop_app_length;
    split_and!; try reflexivity; discriminate.
- intros Hcode. rewrite Hcode. split; reflexivity.
Qed.

Lemma blocked_command_is_dropped_witness :
  let M0 :=
    {| kind := GcodeCommand "M0" ∅; line := "M0"; type := None;
       tags := ∅ |} in
  let r := _command_phase_queuing M0 Samples.printing in
  let r0 := _command_phase_queuing M0 (init Samples.sample_flavor) in
  (Normalize.normalize_command_handler_result Samples.sample_ops M0 (fst r)
     None = []
   /\ calls_since Samples.printing (snd r) = [CallPauseProcessing ∅])
  /\ (Normalize.normalize_command_handler_result Samples.sample_ops M0
        (fst r0) None = []
      /\ snd r0 = init Samples.sample_flavor).
Proof.
intros M0 r r0.
assert (Hno : "M0"%string ∉ emergency_commands Samples.sample_flavor)
  by (apply (bool_decide_unpack _); vm_compute; exact I).
split.
- pose proof (proj1 (blocked_command_is_dropped Samples.sample_env M0
                       Samples.printing)
                "M0"%string eq_refl (or_introl Hno)) as H.
  destruct H as (Hq & Hc & _).
  split; [exact Hq|exact Hc].
- pose proof (proj1 (blocked_command_is_dropped Samples.sample_env M0
                       (init Samples.sample_flavor))
                "M0"%string eq_refl (or_introl Hno)) as H.
  destruct H as (Hq & _ & Hs).
  split; [exact Hq|exact (Hs eq_refl)].
Defined.

(** X26: for an entry without a line number the send loop never hands a
    blank line or an \@-command to the transport, a line being blank when
    it is made of characters that [str.strip()] removes, the whitespace of
    ASCII as well as that of Unicode (the no-break space among them): when
    a turn gets as far as the write, the line is not blank, the command is
    not an \@-command, and the write is the one of [_do_send]; a processed
    entry with a blank line makes the turn end with [_continue_sending()],
    nothing being written before this call. *)
Theorem send_loop_never_writes_blank_lines (env : Env) (entry : SendEntry)
    (s : t) :
  (forall command s',
     entry_linenumber entry = None ->
     send_entry env entry s = Written command s' ->
     strip_is_empty (line command) = false
     /\ is_atcommand command = false
     /\ exists s1, s' = _do_send command s1)
  /\ (forall command,
        entry_linenumber entry = None ->
        entry_processed entry = true ->
        entry_command entry = ItemCommand command ->
        strip_is_empty (line command) = true ->
        exists s1,
          send_entry env entry s = Skipped (_continue_sending s1)
          /\ written s1 = written s
          /\ _current_linenumber s1 = _current_linenumber s).
Proof.
split.
- intros command s' Hnone Hsent. unfold send_entry in Hsent.
  rewrite Hnone in Hsent.
  set (s0 := match dwelling_until (_internal_flags s) with
             | Some _ => _ | None => _ end) in Hsent.
  clearbody s0.
  destruct (entry_command entry) as [c|marker]; [|discriminate].
  destruct (entry_processed entry); cbn [negb] in Hsent.
  + destruct (strip_is_empty (line c)) eqn:Hblank; [discriminate|].
    destruct (is_atcommand c) eqn:Hat.
    * destruct (_process_command_phase env "sending" c s0); discriminate.
    * injection Hsent as <- <-. split_and!; eauto.
  + destruct (_process_command_phase env "sending" c s0)
      as [results s1].
    destruct results as [|c1 [|c2 more]]; try discriminate.
    destruct (strip_is_empty (line c1)) eqn:Hblank; [discriminate|].
    destruct (is_atcommand c1) eqn:Hat.
    * destruct (_process_command_phase env "sending" c1 s1); discriminate.
    * injection Hsent as <- <-. split_and!; eauto.
- intros command Hnone Hproc Hcmd Hblank. unfold send_entry.
  rewrite Hnone, Hproc, Hcmd. cbn [negb]. rewrite Hblank.
  eexists. split; [reflexivity|].
  destruct (dwelling_until (_internal_flags s)) as [until|];
    [|split; reflexivity].
  destruct (block_while_dwelling (flavor s) && negb (until =? 0)
            && (monotonic env <? until));
    split; reflexivity.
Qed.

Lemma send_loop_never_writes_blank_lines_witness :
  let no_break_space :=
    String (ascii_of_nat 194) (String (ascii_of_nat 160) EmptyString) in
  let em_space :=
    String (ascii_of_nat 226)
      (String (ascii_of_nat 128)
         (String (ascii_of_nat 131) EmptyString)) in
  let blank :=
    {| kind := PlainCommand;
       line := (" " ++ no_break_space ++ em_space ++ " ")%string;
       type := None; tags := ∅ |} in
  let entry :=
    {| entry_command := ItemCommand blank; entry_linenumber := None;
       entry_on_sent := None; entry_processed := true |} in
  strip_is_empty (line blank) = true
  /\ exists s1,
       send_entry Samples.sample_env entry Samples.printing
       = Skipped (_continue_sending s1)
       /\ written s1 = written Samples.printing
       /\ _current_linenumber s1 = _current_linenumber Samples.printing.
Proof.
intros no_break_space em_space blank entry.
assert (Hblank : strip_is_empty (line blank) = true)
  by (vm_compute; reflexivity).
split; [exact Hblank|].
exact (proj2 (send_loop_never_writes_blank_lines Samples.sample_env entry
                Samples.printing)
         blank eq_refl eq_refl eq_refl Hblank).
Defined.

End PipelineFacts.

(** ** The emergency stop *)

Module EmergencyStopFacts.

Import Commands Protocol Runs EngineRuns EmergencyStop.

Lemma send_all_map {A : Type} (line_of : A -> Py.bytes) (items : list A)
    (s : t) :
  fold_left (fun s item => _do_increment_and_send_with_checksum
                             (line_of item) s) items s
  = send_all (map line_of items) s.
Proof.
unfold send_all. revert s.
induction items as [|item items IH]; intros s; [reflexivity|].
cbn [map fold_left]. apply IH.
Qed.

Lemma send_all_app (a b : list Py.bytes) (s : t) :
  send_all (a ++ b) s = send_all b (send_all a s).
Proof. unfold send_all. apply fold_left_app. Qed.

(** The state [_gcode_M112_queuing] leaves: the plain stop line, then the
    stop line and the heater lines as one run of numbered lines. *)
Lemma _gcode_M112_queuing_state (profile : PrinterProfile)
    (heaters : HeaterCommands) (command : Command) (s : t) :
  let stop := Commands.bytes (command_emergency_stop (flavor s)) in
  snd (_gcode_M112_queuing profile heaters command s)
  = send_all (stop :: heater_lines profile heaters)
      (_do_send_without_checksum stop s).
Proof.
cbv zeta. unfold _gcode_M112_queuing, heater_lines. cbn [snd].
change (send_all (?x :: ?l) ?s0)
  with (send_all l (_do_increment_and_send_with_checksum x s0)).
rewrite send_all_app.
destruct ((1 <? extruder_count profile)
          && negb (extruder_sharedNozzle profile)).
- rewrite send_all_map.
  destruct (heatedBed profile); reflexivity.
- destruct (heatedBed profile); reflexivity.
Qed.

(** X25: the emergency stop jumps every queue.  [_gcode_M112_queuing]
    writes the stop line once as it is and once more under the current
    line number, then, numbered on from there, a line that sets the
    extruder target to 0 for every tool (one line for all when the profile
    has a single extruder or a shared nozzle) and one for the bed when the
    profile has a heated bed.  It does so without asking the send token
    or the send queue, fires the [E_STOP] event, and takes the command
    out of what is queued, so that it is not sent a third time. *)
Theorem emergency_stop_shuts_heaters_off (env : Env)
    (profile : PrinterProfile) (heaters : HeaterCommands)
    (command : Command) (s : t) :
  let r := _gcode_M112_queuing profile heaters command s in
  let s' := snd r in
  let stop := Commands.bytes (command_emergency_stop (flavor s)) in
  let heaters_off := heater_lines profile heaters in
  written s'
  = written s ++ [stop ++ Py.b_newline]
    ++ frames_from (_current_linenumber s) (stop :: heaters_off)
  /\ _current_linenumber s'
     = _current_linenumber s + 1 + Z.of_nat (length heaters_off)
  /\ Z.of_nat (length heaters_off)
     = (if (1 <? extruder_count profile)
           && negb (extruder_sharedNozzle profile)
        then extruder_count profile else 1)
       + (if heatedBed profile then 1 else 0)
  /\ _clear_to_send s' = _clear_to_send s
  /\ _send_queue s' = _send_queue s
  /\ snd (fst r) = ["E_STOP"%string]
  /\ Normalize.normalize_command_handler_result (ops env) command
       (fst (fst r)) None = [].
Proof.
intros r s' stop heaters_off. subst s' r.
rewrite _gcode_M112_queuing_state. fold stop. fold heaters_off.
pose proof (SendRunsFacts.send_all_run (stop :: heaters_off)
              (_do_send_without_checksum stop s)) as Hrun.
cbv zeta in Hrun.
destruct Hrun as (Hn & Hw & _ & Hq & Hc & _ & _).
split_and!.
- rewrite Hw. unfold _do_send_without_checksum, transport_write. cbn.
  rewrite <- app_assoc. reflexivity.
- rewrite Hn. cbn [length]. cbn. lia.
- subst heaters_off. unfold heater_lines. rewrite length_app.
  destruct ((1 <? extruder_count profile)
            && negb (extruder_sharedNozzle profile)) eqn:Hmulti;
    destruct (heatedBed profile); cbn [length];
    rewrite ?length_map; unfold range; rewrite ?length_map, ?length_seq;
    try lia.
  all: apply andb_true_iff in Hmulti as [Hcount _];
    apply Z.ltb_lt in Hcount; lia.
- rewrite Hc. reflexivity.
- rewrite Hq. reflexivity.
- reflexivity.
- reflexivity.
Qed.

End EmergencyStopFacts.

(** ** Timeouts in a row *)

Module TimeoutRunsFacts.

Import Commands Protocol Runs EngineRuns.






End TimeoutRunsFacts.

(** ** What the engine keeps *)

Module InvariantFacts.

Import Commands Protocol Runs EngineRuns Handlers.

(** A step that leaves the line counter, the history and the send token
    alone, and one that makes at most one call on the send token, which
    is [set()] or [clear()] without an argument. *)
Definition still (s s' : t) : Prop :=
_current_linenumber s' = _current_linenumber s
/\ _last_lines s' = _last_lines s
/\ _clear_to_send s' = _clear_to_send s.

Definition quiet (s s' : t) : Prop :=
_current_linenumber s' = _current_linenumber s
/\ _last_lines s' = _last_lines s
/\ (_clear_to_send s' = _clear_to_send s
    \/ exists c,
         (c = CallSet false \/ c = CallClear false)
         /\ _clear_to_send s' = token_call c (_clear_to_send s)).

Lemma still_refl (s : t) : still s s.
Proof. split_and!; reflexivity. Qed.

Lemma still_trans (s x s' : t) : still s x -> still x s' -> still s s'.
Proof.
intros (Hn & Hl & Hc) (Hn' & Hl' & Hc'). unfold still.
rewrite Hn', Hl', Hc'. auto.
Qed.

Lemma still_quiet (s s' : t) : still s s' -> quiet s s'.
Proof. intros (Hn & Hl & Hc). split_and!; auto. Qed.

Lemma quiet_still (s x s' : t) : quiet s x -> still x s' -> quiet s s'.
Proof.
intros (Hn & Hl & Hc) (Hn' & Hl' & Hc'). unfold quiet.
rewrite Hn', Hl', Hc'. auto.
Qed.

Lemma still_then_quiet (s x s' : t) : still s x -> quiet x s' -> quiet s s'.
Proof.
intros (Hn & Hl & Hc) (Hn' & Hl' & Hc'). unfold quiet.
rewrite Hn', Hl', Hn, Hl. rewrite Hc in Hc'. auto.
Qed.

Lemma still_set (s x : t) : still s x -> quiet s (clear_to_send_set x).
Proof.
intros (Hn & Hl & Hc). split_and!; [exact Hn|exact Hl|].
right. exists (CallSet false). split; [left; reflexivity|].
cbn. rewrite Hc. reflexivity.
Qed.

Lemma still_clear (s x : t) :
  still s x ->
  quiet s (set_clear_to_send (SendToken.clear false (_clear_to_send x)) x).
Proof.
intros (Hn & Hl & Hc). split_and!; [exact Hn|exact Hl|].
right. exists (CallClear false). split; [right; reflexivity|].
cbn. rewrite Hc. reflexivity.
Qed.

Lemma invariant_quiet (s s' : t) :
  engine_invariant s -> quiet s s' -> engine_invariant s'.
Proof.
intros (Hb & Hs & Hc & Hd & Hl & Hr & Hi & Hm) (Hn & Hh & Ht).
unfold engine_invariant, history_below. rewrite Hn, Hh.
split_and!; try assumption.
all: destruct Ht as [->|[c [_ ->]]]; try assumption.
all: destruct (TokenRunsFacts.token_call_keeps c _ Hm Hi) as (Kr & Ki & Km);
  try assumption.
rewrite Km. exact Hm.
Qed.

Lemma invariant_numbered (line : Py.bytes) (s : t) :
  engine_invariant s ->
  engine_invariant (_do_increment_and_send_with_checksum line s).
Proof.
intros (Hb & Hs & Hc & Hd & Hl & Hr & Hi & Hm).
set (n := _current_linenumber s).
set (h := _last_lines s) in *.
assert (Hfresh : forall l, (l, Some n) ∉ LineHistory._lines h).
{ intros l Hin. apply Hb in Hin. subst n. lia. }
destruct (HistoryRunsFacts.append_fresh h (Py.to_unicode line) n Hc Hd
            Hfresh) as (Hc' & Hd').
unfold engine_invariant, history_below.
change (_last_lines (_do_increment_and_send_with_checksum line s))
  with (LineHistory.append (Py.to_unicode line) (Some n) h).
change (_current_linenumber (_do_increment_and_send_with_checksum line s))
  with (n + 1).
change (_clear_to_send (_do_increment_and_send_with_checksum line s))
  with (_clear_to_send s).
split_and!; try assumption.
- intros l k Hin. apply LineHistoryFacts.append_elem in Hin as [Hin|Hin].
  + apply Hb in Hin. fold n in Hin. lia.
  + injection Hin as _ ->. lia.
- apply HistoryRunsFacts.append_sound. exact Hs.
- unfold LineHistory.len. rewrite LineHistoryFacts.append_max.
  apply LineHistoryFacts.append_length.
Qed.

Lemma invariant_do_send (command : Command) (s : t) :
  engine_invariant s -> engine_invariant (_do_send command s).
Proof.
intros Hinv. unfold _do_send.
destruct (_needs_checksum command s).
- apply invariant_numbered. exact Hinv.
- apply (invariant_quiet s); [exact Hinv|].
  apply still_quiet. split_and!; reflexivity.
Qed.

Lemma invariant_send_all (lines : list Py.bytes) (s : t) :
  engine_invariant s -> engine_invariant (send_all lines s).
Proof.
revert s. induction lines as [|line lines IH]; intros s Hinv;
  [exact Hinv|].
cbn [send_all fold_left]. apply IH. apply invariant_numbered. exact Hinv.
Qed.

Lemma _send_next_from_resend_still (env : Env) (again : bool) (s : t) :
  still s (snd (_send_next_from_resend env again s)).
Proof.
pose proof (AckFacts._send_next_from_resend_rest env again s) as Hr.
cbv zeta in Hr. destruct Hr as ((_ & Hc & Hn & Hl & _) & _).
split_and!; auto.
Qed.

Lemma _finish_heatup_still (env : Env) (s : t) :
  still s (_finish_heatup env s).
Proof.
pose proof (AckFacts._finish_heatup_rest env s) as Hr.
cbv zeta in Hr. destruct Hr as ((_ & Hc & _ & Hn & Hl & _) & _).
split_and!; auto.
Qed.

Lemma _on_comm_ok_quiet (env : Env) (wait : bool) (s : t) :
  quiet s (_on_comm_ok env wait s).
Proof.
unfold _on_comm_ok.
destruct (0 <? ignore_ok (_internal_flags s)).
{ destruct (_ <? 0); apply still_quiet; split_and!; reflexivity. }
case_bool_decide; [apply still_quiet; split_and!; reflexivity|].
cbv zeta.
set (s3 := clear_to_send_set _).
assert (H3 : quiet s s3).
{ subst s3. apply still_set.
  destruct (_resend_ok_timer s); split_and!; reflexivity. }
set (s4 := set_flag (flag_long_running_command false) s3).
set (s5 := if truthy (former_tool (_internal_flags s4)) then _ else s4).
assert (H5 : quiet s s5).
{ apply (quiet_still s s3); [exact H3|].
  subst s5 s4; destruct (truthy _); split_and!; reflexivity. }
assert (H6 : quiet s (_finish_heatup env s5))
  by (apply (quiet_still s s5); [exact H5|apply _finish_heatup_still]).
set (s6 := _finish_heatup env s5) in *.
destruct (negb (state_in (state s6) OPERATIONAL_STATES)); [exact H6|].
case_bool_decide.
- apply (quiet_still s s6); [exact H6|].
  apply _send_next_from_resend_still.
- apply (quiet_still s s6); [exact H6|]. split_and!; reflexivity.
Qed.

Lemma _on_comm_timeout_quiet (env : Env) (line lower_line : string)
    (s : t) :
  quiet s (snd (_on_comm_timeout env line lower_line s)).
Proof.
unfold _on_comm_timeout. cbv zeta.
set (s1 := set_flag (flag_timeout_consecutive _) s).
assert (H1 : still s s1) by (split_and!; reflexivity).
cbn [snd].
match goal with
| |- quiet s (set_flag ?f ?x) =>
  assert (Hx : quiet s x);
    [|apply (quiet_still s x); [exact Hx|split_and!; reflexivity]]
end.
destruct (_ && _).
{ apply still_quiet. split_and!; reflexivity. }
case_bool_decide.
{ unfold _send_same_from_resend.
  pose proof (_send_next_from_resend_still env true s1) as Hs.
  destruct (_send_next_from_resend env true s1) as [sent s2].
  cbn [snd] in Hs. destruct sent.
  - apply still_set. exact (still_trans _ _ _ H1 Hs).
  - apply still_quiet. exact (still_trans _ _ _ H1 Hs). }
destruct (heating (_internal_flags s1)).
{ apply still_quiet.
  exact (still_trans _ _ _ H1 (_finish_heatup_still env s1)). }
destruct (long_running_command (_internal_flags s1));
  [apply still_quiet; exact H1|].
destruct (state_in (state s1) [PROCESSING; PAUSED]).
{ unfold _send_command.
  destruct (send_command_accepts env M105_temperature).
  - apply still_set. split_and!; reflexivity.
  - apply still_quiet. split_and!; reflexivity. }
destruct (SendToken.blocked (_clear_to_send s1)).
- apply still_set. exact H1.
- apply still_quiet. exact H1.
Qed.

Lemma _on_comm_resend_quiet (env : Env) (linenumber : option Z) (s : t) :
  quiet s (_on_comm_resend env linenumber s).
Proof.
assert (Hfinally : forall x, still s x ->
  quiet s
    (if String.eqb (trigger_ok_after_resend (flavor x)) "always" then
       _on_comm_ok env false x
     else if String.eqb (trigger_ok_after_resend (flavor x)) "detect" then
       set_resend_ok_timer true x
     else x)).
{ intros x Hx.
  destruct (String.eqb (trigger_ok_after_resend (flavor x)) "always").
  - exact (still_then_quiet _ _ _ Hx (_on_comm_ok_quiet env false x)).
  - destruct (String.eqb (trigger_ok_after_resend (flavor x)) "detect");
      apply still_quiet; [|exact Hx].
    apply (still_trans _ _ _ Hx). split_and!; reflexivity. }
unfold _on_comm_resend. cbv zeta.
destruct linenumber as [n|]; [|apply Hfinally, still_refl].
destruct (_ && (n =? _)); [apply Hfinally, still_refl|].
destruct (_ && _ && _); [apply Hfinally; split_and!; reflexivity|].
destruct (negb (LineHistory.contains n _)); cbn [andb].
- destruct (negb (_is_busy _));
    apply Hfinally; split_and!; reflexivity.
- apply Hfinally; split_and!; reflexivity.
Qed.

Lemma invariant_queuing (command : Command) (s : t) :
  engine_invariant s ->
  engine_invariant (snd (_command_phase_queuing command s)).
Proof.
intros Hinv. unfold _command_phase_queuing.
destruct (code command) as [c|]; [|exact Hinv].
destruct (_ && negb _).
- unfold _emergency_force_send.
  destruct (_ || _); [exact Hinv|]. cbn [snd].
  apply (invariant_quiet (_do_send command s));
    [apply invariant_do_send; exact Hinv|].
  apply still_clear, still_refl.
- apply (invariant_quiet s); [exact Hinv|]. apply still_quiet.
  destruct (_ && bool_decide _);
    destruct (bool_decide (c ∈ blocked_commands _));
    split_and!; reflexivity.
Qed.

Lemma invariant_M110 (command : Command) (s : t) :
  engine_invariant s -> engine_invariant (_gcode_M110_sending command s).
Proof.
intros (Hb & Hs & Hc & Hd & Hl & Hr & Hi & Hm).
unfold engine_invariant, history_below, lookup_sound, lookup_complete,
  numbers_distinct, _gcode_M110_sending.
cbn. split_and!; try assumption.
- intros l n Hin. apply elem_of_nil in Hin. contradiction.
- intros n l Hin. rewrite lookup_empty in Hin. discriminate.
- intros n l Hin. apply elem_of_nil in Hin. contradiction.
- apply NoDup_nil_2.
- lia.
Qed.

Lemma invariant_init (flavor : Flavor) : engine_invariant (init flavor).
Proof.
unfold engine_invariant, history_below, lookup_sound, lookup_complete,
  numbers_distinct. cbn. split_and!.
- intros l n Hin. apply elem_of_nil in Hin. contradiction.
- intros n l Hin. rewrite lookup_empty in Hin. discriminate.
- intros n l Hin. apply elem_of_nil in Hin. contradiction.
- apply NoDup_nil_2.
- lia.
- cbv. split; discriminate.
- lia.
- lia.
Qed.

(** No handler asks the send token to ignore an acknowledgement. *)
Definition never_ignores (s : t) : Prop :=
SendToken._ignored (_clear_to_send s) = 0.

Lemma never_ignores_quiet (s s' : t) :
  never_ignores s -> quiet s s' -> never_ignores s'.
Proof.
unfold never_ignores. intros Hi (_ & _ & Ht).
destruct Ht as [->|[c [[->| ->] ->]]]; [exact Hi|exact Hi|].
cbn [token_call]. unfold SendToken.clear. rewrite Hi. exact Hi.
Qed.

Lemma _do_send_token (command : Command) (s : t) :
  _clear_to_send (_do_send command s) = _clear_to_send s.
Proof. unfold _do_send. destruct (_needs_checksum command s); reflexivity. Qed.

Lemma send_all_token (lines : list Py.bytes) (s : t) :
  _clear_to_send (send_all lines s) = _clear_to_send s.
Proof.
revert s. induction lines as [|line lines IH]; intros s; [reflexivity|].
cbn [send_all fold_left]. etransitivity; [apply IH|reflexivity].
Qed.

(** From a fresh engine on, whatever the handlers do, the send token has
    no ignore pending: [set(ignore=True)] is called nowhere, so that a
    [clear()] takes one slot, never two. *)
Lemma engine_never_ignores (env : Env) (events : list Event) :
  (forall s, never_ignores s -> never_ignores (handle_all env events s))
  /\ (forall flavor, never_ignores (handle_all env events (init flavor))).
Proof.
assert (Hstep : forall e s,
  never_ignores s -> never_ignores (handle env e s)).
{ intros e s Hi.
  destruct e as [wait| |text lower|linenumber|again|command|command|command
                |profile heaters command];
    cbn [handle].
  - exact (never_ignores_quiet _ _ Hi (_on_comm_ok_quiet env wait s)).
  - exact Hi.
  - exact (never_ignores_quiet _ _ Hi
             (_on_comm_timeout_quiet env text lower s)).
  - exact (never_ignores_quiet _ _ Hi
             (_on_comm_resend_quiet env linenumber s)).
  - exact (never_ignores_quiet _ _ Hi
             (still_quiet _ _ (_send_next_from_resend_still env again s))).
  - unfold never_ignores. rewrite _do_send_token. exact Hi.
  - exact Hi.
  - unfold _command_phase_queuing.
    destruct (code command) as [c|]; [|exact Hi].
    destruct (_ && negb _).
    + unfold _emergency_force_send.
      destruct (_ || _); [exact Hi|]. cbn [snd].
      unfold never_ignores. cbn [_clear_to_send set_clear_to_send].
      rewrite _do_send_token. unfold SendToken.clear.
      rewrite Hi. exact Hi.
    + destruct (_ && bool_decide _);
        destruct (bool_decide (c ∈ blocked_commands _)); exact Hi.
  - rewrite EmergencyStopFacts._gcode_M112_queuing_state.
    unfold never_ignores. rewrite send_all_token. exact Hi. }
assert (Hall : forall s, never_ignores s ->
                 never_ignores (handle_all env events s)).
{ induction events as [|e events IH]; intros s Hi; [exact Hi|].
  cbn [handle_all fold_left]. apply IH. apply Hstep. exact Hi. }
split; [exact Hall|].
intros flavor. apply Hall. reflexivity.
Qed.

(** X28: the engine keeps its books in order.  Whatever the handlers for
    acknowledgements, ignored acknowledgements, timeouts and resend
    requests, the resend helpers, the sends, the queuing phase and the
    handlers of [M110] and [M112] do, in whatever order and for whatever
    arguments, from a fresh engine on: every numbered line of the history
    was sent under a number below the current line number; a line number
    is found in the history exactly when a line under that number is
    still held, and gives that line; no two lines of the history share a
    number; the history is within its capacity; and the counter of the
    send token is within its bounds. *)
Theorem engine_keeps_its_invariants (env : Env) (events : list Event) :
  (forall s, engine_invariant s ->
     engine_invariant (handle_all env events s))
  /\ (forall flavor, engine_invariant (handle_all env events (init flavor))).
Proof.
assert (Hstep : forall e s,
  engine_invariant s -> engine_invariant (handle env e s)).
{ intros e s Hinv.
  destruct e as [wait| |text lower|linenumber|again|command|command|command
                |profile heaters command];
    cbn [handle].
  - exact (invariant_quiet _ _ Hinv (_on_comm_ok_quiet env wait s)).
  - apply (invariant_quiet s); [exact Hinv|].
    apply still_quiet. split_and!; reflexivity.
  - exact (invariant_quiet _ _ Hinv
             (_on_comm_timeout_quiet env text lower s)).
  - exact (invariant_quiet _ _ Hinv
             (_on_comm_resend_quiet env linenumber s)).
  - exact (invariant_quiet _ _ Hinv
             (still_quiet _ _ (_send_next_from_resend_still env again s))).
  - apply invariant_do_send. exact Hinv.
  - apply invariant_M110. exact Hinv.
  - apply invariant_queuing. exact Hinv.
  - rewrite EmergencyStopFacts._gcode_M112_queuing_state.
    apply invariant_send_all.
    apply (invariant_quiet s); [exact Hinv|].
    apply still_quiet. split_and!; reflexivity. }
assert (Hall : forall s, engine_invariant s ->
                 engine_invariant (handle_all env events s)).
{ induction events as [|e events IH]; intros s Hinv; [exact Hinv|].
  cbn [handle_all fold_left]. apply IH. apply Hstep. exact Hinv. }
split; [exact Hall|].
intros flavor. apply Hall. apply invariant_init.
Qed.

Lemma engine_keeps_its_invariants_witness :
  engine_invariant
    (handle_all Samples.sample_env
       [Sends (Samples.G1 0); Sends (Samples.M110 7); OnResend (Some 1);
        OnOk false; OnTimeout "" ""; SendsM110 (Samples.M110 7);
        Sends (Samples.G1 1)]
       (init Samples.sample_flavor)).
Proof.
exact (proj2 (engine_keeps_its_invariants Samples.sample_env _)
         Samples.sample_flavor).
Defined.

End InvariantFacts.
